(** * ProductCareHub: warranty store and derived-state computations

    A shallow embedding of [server/storage.ts] (class [MemStorage]), of the
    warranty-status computations of [server/routes.ts] and of the analytics
    aggregation of [server/routes.ts] and [client/src/pages/analytics.tsx].

    Modelling conventions.
    - A JavaScript [Date] is its time value: [Some t] with [t] the number of
      milliseconds since the epoch, or [None] for an Invalid Date (NaN).
    - The calendar arithmetic of [Date.prototype.getFullYear] and
      [Date.prototype.setFullYear] follows the ECMAScript definitions
      (Day, DayFromYear, YearFromTime, MonthFromTime, DateFromTime, MakeDay,
      MakeDate, TimeClip, LocalTime, UTC).  The local time zone is the
      operation [LocalTZA(t, isUTC)] of ECMAScript: the offset from UTC in
      force at the instant [t], or at the local time [t], so that the
      offset may change with daylight saving.
    - A JavaScript [Map] is an association list in insertion order.
    - [randomUUID()] and [new Date()] are oracles: every operation receives
      the identifier and the clock reading it draws as explicit arguments.
    - Numbers are exact: integers are in [Z], quotients in [Q]; NaN is
      [None].  The rounding of IEEE doubles is outside the model.
    - A field that may be [null] or [undefined] is an [option]; a
      [Partial<T>] has an [option] per key, [Some v] when the key is present.
    - An [async] method is the function from the store before the call to its
      result and the store after it. *)

From Stdlib Require Import ZArith Lia Lqa Bool List String QArith Qround
  Permutation.
Import ListNotations.
Local Open Scope string_scope.
Local Open Scope Z_scope.

(* ================================================================== *)
(** ** JavaScript dates *)

Module JSDate.

(** A time value, or NaN. *)
Definition Date : Type := option Z.

Definition msPerDay : Z := 86400000.
Definition maxTime : Z := 8640000000000000.

Definition Day (t : Z) : Z := t / msPerDay.
Definition TimeWithinDay (t : Z) : Z := t mod msPerDay.

Definition isLeapYear (y : Z) : bool :=
  (y mod 4 =? 0) && (negb (y mod 100 =? 0) || (y mod 400 =? 0)).

Definition DaysInYear (y : Z) : Z := if isLeapYear y then 366 else 365.

(** 1 in a leap year, 0 otherwise. *)
Definition leapFlag (y : Z) : Z := if isLeapYear y then 1 else 0.

Definition DayFromYear (y : Z) : Z :=
  365 * (y - 1970) + (y - 1969) / 4 - (y - 1901) / 100 + (y - 1601) / 400.

(** The largest [y] with [DayFromYear y <= d], found from the mean year
    length of the Gregorian cycle and one correction step. *)
Definition YearFromDay (d : Z) : Z :=
  let y := 1970 + (d * 400) / 146097 in
  if d <? DayFromYear y then y - 1
  else if DayFromYear (y + 1) <=? d then y + 1
  else y.

Definition YearFromTime (t : Z) : Z := YearFromDay (Day t).
Definition InLeapYear (t : Z) : Z := leapFlag (YearFromTime t).
Definition DayWithinYear (t : Z) : Z :=
  Day t - DayFromYear (YearFromTime t).

(** Month number (0 = January) of the day [dwy] of a year. *)
Definition MonthFromDay (leap dwy : Z) : Z :=
  if dwy <? 31 then 0
  else if dwy <? 59 + leap then 1
  else if dwy <? 90 + leap then 2
  else if dwy <? 120 + leap then 3
  else if dwy <? 151 + leap then 4
  else if dwy <? 181 + leap then 5
  else if dwy <? 212 + leap then 6
  else if dwy <? 243 + leap then 7
  else if dwy <? 273 + leap then 8
  else if dwy <? 304 + leap then 9
  else if dwy <? 334 + leap then 10
  else 11.

(** Day number within the year of the first day of month [m]. *)
Definition monthStart (leap m : Z) : Z :=
  if m =? 0 then 0
  else if m =? 1 then 31
  else if m =? 2 then 59 + leap
  else if m =? 3 then 90 + leap
  else if m =? 4 then 120 + leap
  else if m =? 5 then 151 + leap
  else if m =? 6 then 181 + leap
  else if m =? 7 then 212 + leap
  else if m =? 8 then 243 + leap
  else if m =? 9 then 273 + leap
  else if m =? 10 then 304 + leap
  else 334 + leap.

(** Day number within the year of the first day after month [m]. *)
Definition monthEnd (leap m : Z) : Z :=
  if m =? 0 then 31
  else if m =? 1 then 59 + leap
  else if m =? 2 then 90 + leap
  else if m =? 3 then 120 + leap
  else if m =? 4 then 151 + leap
  else if m =? 5 then 181 + leap
  else if m =? 6 then 212 + leap
  else if m =? 7 then 243 + leap
  else if m =? 8 then 273 + leap
  else if m =? 9 then 304 + leap
  else if m =? 10 then 334 + leap
  else 365 + leap.

Definition MonthFromTime (t : Z) : Z :=
  MonthFromDay (InLeapYear t) (DayWithinYear t).

Definition DateFromTime (t : Z) : Z :=
  DayWithinYear t - monthStart (InLeapYear t) (MonthFromTime t) + 1.

(** [MakeDay]: the day number of the [date]-th day of month [month] of
    [year]; months and dates out of range carry over. *)
Definition MakeDay (year month date : Z) : Z :=
  let ym := year + month / 12 in
  let mn := month mod 12 in
  DayFromYear ym + monthStart (leapFlag ym) mn + date - 1.

Definition MakeDate (day time : Z) : Z := day * msPerDay + time.

Definition TimeClip (t : Z) : Date :=
  if Z.abs t <=? maxTime then Some t else None.

(** A time zone is its [LocalTZA(t, isUTC)]: the offset of local time from
    UTC, in milliseconds, in force at the instant [t] when [isUTC] is true,
    and at the local time [t] when it is false.  A local time that a
    transition skips or repeats is read with the offset before the
    transition. *)
Definition TimeZone : Type := Z -> bool -> Z.

Section LocalTime.
(** The time zone of the server. *)
Variable LocalTZA : TimeZone.

Definition LocalTime (t : Z) : Z := t + LocalTZA t true.
Definition UTC (t : Z) : Z := t - LocalTZA t false.

Definition getTime (d : Date) : option Z := d.

Definition getFullYear (d : Date) : option Z :=
  match d with
  | None => None
  | Some t => Some (YearFromTime (LocalTime t))
  end.

Definition getMonth (d : Date) : option Z :=
  match d with
  | None => None
  | Some t => Some (MonthFromTime (LocalTime t))
  end.

Definition getDate (d : Date) : option Z :=
  match d with
  | None => None
  | Some t => Some (DateFromTime (LocalTime t))
  end.

(** Milliseconds since local midnight: hours, minutes, seconds and
    milliseconds taken together. *)
Definition getTimeOfDay (d : Date) : option Z :=
  match d with
  | None => None
  | Some t => Some (TimeWithinDay (LocalTime t))
  end.

(** [d.setFullYear(year)] with the month and date arguments absent;
    returns the new time value of [d].  A NaN [year] gives NaN; a NaN
    time value is replaced by +0 before the fields are read. *)
Definition setFullYear (d : Date) (year : option Z) : Date :=
  match year with
  | None => None
  | Some y =>
      let t := match d with None => 0 | Some t => LocalTime t end in
      let newDate :=
        MakeDate (MakeDay y (MonthFromTime t) (DateFromTime t))
                 (TimeWithinDay t) in
      TimeClip (UTC newDate)
  end.
End LocalTime.

(** The numeric addition [x + k] of JavaScript on a possibly NaN [x]. *)
Definition addNumber (x : option Z) (k : Z) : option Z :=
  match x with None => None | Some v => Some (v + k) end.

End JSDate.

(* ================================================================== *)
(** ** JavaScript maps and arrays *)

(** [Map<string, V>]: entries in insertion order. *)
Module JsMap.
Section Ops.
Context {V : Type}.

Definition t : Type := list (string * V).

Definition empty : t := [].

Definition get (k : string) (m : t) : option V :=
  match find (fun e => String.eqb (fst e) k) m with
  | Some e => Some (snd e)
  | None => None
  end.

Definition has (k : string) (m : t) : bool :=
  existsb (fun e => String.eqb (fst e) k) m.

(** [m.set(k, v)]: an existing key keeps its position, a new key goes
    last. *)
Fixpoint set (k : string) (v : V) (m : t) : t :=
  match m with
  | [] => [(k, v)]
  | e :: m' =>
      if String.eqb (fst e) k then (k, v) :: m' else e :: set k v m'
  end.

(** [m.delete(k)]: the map afterwards. *)
Definition delete (k : string) (m : t) : t :=
  filter (fun e => negb (String.eqb (fst e) k)) m.

Definition values (m : t) : list V := map snd m.
Definition entries (m : t) : list (string * V) := m.
End Ops.
Arguments t : clear implicits.
End JsMap.

(** [Array.prototype.sort(cmp)]: stable; [cmp a b <= 0] keeps [a] first. *)
Module JsArray.
Section Sort.
Context {A : Type}.
Variable cmp : A -> A -> Q.

Fixpoint insert (x : A) (l : list A) : list A :=
  match l with
  | [] => [x]
  | y :: l' => if Qle_bool (cmp x y) 0 then x :: y :: l' else y :: insert x l'
  end.

Definition sort (l : list A) : list A := fold_right insert [] l.
End Sort.

(** [l.slice(0, n)] for a natural [n]. *)
Definition slice0 {A : Type} (n : nat) (l : list A) : list A := firstn n l.

(** [l.reduce((acc, x) => f acc x, init)]. *)
Definition reduce {A B : Type} (f : B -> A -> B) (init : B) (l : list A) : B :=
  fold_left f l init.

(** [l.forEach(x => f x)] on a state threaded through the calls. *)
Definition forEach {A S : Type} (f : A -> S -> S) (l : list A) (s : S) : S :=
  fold_left (fun acc x => f x acc) l s.
End JsArray.

(** [x || d] on a nullable value whose non-null values are all truthy. *)
Definition orElse {A : Type} (x : option A) (d : A) : A :=
  match x with Some v => v | None => d end.

(** [x || 0] on a nullable integer: [null], [undefined] and [0] give [0]. *)
Definition orZero (x : option Z) : Z :=
  match x with
  | Some v => if v =? 0 then 0 else v
  | None => 0
  end.

(** A field of a [Partial<T>] laid over the field of the record:
    [{ ...record, ...updates }]. *)
Definition over {A : Type} (u : option A) (old : A) : A :=
  match u with Some v => v | None => old end.

(** The comparator [(a, b) => new Date(b).getTime() - new Date(a).getTime()];
    a NaN difference counts as 0. *)
Definition newestFirst (a b : JSDate.Date) : Q :=
  match a, b with
  | Some ta, Some tb => inject_Z (tb - ta)
  | _, _ => 0%Q
  end.

Definition oldestFirst (a b : JSDate.Date) : Q := newestFirst b a.

(* ================================================================== *)
(** ** Entities (shared/schema.ts) *)

Import JSDate.

Module Brand.
Record t : Type := mk {
  id : string;
  name : string;
  logoUrl : option string;
  supportEmail : string;
  supportPhone : option string;
  website : option string;
  category : string
}.
End Brand.

Module InsertBrand.
Record t : Type := mk {
  name : string;
  logoUrl : option string;
  supportEmail : string;
  supportPhone : option string;
  website : option string;
  category : string
}.
End InsertBrand.

Module Product.
Record t : Type := mk {
  id : string;
  brandId : string;
  name : string;
  model : string;
  serialNumber : option string;
  category : string;
  purchaseDate : Date;
  warrantyExpiration : Date;
  receiptUrl : option string;
  photoUrls : option (list string);
  notes : option string;
  hasExtension : option bool;
  extendedExpirationDate : option Date;
  insuranceProvider : option string;
  agentName : option string;
  policyNumber : option string;
  extensionCost : option Z
}.
End Product.

(** The argument of [new Date(x)]: a date string or a [Date]. *)
Inductive DateInput : Type :=
| DateString (s : string)
| DateObject (d : Date).

Module InsertProduct.
Record t : Type := mk {
  brandId : string;
  name : string;
  model : string;
  serialNumber : option string;
  category : string;
  purchaseDate : DateInput;
  receiptUrl : option string;
  photoUrls : option (list string);
  notes : option string;
  hasExtension : option bool;
  extendedExpirationDate : option Date;
  insuranceProvider : option string;
  agentName : option string;
  policyNumber : option string;
  extensionCost : option Z
}.
End InsertProduct.

(** [Partial<Product>]: [Some v] when the key is present. *)
Module PartialProduct.
Record t : Type := mk {
  id : option string;
  brandId : option string;
  name : option string;
  model : option string;
  serialNumber : option (option string);
  category : option string;
  purchaseDate : option Date;
  warrantyExpiration : option Date;
  receiptUrl : option (option string);
  photoUrls : option (option (list string));
  notes : option (option string);
  hasExtension : option (option bool);
  extendedExpirationDate : option (option Date);
  insuranceProvider : option (option string);
  agentName : option (option string);
  policyNumber : option (option string);
  extensionCost : option (option Z)
}.

Definition none : t :=
  mk None None None None None None None None None None None None None None
     None None None.
End PartialProduct.

(** The [extension] argument of [addWarrantyExtension]. *)
Module Extension.
Record t : Type := mk {
  extendedExpirationDate : Date;
  insuranceProvider : string;
  agentName : string;
  policyNumber : string;
  extensionCost : option Z
}.
End Extension.

Module Review.
Record t : Type := mk {
  id : string;
  productId : string;
  rating : Q;
  title : option string;
  content : option string;
  pros : option (list string);
  cons : option (list string);
  recommend : option bool;
  createdAt : Date
}.
End Review.

Module InsertReview.
Record t : Type := mk {
  productId : string;
  rating : Q;
  title : option string;
  content : option string;
  pros : option (list string);
  cons : option (list string);
  recommend : option bool
}.
End InsertReview.

Module SupportRequest.
Record t : Type := mk {
  id : string;
  productId : string;
  issueDescription : string;
  category : string;
  severity : string;
  status : string;
  emailSentAt : option Date;
  createdAt : Date
}.
End SupportRequest.

Module InsertSupportRequest.
Record t : Type := mk {
  productId : string;
  issueDescription : string;
  category : string;
  severity : string
}.
End InsertSupportRequest.

Module PartialSupportRequest.
Record t : Type := mk {
  id : option string;
  productId : option string;
  issueDescription : option string;
  category : option string;
  severity : option string;
  status : option string;
  emailSentAt : option (option Date);
  createdAt : option Date
}.

Definition none : t := mk None None None None None None None None.
End PartialSupportRequest.

Module ServiceProvider.
Record t : Type := mk {
  id : string;
  name : string;
  email : string;
  phone : option string;
  website : option string;
  address : string;
  city : string;
  district : string;
  supportedBrands : option (list string);
  averageRating : option Z;
  createdAt : Date
}.
End ServiceProvider.

Module InsertServiceProvider.
Record t : Type := mk {
  name : string;
  email : string;
  phone : option string;
  website : option string;
  address : string;
  city : string;
  district : string;
  supportedBrands : option (list string)
}.
End InsertServiceProvider.

Module PartialServiceProvider.
Record t : Type := mk {
  id : option string;
  name : option string;
  email : option string;
  phone : option (option string);
  website : option (option string);
  address : option string;
  city : option string;
  district : option string;
  supportedBrands : option (option (list string));
  averageRating : option (option Z);
  createdAt : option Date
}.

Definition none : t :=
  mk None None None None None None None None None None None.
End PartialServiceProvider.

Module ServiceProviderReview.
Record t : Type := mk {
  id : string;
  providerId : string;
  rating : Z;
  comment : option string;
  createdAt : Date
}.
End ServiceProviderReview.

Module InsertServiceProviderReview.
Record t : Type := mk {
  providerId : string;
  rating : Z;
  comment : option string
}.
End InsertServiceProviderReview.

Module Notification.
Record t : Type := mk {
  id : string;
  productId : string;
  type : string;
  sent : option bool;
  sentAt : option Date;
  createdAt : Date
}.
End Notification.

(** [Omit<Notification, 'id' | 'createdAt'>]. *)
Module InsertNotification.
Record t : Type := mk {
  productId : string;
  type : string;
  sent : option bool;
  sentAt : option Date
}.
End InsertNotification.

Module Favorite.
Record t : Type := mk {
  id : string;
  type : string;
  targetId : string;
  createdAt : Date
}.
End Favorite.

Module ClientProfile.
Record t : Type := mk {
  id : string;
  fullName : string;
  email : string;
  phoneNumber : string;
  taxNumber : option string;
  address : string;
  city : string;
  postalCode : option string;
  createdAt : Date;
  updatedAt : Date
}.
End ClientProfile.

Module InsertClientProfile.
Record t : Type := mk {
  fullName : string;
  email : string;
  phoneNumber : string;
  taxNumber : option string;
  address : string;
  city : string;
  postalCode : option string
}.
End InsertClientProfile.

Module PartialClientProfile.
Record t : Type := mk {
  id : option string;
  fullName : option string;
  email : option string;
  phoneNumber : option string;
  taxNumber : option (option string);
  address : option string;
  city : option string;
  postalCode : option (option string);
  createdAt : option Date;
  updatedAt : option Date
}.
End PartialClientProfile.


(* ================================================================== *)
(** ** The store (server/storage.ts, class MemStorage) *)

Record MemStorage : Type := mkStore {
  brands : JsMap.t Brand.t;
  products : JsMap.t Product.t;
  reviews : JsMap.t Review.t;
  supportRequests : JsMap.t SupportRequest.t;
  serviceProviders : JsMap.t ServiceProvider.t;
  serviceProviderReviews : JsMap.t ServiceProviderReview.t;
  notifications : JsMap.t Notification.t;
  favorites : JsMap.t Favorite.t;
  clientProfile : option ClientProfile.t
}.

Definition with_brands (s : MemStorage) (m : JsMap.t Brand.t) : MemStorage :=
  mkStore m (products s) (reviews s) (supportRequests s) (serviceProviders s)
    (serviceProviderReviews s) (notifications s) (favorites s) (clientProfile s).

Definition with_products (s : MemStorage) (m : JsMap.t Product.t) : MemStorage :=
  mkStore (brands s) m (reviews s) (supportRequests s) (serviceProviders s)
    (serviceProviderReviews s) (notifications s) (favorites s) (clientProfile s).

Definition with_reviews (s : MemStorage) (m : JsMap.t Review.t) : MemStorage :=
  mkStore (brands s) (products s) m (supportRequests s) (serviceProviders s)
    (serviceProviderReviews s) (notifications s) (favorites s) (clientProfile s).

Definition with_supportRequests (s : MemStorage)
    (m : JsMap.t SupportRequest.t) : MemStorage :=
  mkStore (brands s) (products s) (reviews s) m (serviceProviders s)
    (serviceProviderReviews s) (notifications s) (favorites s) (clientProfile s).

Definition with_serviceProviders (s : MemStorage)
    (m : JsMap.t ServiceProvider.t) : MemStorage :=
  mkStore (brands s) (products s) (reviews s) (supportRequests s) m
    (serviceProviderReviews s) (notifications s) (favorites s) (clientProfile s).

Definition with_serviceProviderReviews (s : MemStorage)
    (m : JsMap.t ServiceProviderReview.t) : MemStorage :=
  mkStore (brands s) (products s) (reviews s) (supportRequests s)
    (serviceProviders s) m (notifications s) (favorites s) (clientProfile s).

Definition with_notifications (s : MemStorage)
    (m : JsMap.t Notification.t) : MemStorage :=
  mkStore (brands s) (products s) (reviews s) (supportRequests s)
    (serviceProviders s) (serviceProviderReviews s) m (favorites s)
    (clientProfile s).

Definition with_favorites (s : MemStorage) (m : JsMap.t Favorite.t) : MemStorage :=
  mkStore (brands s) (products s) (reviews s) (supportRequests s)
    (serviceProviders s) (serviceProviderReviews s) (notifications s) m
    (clientProfile s).

Definition with_clientProfile (s : MemStorage)
    (c : option ClientProfile.t) : MemStorage :=
  mkStore (brands s) (products s) (reviews s) (supportRequests s)
    (serviceProviders s) (serviceProviderReviews s) (notifications s)
    (favorites s) c.

(** The brands of [seedBrands]. *)
Definition seedBrandList : list InsertBrand.t :=
  [ InsertBrand.mk "Apple" None "support@apple.com" (Some "+1-800-692-7753")
      (Some "https://www.apple.com/support/") "Informática";
    InsertBrand.mk "Samsung" None "support@samsung.com" (Some "+351-808-207-267")
      (Some "https://www.samsung.com/pt/support/") "Eletrodomésticos";
    InsertBrand.mk "LG" None "apoio.cliente@lge.com" (Some "+351-707-505-454")
      (Some "https://www.lg.com/pt/support") "Eletrodomésticos";
    InsertBrand.mk "Sony" None "info@sony.pt" (Some "+351-707-780-785")
      (Some "https://www.sony.pt/support") "Televisão e Áudio";
    InsertBrand.mk "Bosch" None "bosch-pt@bshg.com" (Some "+351-214-250-730")
      (Some "https://www.bosch-home.pt/servico") "Eletrodomésticos";
    InsertBrand.mk "Siemens" None "siemens-pt@bshg.com" (Some "+351-214-250-700")
      (Some "https://www.siemens-home.bsh-group.com/pt/") "Eletrodomésticos";
    InsertBrand.mk "Microsoft" None "support@microsoft.com" (Some "+351-21-366-5100")
      (Some "https://support.microsoft.com/") "Informática";
    InsertBrand.mk "Dell" None "tech_support@dell.com" (Some "+351-707-788-788")
      (Some "https://www.dell.com/support/") "Informática";
    InsertBrand.mk "HP" None "support@hp.com" (Some "+351-707-222-000")
      (Some "https://support.hp.com/") "Informática";
    InsertBrand.mk "Xiaomi" None "service.pt@xiaomi.com" (Some "+351-308-810-456")
      (Some "https://www.mi.com/pt/service/") "Telefones";
    InsertBrand.mk "Teka" None "servico.cliente@teka.pt" (Some "+351-256-200-100")
      (Some "https://www.teka.pt/servico-tecnico/") "Eletrodomésticos";
    InsertBrand.mk "Ariston" None "info@ariston.pt" (Some "+351-213-180-900")
      (Some "https://www.ariston.com/pt-PT/") "Eletrodomésticos";
    InsertBrand.mk "AEG" None "rma.pt@eletrolux.com" (Some "+351-210-304-261")
      (Some "https://www.aeg.pt/") "Eletrodomésticos" ].

Definition brandOfInsert (b : InsertBrand.t) (id : string) : Brand.t :=
  Brand.mk id (InsertBrand.name b) (InsertBrand.logoUrl b)
    (InsertBrand.supportEmail b) (InsertBrand.supportPhone b)
    (InsertBrand.website b) (InsertBrand.category b).

(** [seedBrands]: the [i]-th brand is stored under the [i]-th identifier
    drawn, [uuid i]. *)
Fixpoint seedFrom (uuid : nat -> string) (i : nat) (bs : list InsertBrand.t)
    (m : JsMap.t Brand.t) : JsMap.t Brand.t :=
  match bs with
  | [] => m
  | b :: bs' =>
      seedFrom uuid (S i) bs' (JsMap.set (uuid i) (brandOfInsert b (uuid i)) m)
  end.

Definition seedBrands (uuid : nat -> string) (s : MemStorage) : MemStorage :=
  with_brands s (seedFrom uuid 0 seedBrandList (brands s)).

(** [new MemStorage()]. *)
Definition newMemStorage (uuid : nat -> string) : MemStorage :=
  seedBrands uuid
    (mkStore JsMap.empty JsMap.empty JsMap.empty JsMap.empty JsMap.empty
       JsMap.empty JsMap.empty JsMap.empty None).

Section Storage.
(** The time zone of the server, and [Date.parse]. *)
Variable LocalTZA : TimeZone.
Variable Date_parse : string -> Date.

(** [new Date(x)]. *)
Definition newDate (x : DateInput) : Date :=
  match x with
  | DateString str => Date_parse str
  | DateObject d => d
  end.

(** *** Brands *)

Definition getBrand (s : MemStorage) (id : string) : option Brand.t :=
  JsMap.get id (brands s).

Definition createBrand (s : MemStorage) (insertBrand : InsertBrand.t)
    (uuid : string) : Brand.t * MemStorage :=
  let brand := brandOfInsert insertBrand uuid in
  (brand, with_brands s (JsMap.set uuid brand (brands s))).

(** *** Products *)

Definition getProduct (s : MemStorage) (id : string) : option Product.t :=
  JsMap.get id (products s).

Definition getProductWithBrand (s : MemStorage) (id : string)
    : option (Product.t * Brand.t) :=
  match JsMap.get id (products s) with
  | None => None
  | Some product =>
      match getBrand s (Product.brandId product) with
      | None => None
      | Some brand => Some (product, brand)
      end
  end.

Definition getAllProducts (s : MemStorage) : list (Product.t * Brand.t) :=
  let withBrands :=
    map (fun product =>
           match getBrand s (Product.brandId product) with
           | None => None
           | Some brand => Some (product, brand)
           end) (JsMap.values (products s)) in
  JsArray.sort
    (fun a b => newestFirst (Product.purchaseDate (fst a))
                            (Product.purchaseDate (fst b)))
    (flat_map (fun o => match o with Some p => [p] | None => [] end) withBrands).

(** The expiration computed by [createProduct]:
    [d.setFullYear(d.getFullYear() + 3)] on a copy [d] of the purchase date. *)
Definition defaultExpiration (purchaseDate : Date) : Date :=
  setFullYear LocalTZA purchaseDate
    (addNumber (getFullYear LocalTZA purchaseDate) 3).

Definition createProduct (s : MemStorage) (insertProduct : InsertProduct.t)
    (uuid : string) : Product.t * MemStorage :=
  let id := uuid in
  let purchaseDate := newDate (InsertProduct.purchaseDate insertProduct) in
  let warrantyExpiration := defaultExpiration purchaseDate in
  let product :=
    Product.mk id
      (InsertProduct.brandId insertProduct)
      (InsertProduct.name insertProduct)
      (InsertProduct.model insertProduct)
      (InsertProduct.serialNumber insertProduct)
      (InsertProduct.category insertProduct)
      purchaseDate
      warrantyExpiration
      (InsertProduct.receiptUrl insertProduct)
      (Some (orElse (InsertProduct.photoUrls insertProduct) []))
      (InsertProduct.notes insertProduct)
      (InsertProduct.hasExtension insertProduct)
      (InsertProduct.extendedExpirationDate insertProduct)
      (InsertProduct.insuranceProvider insertProduct)
      (InsertProduct.agentName insertProduct)
      (InsertProduct.policyNumber insertProduct)
      (InsertProduct.extensionCost insertProduct) in
  (product, with_products s (JsMap.set id product (products s))).

(** [{ ...product, ...updates }]. *)
Definition mergeProduct (product : Product.t) (updates : PartialProduct.t)
    : Product.t :=
  Product.mk
    (over (PartialProduct.id updates) (Product.id product))
    (over (PartialProduct.brandId updates) (Product.brandId product))
    (over (PartialProduct.name updates) (Product.name product))
    (over (PartialProduct.model updates) (Product.model product))
    (over (PartialProduct.serialNumber updates) (Product.serialNumber product))
    (over (PartialProduct.category updates) (Product.category product))
    (over (PartialProduct.purchaseDate updates) (Product.purchaseDate product))
    (over (PartialProduct.warrantyExpiration updates)
          (Product.warrantyExpiration product))
    (over (PartialProduct.receiptUrl updates) (Product.receiptUrl product))
    (over (PartialProduct.photoUrls updates) (Product.photoUrls product))
    (over (PartialProduct.notes updates) (Product.notes product))
    (over (PartialProduct.hasExtension updates) (Product.hasExtension product))
    (over (PartialProduct.extendedExpirationDate updates)
          (Product.extendedExpirationDate product))
    (over (PartialProduct.insuranceProvider updates)
          (Product.insuranceProvider product))
    (over (PartialProduct.agentName updates) (Product.agentName product))
    (over (PartialProduct.policyNumber updates) (Product.policyNumber product))
    (over (PartialProduct.extensionCost updates) (Product.extensionCost product)).

Definition updateProduct (s : MemStorage) (id : string)
    (updates : PartialProduct.t) : option Product.t * MemStorage :=
  match JsMap.get id (products s) with
  | None => (None, s)
  | Some product =>
      let updated := mergeProduct product updates in
      (Some updated, with_products s (JsMap.set id updated (products s)))
  end.

(** *** Reviews *)

Definition getReview (s : MemStorage) (id : string) : option Review.t :=
  JsMap.get id (reviews s).

Definition getReviewsByProduct (s : MemStorage) (productId : string)
    : list Review.t :=
  JsArray.sort
    (fun a b => newestFirst (Review.createdAt a) (Review.createdAt b))
    (filter (fun review => String.eqb (Review.productId review) productId)
            (JsMap.values (reviews s))).

Definition getAllReviews (s : MemStorage) : list Review.t :=
  JsArray.sort
    (fun a b => newestFirst (Review.createdAt a) (Review.createdAt b))
    (JsMap.values (reviews s)).

Definition createReview (s : MemStorage) (insertReview : InsertReview.t)
    (uuid : string) (now : Z) : Review.t * MemStorage :=
  let id := uuid in
  let review :=
    Review.mk id
      (InsertReview.productId insertReview)
      (InsertReview.rating insertReview)
      (InsertReview.title insertReview)
      (InsertReview.content insertReview)
      (Some (orElse (InsertReview.pros insertReview) []))
      (Some (orElse (InsertReview.cons insertReview) []))
      (InsertReview.recommend insertReview)
      (Some now) in
  (review, with_reviews s (JsMap.set id review (reviews s))).

(** *** Support requests *)

Definition getSupportRequest (s : MemStorage) (id : string)
    : option SupportRequest.t :=
  JsMap.get id (supportRequests s).

Definition getSupportRequestsByProduct (s : MemStorage) (productId : string)
    : list SupportRequest.t :=
  JsArray.sort
    (fun a b => newestFirst (SupportRequest.createdAt a)
                            (SupportRequest.createdAt b))
    (filter (fun request =>
               String.eqb (SupportRequest.productId request) productId)
            (JsMap.values (supportRequests s))).

Definition getAllSupportRequests (s : MemStorage) : list SupportRequest.t :=
  JsArray.sort
    (fun a b => newestFirst (SupportRequest.createdAt a)
                            (SupportRequest.createdAt b))
    (JsMap.values (supportRequests s)).

Definition createSupportRequest (s : MemStorage)
    (insertRequest : InsertSupportRequest.t) (uuid : string)
    (sentNow createdNow : Z) : SupportRequest.t * MemStorage :=
  let id := uuid in
  let supportRequest :=
    SupportRequest.mk id
      (InsertSupportRequest.productId insertRequest)
      (InsertSupportRequest.issueDescription insertRequest)
      (InsertSupportRequest.category insertRequest)
      (InsertSupportRequest.severity insertRequest)
      "sent"
      (Some (Some sentNow))
      (Some createdNow) in
  (supportRequest,
   with_supportRequests s (JsMap.set id supportRequest (supportRequests s))).

Definition mergeSupportRequest (request : SupportRequest.t)
    (updates : PartialSupportRequest.t) : SupportRequest.t :=
  SupportRequest.mk
    (over (PartialSupportRequest.id updates) (SupportRequest.id request))
    (over (PartialSupportRequest.productId updates)
          (SupportRequest.productId request))
    (over (PartialSupportRequest.issueDescription updates)
          (SupportRequest.issueDescription request))
    (over (PartialSupportRequest.category updates)
          (SupportRequest.category request))
    (over (PartialSupportRequest.severity updates)
          (SupportRequest.severity request))
    (over (PartialSupportRequest.status updates) (SupportRequest.status request))
    (over (PartialSupportRequest.emailSentAt updates)
          (SupportRequest.emailSentAt request))
    (over (PartialSupportRequest.createdAt updates)
          (SupportRequest.createdAt request)).

Definition updateSupportRequest (s : MemStorage) (id : string)
    (updates : PartialSupportRequest.t)
    : option SupportRequest.t * MemStorage :=
  match JsMap.get id (supportRequests s) with
  | None => (None, s)
  | Some request =>
      let updated := mergeSupportRequest request updates in
      (Some updated,
       with_supportRequests s (JsMap.set id updated (supportRequests s)))
  end.

(** *** Deleting a product *)

Definition deleteProduct (s : MemStorage) (id : string) : bool * MemStorage :=
  let reviews_ := getReviewsByProduct s id in
  let s1 :=
    JsArray.forEach
      (fun review st =>
         with_reviews st (JsMap.delete (Review.id review) (reviews st)))
      reviews_ s in
  let supportRequests_ := getSupportRequestsByProduct s1 id in
  let s2 :=
    JsArray.forEach
      (fun request st =>
         with_supportRequests st
           (JsMap.delete (SupportRequest.id request) (supportRequests st)))
      supportRequests_ s1 in
  (JsMap.has id (products s2),
   with_products s2 (JsMap.delete id (products s2))).

(** *** Warranty extensions *)

Definition addWarrantyExtension (s : MemStorage) (id : string)
    (extension : Extension.t) : option Product.t * MemStorage :=
  match JsMap.get id (products s) with
  | None => (None, s)
  | Some product =>
      let updated :=
        Product.mk
          (Product.id product)
          (Product.brandId product)
          (Product.name product)
          (Product.model product)
          (Product.serialNumber product)
          (Product.category product)
          (Product.purchaseDate product)
          (Extension.extendedExpirationDate extension)
          (Product.receiptUrl product)
          (Product.photoUrls product)
          (Product.notes product)
          (Some true)
          (Some (Extension.extendedExpirationDate extension))
          (Some (Extension.insuranceProvider extension))
          (Some (Extension.agentName extension))
          (Some (Extension.policyNumber extension))
          (Some (orZero (Extension.extensionCost extension))) in
      (Some updated, with_products s (JsMap.set id updated (products s)))
  end.

(** *** Service providers *)

Definition getServiceProvider (s : MemStorage) (id : string)
    : option ServiceProvider.t :=
  JsMap.get id (serviceProviders s).

(** The comparator [(a, b) => (b.averageRating || 0) - (a.averageRating || 0)]. *)
Definition byAverageRating (a b : ServiceProvider.t) : Q :=
  inject_Z (orZero (ServiceProvider.averageRating b)
            - orZero (ServiceProvider.averageRating a)).

Definition getAllServiceProviders (s : MemStorage) : list ServiceProvider.t :=
  JsArray.sort byAverageRating (JsMap.values (serviceProviders s)).

Definition createServiceProvider (s : MemStorage)
    (insertProvider : InsertServiceProvider.t) (uuid : string) (now : Z)
    : ServiceProvider.t * MemStorage :=
  let id := uuid in
  let provider :=
    ServiceProvider.mk id
      (InsertServiceProvider.name insertProvider)
      (InsertServiceProvider.email insertProvider)
      (InsertServiceProvider.phone insertProvider)
      (InsertServiceProvider.website insertProvider)
      (InsertServiceProvider.address insertProvider)
      (InsertServiceProvider.city insertProvider)
      (InsertServiceProvider.district insertProvider)
      (Some (orElse (InsertServiceProvider.supportedBrands insertProvider) []))
      (Some 0)
      (Some now) in
  (provider,
   with_serviceProviders s (JsMap.set id provider (serviceProviders s))).

Definition mergeServiceProvider (provider : ServiceProvider.t)
    (updates : PartialServiceProvider.t) : ServiceProvider.t :=
  ServiceProvider.mk
    (over (PartialServiceProvider.id updates) (ServiceProvider.id provider))
    (over (PartialServiceProvider.name updates) (ServiceProvider.name provider))
    (over (PartialServiceProvider.email updates)
          (ServiceProvider.email provider))
    (over (PartialServiceProvider.phone updates)
          (ServiceProvider.phone provider))
    (over (PartialServiceProvider.website updates)
          (ServiceProvider.website provider))
    (over (PartialServiceProvider.address updates)
          (ServiceProvider.address provider))
    (over (PartialServiceProvider.city updates) (ServiceProvider.city provider))
    (over (PartialServiceProvider.district updates)
          (ServiceProvider.district provider))
    (over (PartialServiceProvider.supportedBrands updates)
          (ServiceProvider.supportedBrands provider))
    (over (PartialServiceProvider.averageRating updates)
          (ServiceProvider.averageRating provider))
    (over (PartialServiceProvider.createdAt updates)
          (ServiceProvider.createdAt provider)).

Definition updateServiceProvider (s : MemStorage) (id : string)
    (updates : PartialServiceProvider.t)
    : option ServiceProvider.t * MemStorage :=
  match JsMap.get id (serviceProviders s) with
  | None => (None, s)
  | Some provider =>
      let updated := mergeServiceProvider provider updates in
      (Some updated,
       with_serviceProviders s (JsMap.set id updated (serviceProviders s)))
  end.

Definition deleteServiceProvider (s : MemStorage) (id : string)
    : bool * MemStorage :=
  let reviews_ :=
    filter (fun r => String.eqb (ServiceProviderReview.providerId r) id)
           (JsMap.values (serviceProviderReviews s)) in
  let s1 :=
    JsArray.forEach
      (fun r st =>
         with_serviceProviderReviews st
           (JsMap.delete (ServiceProviderReview.id r)
                         (serviceProviderReviews st)))
      reviews_ s in
  (JsMap.has id (serviceProviders s1),
   with_serviceProviders s1 (JsMap.delete id (serviceProviders s1))).

(** *** Service provider reviews *)

Definition getServiceProviderReviews (s : MemStorage) (providerId : string)
    : list ServiceProviderReview.t :=
  JsArray.sort
    (fun a b => newestFirst (ServiceProviderReview.createdAt a)
                            (ServiceProviderReview.createdAt b))
    (filter (fun r => String.eqb (ServiceProviderReview.providerId r) providerId)
            (JsMap.values (serviceProviderReviews s))).

(** [sum / reviews.length], or [0] without reviews. *)
Definition getAverageRating (s : MemStorage) (providerId : string) : Q :=
  let reviews_ := getServiceProviderReviews s providerId in
  if Nat.eqb (List.length reviews_) 0 then 0%Q
  else
    let sum :=
      JsArray.reduce (fun acc r => acc + ServiceProviderReview.rating r)
                     0 reviews_ in
    (inject_Z sum / inject_Z (Z.of_nat (List.length reviews_)))%Q.

(** [Math.round]: the nearest integer, halves towards positive infinity. *)
Definition Math_round (x : Q) : Z := Qfloor (x + (1 # 2))%Q.

(** [Math.ceil]. *)
Definition Math_ceil (x : Q) : Z := Qceiling x.

Definition createServiceProviderReview (s : MemStorage)
    (insertReview : InsertServiceProviderReview.t) (uuid : string) (now : Z)
    : ServiceProviderReview.t * MemStorage :=
  let id := uuid in
  let review :=
    ServiceProviderReview.mk id
      (InsertServiceProviderReview.providerId insertReview)
      (InsertServiceProviderReview.rating insertReview)
      (InsertServiceProviderReview.comment insertReview)
      (Some now) in
  let s1 :=
    with_serviceProviderReviews s
      (JsMap.set id review (serviceProviderReviews s)) in
  let avgRating :=
    getAverageRating s1 (InsertServiceProviderReview.providerId insertReview) in
  let s2 :=
    snd (updateServiceProvider s1
           (InsertServiceProviderReview.providerId insertReview)
           (PartialServiceProvider.mk None None None None None None None None
              None (Some (Some (Math_round avgRating))) None)) in
  (review, s2).

(** *** Notifications *)

Definition getNotificationsByProduct (s : MemStorage) (productId : string)
    : list Notification.t :=
  JsArray.sort
    (fun a b => newestFirst (Notification.createdAt a) (Notification.createdAt b))
    (filter (fun n => String.eqb (Notification.productId n) productId)
            (JsMap.values (notifications s))).

Definition createNotification (s : MemStorage)
    (notification : InsertNotification.t) (uuid : string) (now : Z)
    : Notification.t * MemStorage :=
  let id := uuid in
  let newNotification :=
    Notification.mk id
      (InsertNotification.productId notification)
      (InsertNotification.type notification)
      (InsertNotification.sent notification)
      (InsertNotification.sentAt notification)
      (Some now) in
  (newNotification,
   with_notifications s (JsMap.set id newNotification (notifications s))).

(** [!n.sent]. *)
Definition unsent (n : Notification.t) : bool :=
  match Notification.sent n with Some true => false | _ => true end.

Definition getAllUnsentNotifications (s : MemStorage) : list Notification.t :=
  JsArray.sort
    (fun a b => oldestFirst (Notification.createdAt a) (Notification.createdAt b))
    (filter unsent (JsMap.values (notifications s))).

Definition markNotificationAsSent (s : MemStorage) (id : string) (now : Z)
    : bool * MemStorage :=
  match JsMap.get id (notifications s) with
  | None => (false, s)
  | Some notification =>
      let notification' :=
        Notification.mk
          (Notification.id notification)
          (Notification.productId notification)
          (Notification.type notification)
          (Some true)
          (Some (Some now))
          (Notification.createdAt notification) in
      (true, with_notifications s (JsMap.set id notification' (notifications s)))
  end.

(** *** Favorites *)

(** [f.type === type && f.targetId === targetId]. *)
Definition matchesFavorite (type targetId : string) (f : Favorite.t) : bool :=
  String.eqb (Favorite.type f) type && String.eqb (Favorite.targetId f) targetId.

Definition getFavoriteProducts (s : MemStorage) : list string :=
  map Favorite.targetId
    (filter (fun f => String.eqb (Favorite.type f) "product")
            (JsMap.values (favorites s))).

Definition getFavoriteProviders (s : MemStorage) : list string :=
  map Favorite.targetId
    (filter (fun f => String.eqb (Favorite.type f) "provider")
            (JsMap.values (favorites s))).

Definition isFavorite (s : MemStorage) (type targetId : string) : bool :=
  existsb (matchesFavorite type targetId) (JsMap.values (favorites s)).

Definition toggleFavorite (s : MemStorage) (type targetId : string)
    (uuid : string) (now : Z) : bool * MemStorage :=
  let exists_ :=
    existsb (matchesFavorite type targetId) (JsMap.values (favorites s)) in
  if exists_ then
    let toDelete :=
      find (fun e => matchesFavorite type targetId (snd e))
           (JsMap.entries (favorites s)) in
    match toDelete with
    | Some e => (false, with_favorites s (JsMap.delete (fst e) (favorites s)))
    | None => (false, s)
    end
  else
    let id := uuid in
    (true,
     with_favorites s
       (JsMap.set id (Favorite.mk id type targetId (Some now)) (favorites s))).

(** *** Client profile *)

Definition getClientProfile (s : MemStorage) : option ClientProfile.t :=
  clientProfile s.

Definition saveClientProfile (s : MemStorage) (profile : InsertClientProfile.t)
    (uuid : string) (now : Z) : ClientProfile.t * MemStorage :=
  let id := uuid in
  let clientProf :=
    ClientProfile.mk id
      (InsertClientProfile.fullName profile)
      (InsertClientProfile.email profile)
      (InsertClientProfile.phoneNumber profile)
      (InsertClientProfile.taxNumber profile)
      (InsertClientProfile.address profile)
      (InsertClientProfile.city profile)
      (InsertClientProfile.postalCode profile)
      (Some now)
      (Some now) in
  (clientProf, with_clientProfile s (Some clientProf)).

Definition updateClientProfile (s : MemStorage)
    (profile : PartialClientProfile.t) (now : Z)
    : option ClientProfile.t * MemStorage :=
  match clientProfile s with
  | None => (None, s)
  | Some current =>
      let updated :=
        ClientProfile.mk
          (over (PartialClientProfile.id profile) (ClientProfile.id current))
          (over (PartialClientProfile.fullName profile)
                (ClientProfile.fullName current))
          (over (PartialClientProfile.email profile)
                (ClientProfile.email current))
          (over (PartialClientProfile.phoneNumber profile)
                (ClientProfile.phoneNumber current))
          (over (PartialClientProfile.taxNumber profile)
                (ClientProfile.taxNumber current))
          (over (PartialClientProfile.address profile)
                (ClientProfile.address current))
          (over (PartialClientProfile.city profile)
                (ClientProfile.city current))
          (over (PartialClientProfile.postalCode profile)
                (ClientProfile.postalCode current))
          (over (PartialClientProfile.createdAt profile)
                (ClientProfile.createdAt current))
          (Some now) in
      (Some updated, with_clientProfile s (Some updated))
  end.

(** *** The operations as a transition system *)

(** One call of a mutating method of [IStorage], with the identifier and
    the clock readings it draws. *)
Inductive Op : Type :=
| OpCreateBrand (b : InsertBrand.t) (uuid : string)
| OpCreateProduct (p : InsertProduct.t) (uuid : string)
| OpUpdateProduct (id : string) (u : PartialProduct.t)
| OpDeleteProduct (id : string)
| OpCreateReview (r : InsertReview.t) (uuid : string) (now : Z)
| OpCreateSupportRequest (r : InsertSupportRequest.t) (uuid : string)
    (sentNow createdNow : Z)
| OpUpdateSupportRequest (id : string) (u : PartialSupportRequest.t)
| OpCreateServiceProvider (p : InsertServiceProvider.t) (uuid : string) (now : Z)
| OpUpdateServiceProvider (id : string) (u : PartialServiceProvider.t)
| OpDeleteServiceProvider (id : string)
| OpCreateServiceProviderReview (r : InsertServiceProviderReview.t)
    (uuid : string) (now : Z)
| OpCreateNotification (n : InsertNotification.t) (uuid : string) (now : Z)
| OpMarkNotificationAsSent (id : string) (now : Z)
| OpToggleFavorite (type targetId : string) (uuid : string) (now : Z)
| OpAddWarrantyExtension (id : string) (e : Extension.t)
| OpSaveClientProfile (p : InsertClientProfile.t) (uuid : string) (now : Z)
| OpUpdateClientProfile (p : PartialClientProfile.t) (now : Z).

(** The store after an operation. *)
Definition step (s : MemStorage) (op : Op) : MemStorage :=
  match op with
  | OpCreateBrand b uuid => snd (createBrand s b uuid)
  | OpCreateProduct p uuid => snd (createProduct s p uuid)
  | OpUpdateProduct id u => snd (updateProduct s id u)
  | OpDeleteProduct id => snd (deleteProduct s id)
  | OpCreateReview r uuid now => snd (createReview s r uuid now)
  | OpCreateSupportRequest r uuid n1 n2 =>
      snd (createSupportRequest s r uuid n1 n2)
  | OpUpdateSupportRequest id u => snd (updateSupportRequest s id u)
  | OpCreateServiceProvider p uuid now =>
      snd (createServiceProvider s p uuid now)
  | OpUpdateServiceProvider id u => snd (updateServiceProvider s id u)
  | OpDeleteServiceProvider id => snd (deleteServiceProvider s id)
  | OpCreateServiceProviderReview r uuid now =>
      snd (createServiceProviderReview s r uuid now)
  | OpCreateNotification n uuid now => snd (createNotification s n uuid now)
  | OpMarkNotificationAsSent id now => snd (markNotificationAsSent s id now)
  | OpToggleFavorite type targetId uuid now =>
      snd (toggleFavorite s type targetId uuid now)
  | OpAddWarrantyExtension id e => snd (addWarrantyExtension s id e)
  | OpSaveClientProfile p uuid now => snd (saveClientProfile s p uuid now)
  | OpUpdateClientProfile p now => snd (updateClientProfile s p now)
  end.

Definition run (s : MemStorage) (ops : list Op) : MemStorage :=
  fold_left step ops s.

(** The states of the store: a fresh [MemStorage] and whatever the
    operations make of it. *)
Inductive reachable : MemStorage -> Prop :=
| reachable_new (uuid : nat -> string) : reachable (newMemStorage uuid)
| reachable_step (s : MemStorage) (op : Op) :
    reachable s -> reachable (step s op).

End Storage.


(* ================================================================== *)
(** ** Warranty status (server/routes.ts, server/utils/email-helper.ts,
       client/src/pages/warranty-certificate.tsx) *)

(** [Math.ceil((warrantyExpiration.getTime() - new Date().getTime())
               / (1000 * 60 * 60 * 24))]; NaN for an Invalid Date. *)
Definition daysRemaining (warrantyExpiration : Date) (now : Z) : option Z :=
  match getTime warrantyExpiration with
  | None => None
  | Some t =>
      Some (Math_ceil (inject_Z (t - now) / inject_Z (1000 * 60 * 60 * 24))%Q)
  end.

(** [daysRemaining < 0]; false on NaN. *)
Definition isExpired (days : option Z) : bool :=
  match days with
  | Some d => d <? 0
  | None => false
  end.

(** [Math.max(daysRemaining, 0)]; NaN on NaN. *)
Definition displayDays (days : option Z) : option Z :=
  match days with
  | Some d => Some (Z.max d 0)
  | None => None
  end.

(** The warranty lines of the certificate: the status, and the days
    remaining when the warranty has not expired. *)
Definition certificateStatus (warrantyExpiration : Date) (now : Z)
    : string * option (option Z) :=
  let days := daysRemaining warrantyExpiration now in
  if isExpired days then ("EXPIRADA", None)
  else ("VÁLIDA", Some (displayDays days)).

(** The status and days-remaining lines of one product of the PDF export. *)
Definition exportStatus (warrantyExpiration : Date) (now : Z)
    : string * option Z :=
  let days := daysRemaining warrantyExpiration now in
  let warrantyStatus :=
    if isExpired days then "Expirada"
    else if match days with Some d => d <=? 90 | None => false end
         then "Expira em Breve"
         else "Válida" in
  (warrantyStatus, displayDays days).

(* ================================================================== *)
(** ** Analytics *)

(** An entry of [topRatedProviders]. *)
Module RatedEntry.
Record t : Type := mk {
  id : string;
  name : string;
  rating : Q;
  reviewCount : Z
}.
End RatedEntry.

(** The comparator [(a, b) => b.rating - a.rating]. *)
Definition byRating (a b : RatedEntry.t) : Q :=
  (RatedEntry.rating b - RatedEntry.rating a)%Q.

(** [topRatedProviders] of the analytics route of server/routes.ts. *)
Definition serverTopRatedProviders (s : MemStorage) : list RatedEntry.t :=
  let providers := getAllServiceProviders s in
  JsArray.slice0 5
    (JsArray.sort byRating
       (map (fun p =>
               RatedEntry.mk (ServiceProvider.id p) (ServiceProvider.name p)
                 (inject_Z (orZero (ServiceProvider.averageRating p))) 0)
            providers)).

(** *** client/src/pages/analytics.tsx *)

(** A value of the [providerRatings] object. *)
Module RatingGroup.
Record t : Type := mk {
  name : string;
  ratings : list Q;
  id : string
}.
End RatingGroup.

(** An item of the response of [GET /api/community/reviews]: a review with
    its product attached. *)
Definition CommunityReview : Type := (Review.t * (Product.t * Brand.t))%type.

Definition communityReviews (s : MemStorage) : list CommunityReview :=
  flat_map
    (fun review =>
       match getProductWithBrand s (Review.productId review) with
       | Some product => [(review, product)]
       | None => []
       end)
    (getAllReviews s).

(** [r.providerId] on an item of that response: the key is absent. *)
Definition CommunityReview_providerId (r : CommunityReview) : option string :=
  None.

Definition CommunityReview_rating (r : CommunityReview) : Q :=
  Review.rating (fst r).

Section ClientAnalytics.
(** The fetched review items are untyped; the query reads [r.providerId]
    and [r.rating] from each. *)
Context {R : Type}.
Variable providerIdOf : R -> option string.
Variable ratingOf : R -> Q.

(** [providers.forEach(p => providerRatings[p.id] = {...})]. *)
Definition collectProviders (providers : list ServiceProvider.t)
    : JsMap.t RatingGroup.t :=
  JsArray.forEach
    (fun p m =>
       JsMap.set (ServiceProvider.id p)
         (RatingGroup.mk (ServiceProvider.name p) [] (ServiceProvider.id p)) m)
    providers JsMap.empty.

(** The body of [reviews.forEach(r => { if (r.providerId) ... })]. *)
Definition pushRating (r : R) (m : JsMap.t RatingGroup.t)
    : JsMap.t RatingGroup.t :=
  match providerIdOf r with
  | None => m
  | Some pid =>
      if String.eqb pid "" then m
      else
        let m1 :=
          if JsMap.has pid m then m
          else JsMap.set pid (RatingGroup.mk "Unknown" [] pid) m in
        match JsMap.get pid m1 with
        | Some g =>
            JsMap.set pid
              (RatingGroup.mk (RatingGroup.name g)
                 (RatingGroup.ratings g ++ [ratingOf r]) (RatingGroup.id g))
              m1
        | None => m1
        end
  end.

(** [Math.round((sum / n) * 10) / 10] with the review count. *)
Definition entryOfGroup (p : RatingGroup.t) : RatedEntry.t :=
  let sum := JsArray.reduce Qplus 0%Q (RatingGroup.ratings p) in
  let n := inject_Z (Z.of_nat (List.length (RatingGroup.ratings p))) in
  RatedEntry.mk (RatingGroup.id p) (RatingGroup.name p)
    (inject_Z (Math_round ((sum / n) * 10)) / 10)%Q
    (Z.of_nat (List.length (RatingGroup.ratings p))).

Definition clientTopRatedProviders (providers : list ServiceProvider.t)
    (reviews_ : list R) : list RatedEntry.t :=
  let providerRatings :=
    JsArray.forEach pushRating reviews_ (collectProviders providers) in
  JsArray.slice0 5
    (JsArray.sort byRating
       (map entryOfGroup
          (filter (fun p => (0 <? List.length (RatingGroup.ratings p))%nat)
                  (JsMap.values providerRatings)))).
End ClientAnalytics.

(* ================================================================== *)
(** ** Predicates of the specification *)

Definition Date_eqb (a b : Date) : bool :=
  match a, b with
  | Some x, Some y => x =? y
  | None, None => true
  | _, _ => false
  end.

(** The warranty invariant on one product: an extended product expires on
    its extended date, any other one three years after its purchase as
    [createProduct] computes it. *)
Definition warrantyConsistent (LocalTZA : TimeZone) (p : Product.t) : bool :=
  match Product.hasExtension p with
  | Some true =>
      match Product.extendedExpirationDate p with
      | Some e => Date_eqb (Product.warrantyExpiration p) e
      | None => false
      end
  | _ =>
      Date_eqb (Product.warrantyExpiration p)
               (defaultExpiration LocalTZA (Product.purchaseDate p))
  end.

Definition warrantyInvariant (LocalTZA : TimeZone) (s : MemStorage) : bool :=
  forallb (warrantyConsistent LocalTZA) (JsMap.values (products s)).

(** A partial update that leaves the four fields of the invariant alone. *)
Definition keepsWarrantyFields (u : PartialProduct.t) : bool :=
  match PartialProduct.purchaseDate u, PartialProduct.warrantyExpiration u,
        PartialProduct.hasExtension u, PartialProduct.extendedExpirationDate u
  with
  | None, None, None, None => true
  | _, _, _, _ => false
  end.

(** The operations that keep the warranty invariant: all but a product
    created with [hasExtension: true] in its bundle and a partial update
    that writes one of the four fields. *)
Definition keepsWarranty (op : Op) : bool :=
  match op with
  | OpCreateProduct p _ =>
      match InsertProduct.hasExtension p with
      | Some true => false
      | _ => true
      end
  | OpUpdateProduct _ u => keepsWarrantyFields u
  | _ => true
  end.

(** The ratings of the reviews stored for a provider. *)
Definition storedRatings (s : MemStorage) (providerId : string) : list Z :=
  map ServiceProviderReview.rating
    (filter (fun r => String.eqb (ServiceProviderReview.providerId r) providerId)
            (JsMap.values (serviceProviderReviews s))).

Definition sumZ (l : list Z) : Z := fold_right Z.add 0 l.

Definition mean (l : list Z) : Q :=
  (inject_Z (sumZ l) / inject_Z (Z.of_nat (List.length l)))%Q.

(** Every stored review and support request carries the key it is stored
    under as its [id]. *)
Definition reviewKeysOk (s : MemStorage) : Prop :=
  forall k r, In (k, r) (reviews s) -> Review.id r = k.

Definition supportRequestKeysOk (s : MemStorage) : Prop :=
  forall k r, In (k, r) (supportRequests s) -> SupportRequest.id r = k.

(** The type and target of a stored favorite. *)
Definition favoriteKey (e : string * Favorite.t) : string * string :=
  (Favorite.type (snd e), Favorite.targetId (snd e)).

(** No two favorites share type and target. *)
Definition favoritesUnique (s : MemStorage) : Prop :=
  NoDup (map (fun f => (Favorite.type f, Favorite.targetId f))
             (JsMap.values (favorites s))).

(** A list in descending order of rating. *)
Fixpoint descending (l : list RatedEntry.t) : Prop :=
  match l with
  | [] => True
  | x :: l' =>
      (forall y, In y l' -> (RatedEntry.rating y <= RatedEntry.rating x)%Q)
      /\ descending l'
  end.


(* ================================================================== *)
(** ** Sample data of the scenarios *)

(** Identifiers drawn while seeding: brand-a, brand-b, ... *)
Definition seedId (i : nat) : string :=
  "brand-" ++ String (Ascii.ascii_of_nat (97 + i)) "".

(** A [Date.parse] that rejects every string. *)
Definition noParse (_ : string) : Date := None.

Definition freshStore : MemStorage := newMemStorage seedId.

(** Midnight UTC of some days, in milliseconds since the epoch. *)
Definition d2020_02_29 : Z := 1582934400000.
Definition d2023_01_15 : Z := 1673740800000.
Definition d2023_03_01 : Z := 1677628800000.
Definition d2024_01_15 : Z := 1705276800000.
Definition d2025_06_01 : Z := 1748736000000.
Definition d2026_01_15 : Z := 1768435200000.
Definition d2027_01_15 : Z := 1799971200000.
Definition hours (n : Z) : Z := n * 3600000.

(** 2021-03-29 11:00 UTC, noon in Lisbon, and 2021-03-31 00:00 UTC, 01:00
    in Lisbon. *)
Definition d2021_03_29_11h : Z := 1617015600000.
Definition d2021_03_31 : Z := 1617148800000.

(** The time zone without an offset. *)
Definition utcZone : TimeZone := fun _ _ => 0.

(** [WeekDay] of ECMAScript: 0 is Sunday. *)
Definition WeekDay (t : Z) : Z := (Day t + 4) mod 7.

(** The day number of the last Sunday of a month of 31 days. *)
Definition lastSunday (year month : Z) : Z :=
  let last := MakeDay year month 31 in
  last - WeekDay (MakeDate last 0).

(** Europe/Lisbon by its rule since 1996: summer time, one hour ahead of
    UTC, from 01:00 UTC on the last Sunday of March until 01:00 UTC on the
    last Sunday of October.  In local time the hour after the start is
    skipped and the hour after the end is repeated; both are read with
    the offset before the transition. *)
Definition summerStart (year : Z) : Z := MakeDate (lastSunday year 2) (hours 1).
Definition summerEnd (year : Z) : Z := MakeDate (lastSunday year 9) (hours 1).

Definition lisbon : TimeZone :=
  fun t isUTC =>
    let year := YearFromTime t in
    let shift := if isUTC then 0 else hours 1 in
    if (summerStart year + shift <=? t) && (t <? summerEnd year + shift)
    then hours 1
    else 0.

(** Product "Widget" of brand-a, purchased at [purchased], no extension. *)
Definition widget (purchased : Z) : InsertProduct.t :=
  InsertProduct.mk "brand-a" "Widget" "W-1" None "Informática"
    (DateObject (Some purchased)) None None None None None None None None None.

(** The partial update [{ purchaseDate }]. *)
Definition onlyPurchaseDate (d : Date) : PartialProduct.t :=
  PartialProduct.mk None None None None None None (Some d) None None None None
    None None None None None None.

Definition extensionTo (d : Z) : Extension.t :=
  Extension.mk (Some d) "Seguros SA" "Ana" "POL-1" None.

Definition opinion (productId : string) : InsertReview.t :=
  InsertReview.mk productId 4 None None None None None.

Definition complaint (productId : string) : InsertSupportRequest.t :=
  InsertSupportRequest.mk productId "does not start" "malfunction" "high".

(** The partial update [{ id }]. *)
Definition onlyId (id : string) : PartialSupportRequest.t :=
  PartialSupportRequest.mk (Some id) None None None None None None None.

Definition fixIt : InsertServiceProvider.t :=
  InsertServiceProvider.mk "FixIt" "fixit@example.test" None None "Rua 1"
    "Lisboa" "Lisboa" None.

Definition fixItReview (rating : Z) : InsertServiceProviderReview.t :=
  InsertServiceProviderReview.mk "sp-1" rating None.

Definition someProfile : InsertClientProfile.t :=
  InsertClientProfile.mk "Ana Silva" "ana@example.test" "912345678" None
    "Rua 1" "Lisboa" None.

(** FixIt with the ratings 5, 4 and 5. *)
Definition fixItStore : MemStorage :=
  run utcZone noParse freshStore
    [ OpCreateServiceProvider fixIt "sp-1" 1000;
      OpCreateServiceProviderReview (fixItReview 5) "r-1" 2000;
      OpCreateServiceProviderReview (fixItReview 4) "r-2" 3000;
      OpCreateServiceProviderReview (fixItReview 5) "r-3" 4000 ].

(** A support request of the Widget whose [id] an update has overwritten. *)
Definition renamedRequestStore : MemStorage :=
  run utcZone noParse freshStore
    [ OpCreateProduct (widget d2023_01_15) "p-1";
      OpCreateSupportRequest (complaint "p-1") "sr-1" 1000 1000;
      OpUpdateSupportRequest "sr-1" (onlyId "sr-2") ].

(** A review and a support request for a product that was never stored,
    the request with its [id] overwritten. *)
Definition orphanStore : MemStorage :=
  run utcZone noParse freshStore
    [ OpCreateReview (opinion "p-0") "rv-1" 1000;
      OpCreateSupportRequest (complaint "p-0") "sr-1" 1000 1000;
      OpUpdateSupportRequest "sr-1" (onlyId "sr-2") ].

(* ================================================================== *)
(** ** More of the store (server/storage.ts) *)

(** [ProductWithDetails]: the product, its brand, its reviews and its
    support requests. *)
Module ProductWithDetails.
Record t : Type := mk {
  product : Product.t;
  brand : Brand.t;
  reviews : list Review.t;
  supportRequests : list SupportRequest.t
}.
End ProductWithDetails.

Definition getProductWithDetails (s : MemStorage) (id : string)
    : option ProductWithDetails.t :=
  match JsMap.get id (products s) with
  | None => None
  | Some product =>
      match getBrand s (Product.brandId product) with
      | None => None
      | Some brand =>
          let reviews_ := getReviewsByProduct s id in
          let supportRequests_ := getSupportRequestsByProduct s id in
          Some (ProductWithDetails.mk product brand reviews_ supportRequests_)
      end
  end.

Definition getProductsByBrand (s : MemStorage) (brandId : string)
    : list (Product.t * Brand.t) :=
  let products_ :=
    filter (fun p => String.eqb (Product.brandId p) brandId)
           (JsMap.values (products s)) in
  match getBrand s brandId with
  | None => []
  | Some brand =>
      JsArray.sort
        (fun a b => newestFirst (Product.purchaseDate (fst a))
                                (Product.purchaseDate (fst b)))
        (map (fun p => (p, brand)) products_)
  end.

(* ================================================================== *)
(** ** More predicates *)

(** A list in descending order of an integer key. *)
Fixpoint descendingBy {A : Type} (key : A -> Z) (l : list A) : Prop :=
  match l with
  | [] => True
  | x :: l' => (forall y, In y l' -> key y <= key x) /\ descendingBy key l'
  end.

(** The time value of a date, 0 for an Invalid Date. *)
Definition timeOf (d : Date) : Z :=
  match d with Some t => t | None => 0 end.

Definition isValidDate (d : Date) : bool :=
  match d with Some _ => true | None => false end.

(** The keys of a map are pairwise distinct. *)
Definition keysUnique {V : Type} (m : JsMap.t V) : Prop := NoDup (map fst m).

(** What every state of the store satisfies: no map holds a key twice;
    reviews, provider reviews, notifications and favorites are stored under
    their [id]; reviews and provider reviews carry a valid [createdAt]. *)
Record storeWf (s : MemStorage) : Prop := mkStoreWf {
  wf_brands : keysUnique (brands s);
  wf_products : keysUnique (products s);
  wf_reviews : keysUnique (reviews s);
  wf_supportRequests : keysUnique (supportRequests s);
  wf_serviceProviders : keysUnique (serviceProviders s);
  wf_serviceProviderReviews : keysUnique (serviceProviderReviews s);
  wf_notifications : keysUnique (notifications s);
  wf_favorites : keysUnique (favorites s);
  wf_reviewIds :
    forall k r, In (k, r) (reviews s) -> Review.id r = k;
  wf_reviewDates :
    forall k r, In (k, r) (reviews s) -> isValidDate (Review.createdAt r) = true;
  wf_providerReviewIds :
    forall k r, In (k, r) (serviceProviderReviews s) ->
                ServiceProviderReview.id r = k;
  wf_notificationIds :
    forall k n, In (k, n) (notifications s) -> Notification.id n = k;
  wf_favoriteIds :
    forall k f, In (k, f) (favorites s) -> Favorite.id f = k
}.

(* ================================================================== *)
(** ** More of the routes (server/routes.ts) *)

(** *** POST /api/products/:id/extension *)

(** The fields the handler reads from the request body, each absent or a
    string (the cost absent or an integer). *)
Module ExtensionBody.
Record t : Type := mk {
  extendedExpirationDate : option string;
  insuranceProvider : option string;
  agentName : option string;
  policyNumber : option string;
  extensionCost : option Z
}.
End ExtensionBody.

Inductive ExtensionResponse : Type :=
| ExtensionBadRequest
| ExtensionNotFound
| ExtensionOk (product : Product.t).

(** [!x] on a value that is absent or a string. *)
Definition isFalsy (x : option string) : bool :=
  match x with
  | None => true
  | Some str => String.eqb str ""
  end.

(** [x || ""]. *)
Definition orEmpty (x : option string) : string :=
  match x with
  | None => ""
  | Some str => str
  end.

Definition postExtension (Date_parse : string -> Date) (s : MemStorage)
    (id : string) (body : ExtensionBody.t) : ExtensionResponse * MemStorage :=
  if isFalsy (ExtensionBody.extendedExpirationDate body)
     || isFalsy (ExtensionBody.insuranceProvider body)
     || isFalsy (ExtensionBody.policyNumber body)
  then (ExtensionBadRequest, s)
  else
    let result :=
      addWarrantyExtension s id
        (Extension.mk
           (Date_parse (orEmpty (ExtensionBody.extendedExpirationDate body)))
           (orEmpty (ExtensionBody.insuranceProvider body))
           (orEmpty (ExtensionBody.agentName body))
           (orEmpty (ExtensionBody.policyNumber body))
           (Some (orZero (ExtensionBody.extensionCost body)))) in
    match fst result with
    | None => (ExtensionNotFound, snd result)
    | Some product => (ExtensionOk product, snd result)
    end.

(** *** GET /api/analytics: the statistics and the top brands *)

(** [sum + x] on numbers that may be NaN. *)
Definition addNaN (x y : option Z) : option Z :=
  match x, y with
  | Some a, Some b => Some (a + b)
  | _, _ => None
  end.

(** The [reduce] of the statistics: the callback reads the clock once per
    product, [clock i] for the product at index [i]. *)
Definition warrantyDaysSum (clock : nat -> Z)
    (listed : list (Product.t * Brand.t)) : option Z :=
  JsArray.reduce
    (fun sum pi =>
       let days :=
         daysRemaining (Product.warrantyExpiration (fst (fst pi)))
                       (clock (snd pi)) in
       addNaN sum (displayDays days))
    (Some 0)
    (combine listed (seq 0 (List.length listed))).

Module AnalyticsStats.
Record t : Type := mk {
  totalProducts : Z;
  totalProviders : Z;
  avgWarrantyExpiration : option Z
}.
End AnalyticsStats.

(** [products.length || 1]. *)
Definition lengthOrOne {A : Type} (l : list A) : Z :=
  if Nat.eqb (List.length l) 0 then 1 else Z.of_nat (List.length l).

Definition analyticsStats (clock : nat -> Z) (s : MemStorage)
    : AnalyticsStats.t :=
  let products_ := getAllProducts s in
  let providers := getAllServiceProviders s in
  AnalyticsStats.mk
    (Z.of_nat (List.length products_))
    (Z.of_nat (List.length providers))
    (match warrantyDaysSum clock products_ with
     | Some sum =>
         Some (Math_round (inject_Z sum / inject_Z (lengthOrOne products_)))
     | None => None
     end).

(** A value of the [brandCounts] object. *)
Module BrandCount.
Record t : Type := mk {
  name : string;
  count : Z;
  id : string
}.
End BrandCount.

(** [c.count++]. *)
Definition bump (c : BrandCount.t) : BrandCount.t :=
  BrandCount.mk (BrandCount.name c) (BrandCount.count c + 1) (BrandCount.id c).

(** The body of [products.forEach(p => { ... brandCounts[p.brandId].count++ })].
    The object is keyed by the identifiers of existing brands, which
    [randomUUID()] made. *)
Definition countBrand (p : Product.t * Brand.t) (m : JsMap.t BrandCount.t)
    : JsMap.t BrandCount.t :=
  let brandId := Product.brandId (fst p) in
  let m1 :=
    if JsMap.has brandId m then m
    else JsMap.set brandId (BrandCount.mk (Brand.name (snd p)) 0 brandId) m in
  match JsMap.get brandId m1 with
  | Some c => JsMap.set brandId (bump c) m1
  | None => m1
  end.

Definition brandCounts (listed : list (Product.t * Brand.t))
    : JsMap.t BrandCount.t :=
  JsArray.forEach countBrand listed JsMap.empty.

(** The comparator [(a, b) => b.count - a.count]. *)
Definition byCount (a b : BrandCount.t) : Q :=
  inject_Z (BrandCount.count b - BrandCount.count a).

Definition topBrands (s : MemStorage) : list BrandCount.t :=
  JsArray.slice0 5
    (JsArray.sort byCount (JsMap.values (brandCounts (getAllProducts s)))).

(** The number of listed products of a brand. *)
Definition productsOfBrand (brandId : string)
    (listed : list (Product.t * Brand.t)) : Z :=
  Z.of_nat
    (List.length
       (filter (fun p => String.eqb (Product.brandId (fst p)) brandId) listed)).

(** What the counting keeps true: after the products [done], the object
    holds one entry per brand seen, under the brand's identifier, with the
    number of products seen of that brand and the name of the brand of one
    of them. *)
Record counted (done : list (Product.t * Brand.t))
    (m : JsMap.t BrandCount.t) : Prop := mkCounted {
  counted_keys : keysUnique m;
  counted_seen :
    forall p, In p done -> JsMap.has (Product.brandId (fst p)) m = true;
  counted_entry :
    forall k c, In (k, c) m ->
      BrandCount.id c = k /\
      BrandCount.count c = productsOfBrand k done /\
      1 <= BrandCount.count c /\
      exists p, In p done /\ Product.brandId (fst p) = k
                /\ BrandCount.name c = Brand.name (snd p)
}.

(** *** GET /api/support-history *)

Definition supportHistory (s : MemStorage)
    : list (SupportRequest.t * (Product.t * Brand.t)) :=
  flat_map
    (fun request =>
       match getProductWithBrand s (SupportRequest.productId request) with
       | Some product => [(request, product)]
       | None => []
       end)
    (getAllSupportRequests s).

(** Whether [getProductWithBrand] finds the product. *)
Definition hasProductWithBrand (s : MemStorage) (productId : string) : bool :=
  match getProductWithBrand s productId with
  | Some _ => true
  | None => false
  end.

(* ================================================================== *)
(** ** More sample data *)

(** The Widget with a purchase date that is no date. *)
Definition undatedWidget : InsertProduct.t :=
  InsertProduct.mk "brand-a" "Widget" "W-1" None "Informática"
    (DateString "soon") None None None None None None None None None.

(** The Widget as [createProduct] stores it under p-1. *)
Definition widgetStored : Product.t :=
  fst (createProduct utcZone noParse freshStore (widget d2023_01_15) "p-1").

Definition reminder (productId : string) : InsertNotification.t :=
  InsertNotification.mk productId "30days" None None.

(** The Widget with two reviews, a reminder and a favorite, and FixIt with
    one review. *)
Definition busyStore : MemStorage :=
  run utcZone noParse freshStore
    [ OpCreateProduct (widget d2023_01_15) "p-1";
      OpCreateReview (opinion "p-1") "rv-1" 1000;
      OpCreateReview (opinion "p-1") "rv-2" 2000;
      OpCreateNotification (reminder "p-1") "n-1" 3000;
      OpToggleFavorite "product" "p-1" "f-1" 4000;
      OpCreateServiceProvider fixIt "sp-1" 5000;
      OpCreateServiceProviderReview (fixItReview 4) "r-1" 6000 ].

(* ================================================================== *)
(** * Proofs *)

Module JSDateFacts.
Import JSDate.

Lemma DayFromYear_succ (y : Z) :
  DayFromYear (y + 1) = DayFromYear y + DaysInYear y.
Proof.
  unfold DayFromYear, DaysInYear, isLeapYear.
  destruct (y mod 4 =? 0) eqn:E4; destruct (y mod 100 =? 0) eqn:E100;
    destruct (y mod 400 =? 0) eqn:E400; cbn [andb orb negb];
    rewrite ?Z.eqb_eq, ?Z.eqb_neq in *; Z.div_mod_to_equations; lia.
Qed.

Lemma DaysInYear_range (y : Z) : 365 <= DaysInYear y <= 366.
Proof. unfold DaysInYear. destruct (isLeapYear y); lia. Qed.

Lemma DayFromYear_le (y1 y2 : Z) :
  y1 <= y2 -> DayFromYear y1 <= DayFromYear y2.
Proof. unfold DayFromYear. intros. Z.div_mod_to_equations. lia. Qed.

Lemma YearFromDay_spec (d : Z) :
  DayFromYear (YearFromDay d) <= d < DayFromYear (YearFromDay d + 1).
Proof.
  unfold YearFromDay.
  set (y := 1970 + d * 400 / 146097).
  destruct (Z.ltb_spec d (DayFromYear y)) as [E1|E1];
    [|destruct (Z.leb_spec (DayFromYear (y + 1)) d) as [E2|E2]].
  - replace (y - 1 + 1) with y by lia. split; [|lia].
    subst y. unfold DayFromYear in *. Z.div_mod_to_equations. lia.
  - split; [lia|]. subst y. unfold DayFromYear in *.
    Z.div_mod_to_equations. lia.
  - lia.
Qed.

Lemma YearFromDay_unique (d y : Z) :
  DayFromYear y <= d < DayFromYear (y + 1) -> YearFromDay d = y.
Proof.
  intros H. pose proof (YearFromDay_spec d) as S.
  destruct (Z.lt_trichotomy (YearFromDay d) y) as [L|[E|G]]; [|exact E|].
  - pose proof (DayFromYear_le (YearFromDay d + 1) y ltac:(lia)). lia.
  - pose proof (DayFromYear_le (y + 1) (YearFromDay d) ltac:(lia)). lia.
Qed.

(** [YearFromDay d] is the largest year that starts on or before day [d]. *)
Lemma YearFromDay_largest (d y : Z) :
  DayFromYear y <= d -> y <= YearFromDay d.
Proof.
  intros H. pose proof (YearFromDay_spec d) as S.
  destruct (Z.le_gt_cases y (YearFromDay d)) as [L|G]; [exact L|].
  pose proof (DayFromYear_le (YearFromDay d + 1) y ltac:(lia)). lia.
Qed.

Lemma isLeapYear_mod4 (y : Z) : isLeapYear y = true -> y mod 4 = 0.
Proof.
  unfold isLeapYear. intros H. apply andb_prop in H. destruct H as [H _].
  now apply Z.eqb_eq in H.
Qed.

Ltac split_ifs :=
  repeat match goal with
    | |- context [if ?a <? ?b then _ else _] => destruct (Z.ltb_spec a b)
    | |- context [if ?a =? ?b then _ else _] => destruct (Z.eqb_spec a b)
    | H : context [if ?a <? ?b then _ else _] |- _ => destruct (Z.ltb_spec a b)
    | H : context [if ?a =? ?b then _ else _] |- _ => destruct (Z.eqb_spec a b)
    end.

Lemma MonthFromDay_cases (L dwy : Z) :
  0 <= dwy < 365 + L ->
  let m := MonthFromDay L dwy in
  (m = 0 /\ 0 <= dwy < 31) \/
  (m = 1 /\ 31 <= dwy < 59 + L) \/
  (m = 2 /\ 59 + L <= dwy < 90 + L) \/
  (m = 3 /\ 90 + L <= dwy < 120 + L) \/
  (m = 4 /\ 120 + L <= dwy < 151 + L) \/
  (m = 5 /\ 151 + L <= dwy < 181 + L) \/
  (m = 6 /\ 181 + L <= dwy < 212 + L) \/
  (m = 7 /\ 212 + L <= dwy < 243 + L) \/
  (m = 8 /\ 243 + L <= dwy < 273 + L) \/
  (m = 9 /\ 273 + L <= dwy < 304 + L) \/
  (m = 10 /\ 304 + L <= dwy < 334 + L) \/
  (m = 11 /\ 334 + L <= dwy < 365 + L).
Proof.
  intros H. cbv zeta. unfold MonthFromDay. split_ifs; lia.
Qed.

Lemma MonthFromDay_range (L dwy : Z) : 0 <= MonthFromDay L dwy <= 11.
Proof. unfold MonthFromDay. split_ifs; lia. Qed.

Lemma MonthFromDay_start (L m dwy : Z) :
  0 <= L <= 1 -> 0 <= m <= 11 ->
  monthStart L m <= dwy < monthEnd L m ->
  MonthFromDay L dwy = m.
Proof.
  intros HL Hm H.
  assert (C : m = 0 \/ m = 1 \/ m = 2 \/ m = 3 \/ m = 4 \/ m = 5 \/ m = 6
              \/ m = 7 \/ m = 8 \/ m = 9 \/ m = 10 \/ m = 11) by lia.
  destruct C as [C|[C|[C|[C|[C|[C|[C|[C|[C|[C|[C|C]]]]]]]]]]]; subst m;
    unfold monthStart, monthEnd in H; cbn [Z.eqb Pos.eqb] in H;
    unfold MonthFromDay; split_ifs; lia.
Qed.

(** Moving the day [dwy] of a year with leap flag [L] to the same month and
    date of a year with leap flag [L']. *)
Lemma month_date_transfer (L L' dwy : Z) :
  0 <= L <= 1 -> 0 <= L' <= 1 -> (L = 1 -> L' = 0) ->
  0 <= dwy < 365 + L ->
  let m := MonthFromDay L dwy in
  let d := dwy - monthStart L m + 1 in
  let dwy' := monthStart L' m + d - 1 in
  (m = 1 /\ d = 29 /\ L = 1 /\ dwy = 59 /\ dwy' = 59) \/
  (~ (m = 1 /\ d = 29) /\ 0 <= dwy' < 365 + L' /\
   MonthFromDay L' dwy' = m /\
   (m <= 1 -> dwy' = dwy) /\ (2 <= m -> dwy' = dwy + L' - L)).
Proof.
  intros HL HL' HLL Hd. cbv zeta.
  pose proof (MonthFromDay_cases L dwy Hd) as C. cbv zeta in C.
  destruct C as [C|[C|[C|[C|[C|[C|[C|[C|[C|[C|[C|C]]]]]]]]]]];
    destruct C as [-> C]; cbn [monthStart Z.eqb Pos.eqb];
    try (right; split; [lia|split; [lia|split;
          [apply MonthFromDay_start; unfold monthStart, monthEnd; cbn [Z.eqb Pos.eqb]; lia|lia]]]).
  destruct (Z.eq_dec dwy 59).
  - left. lia.
  - right; split; [lia|split; [lia|split;
          [apply MonthFromDay_start; unfold monthStart, monthEnd; cbn [Z.eqb Pos.eqb]; lia|lia]]].
Qed.

Lemma TimeWithinDay_range (t : Z) : 0 <= TimeWithinDay t < msPerDay.
Proof. unfold TimeWithinDay, msPerDay. apply Z.mod_pos_bound. lia. Qed.

Lemma Day_MakeDate (D tw : Z) :
  0 <= tw < msPerDay ->
  Day (MakeDate D tw) = D /\ TimeWithinDay (MakeDate D tw) = tw.
Proof.
  unfold Day, TimeWithinDay, MakeDate, msPerDay. intros H.
  split; Z.div_mod_to_equations; lia.
Qed.

Lemma Day_TimeWithinDay (t : Z) : t = Day t * msPerDay + TimeWithinDay t.
Proof.
  unfold Day, TimeWithinDay, msPerDay. Z.div_mod_to_equations. lia.
Qed.

Lemma leapFlag_facts (y : Z) :
  0 <= leapFlag y <= 1 /\ DaysInYear y = 365 + leapFlag y /\
  (leapFlag y = 1 -> y mod 4 = 0).
Proof.
  unfold leapFlag, DaysInYear. pose proof (isLeapYear_mod4 y).
  destruct (isLeapYear y); repeat split; lia.
Qed.

Lemma DayWithinYear_range (t : Z) :
  0 <= DayWithinYear t < 365 + InLeapYear t.
Proof.
  unfold DayWithinYear, InLeapYear, YearFromTime.
  pose proof (YearFromDay_spec (Day t)) as S.
  rewrite DayFromYear_succ in S. unfold DaysInYear in S.
  unfold leapFlag. destruct (isLeapYear (YearFromDay (Day t))); lia.
Qed.

(** [setFullYear] three years on, in local time: the year advances by
    three, the time of day is kept, and month and date are kept except on
    29 February, which becomes 1 March. *)
Lemma threeYearsOn (tl : Z) :
  let y := YearFromTime tl in
  let m := MonthFromTime tl in
  let d := DateFromTime tl in
  let tl' := MakeDate (MakeDay (y + 3) m d) (TimeWithinDay tl) in
  YearFromTime tl' = y + 3 /\
  TimeWithinDay tl' = TimeWithinDay tl /\
  1095 * msPerDay <= tl' - tl <= 1096 * msPerDay /\
  ((m = 1 /\ d = 29 /\ MonthFromTime tl' = 2 /\ DateFromTime tl' = 1) \/
   (~ (m = 1 /\ d = 29) /\ MonthFromTime tl' = m /\ DateFromTime tl' = d)).
Proof.
  intros y m d tl'.
  set (dwy := DayWithinYear tl).
  set (L := leapFlag y). set (L' := leapFlag (y + 3)).
  assert (Em : m = MonthFromDay L dwy) by reflexivity.
  assert (Ed : d = dwy - monthStart L m + 1) by reflexivity.
  pose proof (MonthFromDay_range L dwy) as Hm. rewrite <- Em in Hm.
  pose proof (TimeWithinDay_range tl) as Htw.
  pose proof (DayWithinYear_range tl) as Hdwy.
  change (InLeapYear tl) with L in Hdwy. fold dwy in Hdwy.
  set (dwy' := monthStart L' m + d - 1).
  assert (EM : MakeDay (y + 3) m d = DayFromYear (y + 3) + dwy').
  { unfold MakeDay.
    replace (m / 12) with 0 by (Z.div_mod_to_equations; lia).
    replace (m mod 12) with m by (Z.div_mod_to_equations; lia).
    replace (y + 3 + 0) with (y + 3) by lia.
    fold L'. subst dwy'. lia. }
  destruct (Day_MakeDate (MakeDay (y + 3) m d) (TimeWithinDay tl) Htw)
    as [HD HT].
  fold tl' in HD, HT. rewrite EM in HD.
  destruct (leapFlag_facts y) as (HL & HDy & HL4). fold L in HL, HDy, HL4.
  destruct (leapFlag_facts (y + 1)) as (HL1 & HDy1 & HL14).
  destruct (leapFlag_facts (y + 2)) as (HL2 & HDy2 & HL24).
  destruct (leapFlag_facts (y + 3)) as (HL3 & HDy3 & HL34).
  fold L' in HL3, HDy3, HL34.
  assert (Hleap : L + leapFlag (y + 1) + leapFlag (y + 2) + L' <= 1).
  { assert (B : forall x, 0 <= x <= 1 -> x = 0 \/ x = 1) by lia.
    destruct (B _ HL) as [E0|E0]; [|specialize (HL4 E0)];
    destruct (B _ HL1) as [E1|E1]; try specialize (HL14 E1);
    destruct (B _ HL2) as [E2|E2]; try specialize (HL24 E2);
    destruct (B _ HL3) as [E3|E3]; try specialize (HL34 E3);
    try lia; Z.div_mod_to_equations; lia. }
  assert (HLL : L = 1 -> L' = 0) by lia.
  pose proof (month_date_transfer L L' dwy HL HL3 HLL Hdwy) as T.
  cbv zeta in T. rewrite <- Em, <- Ed in T. fold dwy' in T.
  assert (S1 := DayFromYear_succ y).
  assert (S2 := DayFromYear_succ (y + 1)).
  assert (S3 := DayFromYear_succ (y + 2)).
  assert (S4 := DayFromYear_succ (y + 3)).
  replace (y + 1 + 1) with (y + 2) in S2 by lia.
  replace (y + 2 + 1) with (y + 3) in S3 by lia.
  assert (Hy' : YearFromTime tl' = y + 3).
  { unfold YearFromTime at 1. rewrite HD. apply YearFromDay_unique.
    destruct T as [T|T]; lia. }
  assert (HL' : InLeapYear tl' = L').
  { unfold InLeapYear. rewrite Hy'. reflexivity. }
  assert (Hdwy' : DayWithinYear tl' = dwy').
  { unfold DayWithinYear. rewrite Hy', HD. lia. }
  assert (HM' : MonthFromTime tl' = MonthFromDay L' dwy').
  { unfold MonthFromTime. now rewrite HL', Hdwy'. }
  assert (HDt' : DateFromTime tl'
                 = dwy' - monthStart L' (MonthFromDay L' dwy') + 1).
  { unfold DateFromTime. now rewrite HM', HL', Hdwy'. }
  assert (Htl : tl = (DayFromYear y + dwy) * msPerDay + TimeWithinDay tl).
  { rewrite (Day_TimeWithinDay tl) at 1. f_equal. f_equal.
    subst dwy. unfold DayWithinYear. fold y. lia. }
  assert (Htl' : tl' = (DayFromYear (y + 3) + dwy') * msPerDay
                       + TimeWithinDay tl).
  { unfold tl', MakeDate. now rewrite EM. }
  split; [exact Hy'|]. split; [exact HT|]. split.
  - clearbody tl' dwy' dwy m d. unfold msPerDay in *.
    destruct T as [T|T]; lia.
  - rewrite HM', HDt'. destruct T as [T|T].
    + left. destruct T as (Tm & Td & TL & Tdwy & Tdwy').
      assert (E0 : L' = 0) by auto. rewrite Tdwy', E0.
      repeat split; auto.
    + right. destruct T as (Tn & Tr & Tm & _). rewrite Tm.
      repeat split; auto. subst dwy'. lia.
Qed.
End JSDateFacts.

(* ================================================================== *)
(** ** Facts about maps and arrays *)

Module JsMapFacts.
Section Facts.
Context {V : Type}.
Implicit Types (m : JsMap.t V) (k : string) (v : V).

Lemma get_In k m v : JsMap.get k m = Some v -> In (k, v) m.
Proof.
  unfold JsMap.get. destruct (find _ m) as [e|] eqn:F; [|discriminate].
  intros [= <-]. apply find_some in F. destruct F as [F E].
  apply String.eqb_eq in E. subst k. now destruct e.
Qed.

Lemma get_In_values k m v : JsMap.get k m = Some v -> In v (JsMap.values m).
Proof.
  intros H. apply get_In in H. unfold JsMap.values.
  change v with (snd (k, v)). now apply in_map.
Qed.

Lemma get_set_same k v m : JsMap.get k (JsMap.set k v m) = Some v.
Proof.
  unfold JsMap.get. induction m as [|e m IH]; cbn.
  - now rewrite String.eqb_refl.
  - destruct (String.eqb (fst e) k) eqn:E; cbn.
    + now rewrite String.eqb_refl.
    + now rewrite E.
Qed.

Lemma get_set_other k k' v m :
  k' <> k -> JsMap.get k' (JsMap.set k v m) = JsMap.get k' m.
Proof.
  intros N. unfold JsMap.get. induction m as [|e m IH]; cbn.
  - apply String.eqb_neq in N. rewrite String.eqb_sym in N. now rewrite N.
  - destruct (String.eqb (fst e) k) eqn:E; cbn.
    + apply String.eqb_eq in E. subst k.
      destruct (String.eqb_spec (fst e) k'); [congruence|reflexivity].
    + destruct (String.eqb (fst e) k'); [reflexivity|exact IH].
Qed.


Lemma In_values_set k v m x :
  In x (JsMap.values (JsMap.set k v m)) -> x = v \/ In x (JsMap.values m).
Proof.
  unfold JsMap.values. induction m as [|e m IH]; cbn.
  - intros [<-|[]]. now left.
  - destruct (String.eqb (fst e) k); cbn.
    + intros [<-|H]; auto.
    + intros [<-|H]; auto. destruct (IH H); auto.
Qed.

Lemma In_set_entries k v m k' v' :
  In (k', v') (JsMap.set k v m) -> (k' = k /\ v' = v) \/ In (k', v') m.
Proof.
  induction m as [|e m IH]; cbn.
  - intros [[= <- <-]|[]]. now left.
  - destruct (String.eqb (fst e) k); cbn.
    + intros [[= <- <-]|H]; auto.
    + intros [<-|H]; auto. destruct (IH H); auto.
Qed.

Lemma In_set_new k v m : In (k, v) (JsMap.set k v m).
Proof.
  induction m as [|e m IH]; cbn; [now left|].
  destruct (String.eqb (fst e) k); cbn; auto.
Qed.

Lemma In_set_old k v m k' v' :
  In (k', v') m -> k' <> k -> In (k', v') (JsMap.set k v m).
Proof.
  intros H N. induction m as [|e m IH]; cbn in *; [contradiction|].
  destruct (String.eqb_spec (fst e) k) as [E|E]; cbn.
  - destruct H as [->|H]; [cbn in E; congruence|now right].
  - destruct H as [->|H]; [now left|right; auto].
Qed.

Lemma forallb_values_set (f : V -> bool) k v m :
  forallb f (JsMap.values m) = true -> f v = true ->
  forallb f (JsMap.values (JsMap.set k v m)) = true.
Proof.
  intros H Hv. apply forallb_forall. intros x Hx.
  apply In_values_set in Hx. destruct Hx as [->|Hx]; [exact Hv|].
  rewrite forallb_forall in H. now apply H.
Qed.

Lemma In_delete k m k' v :
  In (k', v) (JsMap.delete k m) <-> In (k', v) m /\ k' <> k.
Proof.
  unfold JsMap.delete. rewrite filter_In. cbn.
  rewrite negb_true_iff. split; intros [H1 H2]; split; auto.
  - now apply String.eqb_neq.
  - now apply String.eqb_neq.
Qed.

Lemma In_values_delete k m v :
  In v (JsMap.values (JsMap.delete k m)) -> In v (JsMap.values m).
Proof.
  unfold JsMap.values. rewrite !in_map_iff.
  intros [[k' v'] [E H]]. apply In_delete in H. destruct H as [H _].
  now exists (k', v').
Qed.

Lemma forallb_values_delete (f : V -> bool) k m :
  forallb f (JsMap.values m) = true ->
  forallb f (JsMap.values (JsMap.delete k m)) = true.
Proof.
  rewrite !forallb_forall. intros H x Hx. apply H.
  now apply In_values_delete in Hx.
Qed.

Lemma has_get k m : JsMap.has k m = false <-> JsMap.get k m = None.
Proof.
  unfold JsMap.has, JsMap.get. induction m as [|e m IH]; cbn; [tauto|].
  destruct (String.eqb (fst e) k); cbn; [split; discriminate|exact IH].
Qed.

Lemma get_delete_same k m : JsMap.get k (JsMap.delete k m) = None.
Proof.
  unfold JsMap.get, JsMap.delete. induction m as [|e m IH]; cbn; [reflexivity|].
  destruct (String.eqb (fst e) k) eqn:E; cbn; [exact IH|]. now rewrite E.
Qed.

Lemma has_delete_same k m : JsMap.has k (JsMap.delete k m) = false.
Proof. apply has_get, get_delete_same. Qed.

Lemma delete_absent k m : JsMap.has k m = false -> JsMap.delete k m = m.
Proof.
  unfold JsMap.has, JsMap.delete. induction m as [|e m IH]; cbn; [reflexivity|].
  destruct (String.eqb (fst e) k); cbn; [discriminate|].
  intros H. now rewrite IH.
Qed.

Lemma set_keys_NoDup k v m :
  NoDup (map fst m) -> NoDup (map fst (JsMap.set k v m)).
Proof.
  induction m as [|e m IH]; cbn; intros N.
  - constructor; [tauto|constructor].
  - apply NoDup_cons_iff in N. destruct N as [N1 N2].
    destruct (String.eqb_spec (fst e) k) as [E|E]; cbn.
    + rewrite <- E. now constructor.
    + constructor; [|auto]. intros H. apply in_map_iff in H.
      destruct H as ([k' v'] & Ek & H). cbn in Ek. subst k'.
      apply In_set_entries in H. destruct H as [[Ek _]|H]; [congruence|].
      apply N1. change (fst e) with (fst (fst e, v')). now apply in_map.
Qed.

Lemma delete_keys_NoDup k m :
  NoDup (map fst m) -> NoDup (map fst (JsMap.delete k m)).
Proof.
  unfold JsMap.delete. induction m as [|e m IH]; cbn; intros N; [exact N|].
  apply NoDup_cons_iff in N. destruct N as [N1 N2].
  destruct (negb (String.eqb (fst e) k)); cbn; [|auto].
  constructor; [|auto]. intros H. apply N1. apply in_map_iff in H.
  destruct H as (e' & E & H). apply filter_In in H. rewrite <- E.
  apply in_map. tauto.
Qed.

(** Deleting the keys [idOf x] for [x] in a list, one after the other. *)
Lemma In_delete_all {A : Type} (idOf : A -> string) (l : list A) m k v :
  In (k, v) (fold_left (fun acc x => JsMap.delete (idOf x) acc) l m) <->
  In (k, v) m /\ ~ In k (map idOf l).
Proof.
  revert m. induction l as [|x l IH]; intros m; cbn.
  - tauto.
  - rewrite IH, In_delete. intuition congruence.
Qed.
End Facts.
End JsMapFacts.

Module JsArrayFacts.
Section Facts.
Context {A : Type}.
Variable cmp : A -> A -> Q.

Lemma insert_Permutation (x : A) (l : list A) :
  Permutation (JsArray.insert cmp x l) (x :: l).
Proof.
  induction l as [|y l IH]; cbn; [reflexivity|].
  destruct (Qle_bool (cmp x y) 0); [reflexivity|].
  rewrite IH. apply perm_swap.
Qed.

Lemma sort_Permutation (l : list A) : Permutation (JsArray.sort cmp l) l.
Proof.
  induction l as [|x l IH]; cbn; [reflexivity|].
  fold (JsArray.sort cmp l). rewrite insert_Permutation. now constructor.
Qed.

Lemma sort_In (l : list A) (x : A) : In x (JsArray.sort cmp l) <-> In x l.
Proof.
  split; apply Permutation_in;
    [apply sort_Permutation|symmetry; apply sort_Permutation].
Qed.

Lemma sort_length (l : list A) :
  List.length (JsArray.sort cmp l) = List.length l.
Proof. apply Permutation_length, sort_Permutation. Qed.

Lemma sort_nil : JsArray.sort cmp [] = [].
Proof. reflexivity. Qed.
End Facts.

Lemma filter_none {A : Type} (p : A -> bool) (l : list A) :
  (forall x, In x l -> p x = false) -> filter p l = [].
Proof.
  induction l as [|x l IH]; cbn; [reflexivity|]. intros H.
  rewrite (H x (or_introl eq_refl)). apply IH. intros y Hy. apply H. now right.
Qed.

Lemma reduce_sum {A : Type} (f : A -> Z) (l : list A) (acc : Z) :
  JsArray.reduce (fun a x => a + f x) acc l = acc + sumZ (map f l).
Proof.
  unfold JsArray.reduce. revert acc.
  induction l as [|x l IH]; intros acc; cbn [fold_left map].
  - unfold sumZ. cbn. lia.
  - rewrite IH. unfold sumZ. cbn [fold_right]. lia.
Qed.

Lemma sumZ_Permutation (l l' : list Z) :
  Permutation l l' -> sumZ l = sumZ l'.
Proof. unfold sumZ. induction 1; cbn [fold_right]; lia. Qed.
End JsArrayFacts.

(* ================================================================== *)
(** ** Default warranty expiration *)

Lemma defaultExpiration_valid (tza : TimeZone) (t : Z) :
  (forall u isUTC, - msPerDay <= tza u isUTC <= msPerDay) ->
  - maxTime <= t -> t + 1098 * msPerDay <= maxTime ->
  let tl := LocalTime tza t in
  let tl' :=
    MakeDate (MakeDay (YearFromTime tl + 3) (MonthFromTime tl) (DateFromTime tl))
             (TimeWithinDay tl) in
  defaultExpiration tza (Some t) = Some (UTC tza tl').
Proof.
  intros B Hlo Hhi tl tl'.
  destruct (JSDateFacts.threeYearsOn tl) as (_ & _ & Hb & _).
  cbv zeta in Hb. fold tl' in Hb.
  unfold defaultExpiration, getFullYear, addNumber, setFullYear.
  fold tl. fold tl'. unfold TimeClip.
  destruct (Z.leb_spec (Z.abs (UTC tza tl')) maxTime) as [_|H]; [reflexivity|].
  exfalso. pose proof (B t true) as B1. pose proof (B tl' false) as B2.
  unfold UTC in H. unfold tl, LocalTime in Hb. fold tl in Hb.
  unfold msPerDay, maxTime in *. lia.
Qed.

(** In a zone of one offset every local time is the local time of the
    instant it denotes. *)
Lemma LocalTime_UTC_utcZone (x : Z) : LocalTime utcZone (UTC utcZone x) = x.
Proof. unfold LocalTime, UTC, utcZone. lia. Qed.


(** C1, as amended: a product created from a valid purchase date [P] that
    lies at least 1098 days before the end of the range of [Date], in a time
    zone whose offsets stay within a day, is stored with the expiration
    [UTC x], the instant of the local date and time [x]: the year of [P]
    in local time plus three, the same time of day, and the month and the
    day of the month of [P], except that a purchase on 29 February gives
    1 March.  Whenever the stored instant shows [x] in local time, which it
    does unless a transition of the zone skips [x], the getters of [Date]
    return that year, month, day and time of day. *)
Theorem createProduct_warrantyExpiration
    (tza : TimeZone) (parse : string -> Date) (s : MemStorage)
    (ins : InsertProduct.t) (uuid : string) (t : Z) :
  newDate parse (InsertProduct.purchaseDate ins) = Some t ->
  (forall u isUTC, - msPerDay <= tza u isUTC <= msPerDay) ->
  - maxTime <= t -> t + 1098 * msPerDay <= maxTime ->
  let created := createProduct tza parse s ins uuid in
  let p := fst created in
  let P := Product.purchaseDate p in
  let W := Product.warrantyExpiration p in
  let tl := LocalTime tza t in
  getProduct (snd created) uuid = Some p /\
  P = Some t /\
  exists x,
    W = Some (UTC tza x) /\
    YearFromTime x = YearFromTime tl + 3 /\
    TimeWithinDay x = TimeWithinDay tl /\
    ((MonthFromTime tl = 1 /\ DateFromTime tl = 29 /\
      MonthFromTime x = 2 /\ DateFromTime x = 1) \/
     (~ (MonthFromTime tl = 1 /\ DateFromTime tl = 29) /\
      MonthFromTime x = MonthFromTime tl /\
      DateFromTime x = DateFromTime tl)) /\
    (LocalTime tza (UTC tza x) = x ->
     (exists y, getFullYear tza P = Some y
                /\ getFullYear tza W = Some (y + 3)) /\
     getTimeOfDay tza W = getTimeOfDay tza P /\
     ((getMonth tza P = Some 1 /\ getDate tza P = Some 29 /\
       getMonth tza W = Some 2 /\ getDate tza W = Some 1) \/
      (~ (getMonth tza P = Some 1 /\ getDate tza P = Some 29) /\
       getMonth tza W = getMonth tza P /\ getDate tza W = getDate tza P))).
Proof.
  intros HP B Hlo Hhi created p P W tl.
  assert (EP : P = Some t) by exact HP.
  assert (EW : W = defaultExpiration tza (Some t)).
  { unfold W, p, created, createProduct. cbn. now rewrite HP. }
  pose proof (defaultExpiration_valid tza t B Hlo Hhi) as Hv.
  cbv zeta in Hv. rewrite Hv in EW.
  destruct (JSDateFacts.threeYearsOn (LocalTime tza t)) as (Hy & Ht & _ & Hmd).
  cbv zeta in Hy, Ht, Hmd. fold tl in Hy, Ht, Hmd, EW.
  split; [apply JsMapFacts.get_set_same|]. split; [exact EP|].
  eexists. split; [exact EW|]. split; [exact Hy|]. split; [exact Ht|].
  split; [exact Hmd|]. intros Hl.
  rewrite EW, EP. unfold getFullYear, getTimeOfDay, getMonth, getDate.
  rewrite Hl. fold tl. split; [|split].
  - eexists. split; [reflexivity|]. now rewrite Hy.
  - now rewrite Ht.
  - destruct Hmd as [(Hm & Hd & Hm' & Hd')|(Hn & Hm' & Hd')].
    + left. now rewrite Hm', Hd', Hm, Hd.
    + right. rewrite Hm', Hd'. repeat split; auto.
      intros [[= Em] [= Ed]]. apply Hn. auto.
Qed.

(** C2: on an existing product, [addWarrantyExtension] returns and stores
    the product with [warrantyExpiration] and [extendedExpirationDate] set
    to the extension's date, [hasExtension] true, the provider, agent and
    policy number of the extension, a cost of 0 when none is given, and
    every other field as before. *)
Theorem addWarrantyExtension_overrides
    (s : MemStorage) (id : string) (e : Extension.t) (p : Product.t) :
  getProduct s id = Some p ->
  exists updated,
    addWarrantyExtension s id e
      = (Some updated,
         with_products s (JsMap.set id updated (products s))) /\
    getProduct (snd (addWarrantyExtension s id e)) id = Some updated /\
    Product.warrantyExpiration updated = Extension.extendedExpirationDate e /\
    Product.hasExtension updated = Some true /\
    Product.extendedExpirationDate updated
      = Some (Extension.extendedExpirationDate e) /\
    Product.insuranceProvider updated = Some (Extension.insuranceProvider e) /\
    Product.agentName updated = Some (Extension.agentName e) /\
    Product.policyNumber updated = Some (Extension.policyNumber e) /\
    Product.extensionCost updated
      = Some (match Extension.extensionCost e with Some c => c | None => 0 end) /\
    Product.id updated = Product.id p /\
    Product.brandId updated = Product.brandId p /\
    Product.name updated = Product.name p /\
    Product.model updated = Product.model p /\
    Product.serialNumber updated = Product.serialNumber p /\
    Product.category updated = Product.category p /\
    Product.purchaseDate updated = Product.purchaseDate p /\
    Product.receiptUrl updated = Product.receiptUrl p /\
    Product.photoUrls updated = Product.photoUrls p /\
    Product.notes updated = Product.notes p.
Proof.
  unfold getProduct, addWarrantyExtension. intros ->.
  eexists. split; [reflexivity|]. cbn.
  split; [apply JsMapFacts.get_set_same|].
  repeat split. f_equal. unfold orZero.
  destruct (Extension.extensionCost e) as [c|]; [|reflexivity].
  destruct (Z.eqb_spec c 0); congruence.
Qed.

(* ================================================================== *)
(** ** Warranty status *)

Lemma Math_ceil_div (a : Z) :
  Math_ceil (inject_Z a / inject_Z (1000 * 60 * 60 * 24))%Q
  = - ((- a) / msPerDay).
Proof.
  unfold Math_ceil, Qceiling, Qfloor, Qdiv, Qinv, Qmult, Qopp, inject_Z.
  cbn [Qnum Qden Z.mul Pos.mul]. unfold msPerDay.
  change (1000 * 60 * 60 * 24) with 86400000. cbn [Qnum Qden].
  rewrite Z.mul_1_r. reflexivity.
Qed.

Lemma daysRemaining_valid (t now : Z) :
  daysRemaining (Some t) now = Some (- ((now - t) / msPerDay)).
Proof.
  unfold daysRemaining, getTime. rewrite Math_ceil_div.
  do 3 f_equal. lia.
Qed.

Lemma isExpired_valid (t now : Z) :
  isExpired (daysRemaining (Some t) now) = true <-> t + msPerDay <= now.
Proof.
  rewrite daysRemaining_valid. unfold isExpired. rewrite Z.ltb_lt.
  unfold msPerDay. split; intros H; Z.div_mod_to_equations; lia.
Qed.

(** C3, as amended: a warranty is classified as expired exactly when its
    expiration lies a full day or more before [now] (so [daysRemaining],
    the ceiling of the difference in days, is negative); both routes
    classify in this way; and the number of days shown is never negative
    and is 0 whenever the warranty is expired.  An Invalid Date is never
    expired and shows NaN. *)
Theorem warranty_status (warrantyExpiration : Date) (now : Z) :
  let days := daysRemaining warrantyExpiration now in
  (isExpired days = true
   <-> exists t, warrantyExpiration = Some t /\ t + msPerDay <= now) /\
  (fst (certificateStatus warrantyExpiration now) = "EXPIRADA"
   <-> isExpired days = true) /\
  (fst (exportStatus warrantyExpiration now) = "Expirada"
   <-> isExpired days = true) /\
  snd (exportStatus warrantyExpiration now) = displayDays days /\
  (isExpired days = false ->
   snd (certificateStatus warrantyExpiration now) = Some (displayDays days)) /\
  match displayDays days with
  | Some shown => 0 <= shown /\ (isExpired days = true -> shown = 0)
  | None => warrantyExpiration = None
  end.
Proof.
  intros days. split; [|split; [|split; [|split; [|split]]]].
  - destruct warrantyExpiration as [t|].
    + unfold days. rewrite isExpired_valid. split.
      * intros H. now exists t.
      * now intros (t' & [= <-] & H).
    + cbn. split; [discriminate|]. now intros (t & [=] & _).
  - unfold certificateStatus. fold days.
    destruct (isExpired days); cbn; split; congruence.
  - unfold exportStatus. fold days. destruct (isExpired days); cbn.
    + split; congruence.
    + destruct days as [d|]; [destruct (d <=? 90)|]; cbn; split; congruence.
  - reflexivity.
  - unfold certificateStatus. fold days. now intros ->.
  - destruct warrantyExpiration as [t|]; [|reflexivity].
    unfold days. rewrite daysRemaining_valid. cbn [displayDays isExpired].
    split; [lia|]. rewrite Z.ltb_lt. lia.
Qed.

(* ================================================================== *)
(** ** Client profile *)

(** C9: [saveClientProfile] returns and stores a record made of the saved
    fields, the identifier just drawn and the clock reading as both
    [createdAt] and [updatedAt]; the record does not depend on the store
    before the call; [getClientProfile] then returns it; nothing else in the
    store changes. *)
Theorem saveClientProfile_replaces
    (s : MemStorage) (profile : InsertClientProfile.t) (uuid : string)
    (now : Z) :
  let saved := fst (saveClientProfile s profile uuid now) in
  let s' := snd (saveClientProfile s profile uuid now) in
  getClientProfile s' = Some saved /\
  ClientProfile.id saved = uuid /\
  ClientProfile.createdAt saved = Some now /\
  ClientProfile.updatedAt saved = ClientProfile.createdAt saved /\
  ClientProfile.fullName saved = InsertClientProfile.fullName profile /\
  ClientProfile.email saved = InsertClientProfile.email profile /\
  ClientProfile.phoneNumber saved = InsertClientProfile.phoneNumber profile /\
  ClientProfile.taxNumber saved = InsertClientProfile.taxNumber profile /\
  ClientProfile.address saved = InsertClientProfile.address profile /\
  ClientProfile.city saved = InsertClientProfile.city profile /\
  ClientProfile.postalCode saved = InsertClientProfile.postalCode profile /\
  (forall s0, fst (saveClientProfile s0 profile uuid now) = saved) /\
  s' = with_clientProfile s (Some saved).
Proof. cbv zeta. repeat split. Qed.

(* ================================================================== *)
(** ** The cascading deletes *)

Lemma forEach_delete_reviews (l : list Review.t) (s : MemStorage) :
  JsArray.forEach
    (fun review st =>
       with_reviews st (JsMap.delete (Review.id review) (reviews st))) l s
  = with_reviews s
      (fold_left (fun m r => JsMap.delete (Review.id r) m) l (reviews s)).
Proof.
  unfold JsArray.forEach. revert s.
  induction l as [|r l IH]; intros s; cbn [fold_left].
  - now destruct s.
  - rewrite IH. reflexivity.
Qed.

Lemma forEach_delete_supportRequests (l : list SupportRequest.t)
    (s : MemStorage) :
  JsArray.forEach
    (fun request st =>
       with_supportRequests st
         (JsMap.delete (SupportRequest.id request) (supportRequests st))) l s
  = with_supportRequests s
      (fold_left (fun m r => JsMap.delete (SupportRequest.id r) m) l
                 (supportRequests s)).
Proof.
  unfold JsArray.forEach. revert s.
  induction l as [|r l IH]; intros s; cbn [fold_left].
  - now destruct s.
  - rewrite IH. reflexivity.
Qed.

Lemma forEach_delete_serviceProviderReviews (l : list ServiceProviderReview.t)
    (s : MemStorage) :
  JsArray.forEach
    (fun r st =>
       with_serviceProviderReviews st
         (JsMap.delete (ServiceProviderReview.id r)
                       (serviceProviderReviews st))) l s
  = with_serviceProviderReviews s
      (fold_left (fun m r => JsMap.delete (ServiceProviderReview.id r) m) l
                 (serviceProviderReviews s)).
Proof.
  unfold JsArray.forEach. revert s.
  induction l as [|r l IH]; intros s; cbn [fold_left].
  - now destruct s.
  - rewrite IH. reflexivity.
Qed.

(** [deleteProduct] in one piece: the children found before the call are
    deleted by their [id], then the product by its key. *)
Lemma deleteProduct_eq (s : MemStorage) (id : string) :
  deleteProduct s id
  = (JsMap.has id (products s),
     mkStore (brands s)
       (JsMap.delete id (products s))
       (fold_left (fun m r => JsMap.delete (Review.id r) m)
                  (getReviewsByProduct s id) (reviews s))
       (fold_left (fun m r => JsMap.delete (SupportRequest.id r) m)
                  (getSupportRequestsByProduct s id) (supportRequests s))
       (serviceProviders s) (serviceProviderReviews s) (notifications s)
       (favorites s) (clientProfile s)).
Proof.
  unfold deleteProduct.
  rewrite forEach_delete_reviews, forEach_delete_supportRequests.
  reflexivity.
Qed.

Lemma deleteServiceProvider_eq (s : MemStorage) (id : string) :
  deleteServiceProvider s id
  = (JsMap.has id (serviceProviders s),
     mkStore (brands s) (products s) (reviews s) (supportRequests s)
       (JsMap.delete id (serviceProviders s))
       (fold_left (fun m r => JsMap.delete (ServiceProviderReview.id r) m)
          (filter (fun r => String.eqb (ServiceProviderReview.providerId r) id)
                  (JsMap.values (serviceProviderReviews s)))
          (serviceProviderReviews s))
       (notifications s) (favorites s) (clientProfile s)).
Proof.
  unfold deleteServiceProvider.
  rewrite forEach_delete_serviceProviderReviews. reflexivity.
Qed.

(** Projections of a store just built. *)
Ltac store_simpl :=
  cbn [snd fst brands products reviews supportRequests serviceProviders
       serviceProviderReviews notifications favorites clientProfile
       with_brands with_products with_reviews with_supportRequests
       with_serviceProviders with_serviceProviderReviews with_notifications
       with_favorites with_clientProfile].

(** Unfolds one operation of [step] down to the maps it writes. *)
Ltac step_cases :=
  cbn [step];
  try rewrite deleteProduct_eq;
  try rewrite deleteServiceProvider_eq;
  try unfold createServiceProviderReview;
  unfold createBrand, createProduct, updateProduct, createReview,
    createSupportRequest, updateSupportRequest, createServiceProvider,
    updateServiceProvider, createNotification,
    markNotificationAsSent, toggleFavorite, addWarrantyExtension,
    saveClientProfile, updateClientProfile;
  store_simpl.

(** Splits on the scrutinee of the first [match] or [if] of the goal. *)
Ltac split_match :=
  match goal with
  | |- context [match ?x with _ => _ end] => destruct x eqn:?
  end.

(** Closes the goal of an operation that leaves the part of the store in
    hypothesis [H] alone. *)
Ltac frame H := repeat split_match; store_simpl; exact H.

(* ================================================================== *)
(** ** The warranty invariant *)

Lemma Date_eqb_refl (d : Date) : Date_eqb d d = true.
Proof. destruct d; cbn; [apply Z.eqb_refl|reflexivity]. Qed.

Lemma mergeProduct_consistent (tza : TimeZone) (p : Product.t) (u : PartialProduct.t) :
  keepsWarrantyFields u = true ->
  warrantyConsistent tza (mergeProduct p u) = warrantyConsistent tza p.
Proof.
  unfold keepsWarrantyFields, warrantyConsistent, mergeProduct.
  destruct (PartialProduct.purchaseDate u); [discriminate|].
  destruct (PartialProduct.warrantyExpiration u); [discriminate|].
  destruct (PartialProduct.hasExtension u); [discriminate|].
  destruct (PartialProduct.extendedExpirationDate u); [discriminate|].
  reflexivity.
Qed.

(** C4, as amended: the warranty invariant holds in a fresh store and is
    kept by every operation other than a [createProduct] whose bundle
    carries [hasExtension: true] and an [updateProduct] that writes
    [purchaseDate], [warrantyExpiration], [hasExtension] or
    [extendedExpirationDate]. *)
Theorem warrantyInvariant_step
    (tza : TimeZone) (parse : string -> Date) (s : MemStorage) (op : Op) :
  warrantyInvariant tza s = true ->
  keepsWarranty op = true ->
  warrantyInvariant tza (step tza parse s op) = true.
Proof.
  unfold warrantyInvariant. intros H K.
  destruct op; step_cases; try exact H.
  - (* createProduct *)
    apply JsMapFacts.forallb_values_set; [exact H|].
    unfold warrantyConsistent. cbn [keepsWarranty] in K. cbn.
    destruct (InsertProduct.hasExtension p) as [[|]|];
      [discriminate|apply Date_eqb_refl|apply Date_eqb_refl].
  - (* updateProduct *)
    destruct (JsMap.get id (products s)) as [p|] eqn:G; cbn; [|exact H].
    apply JsMapFacts.forallb_values_set; [exact H|].
    rewrite mergeProduct_consistent by exact K.
    rewrite forallb_forall in H. apply H.
    now apply JsMapFacts.get_In_values in G.
  - (* deleteProduct *)
    now apply JsMapFacts.forallb_values_delete.
  - frame H.
  - frame H.
  - frame H.
  - frame H.
  - frame H.
  - (* addWarrantyExtension *)
    destruct (JsMap.get id (products s)) as [p|] eqn:G; cbn; [|exact H].
    apply JsMapFacts.forallb_values_set; [exact H|].
    unfold warrantyConsistent. cbn. apply Date_eqb_refl.
  - frame H.
Qed.

Lemma warrantyInvariant_new (tza : TimeZone) (uuid : nat -> string) :
  warrantyInvariant tza (newMemStorage uuid) = true.
Proof. reflexivity. Qed.

(* ================================================================== *)
(** ** Average rating of a provider *)

Lemma getAverageRating_mean (s : MemStorage) (providerId : string) :
  storedRatings s providerId <> [] ->
  getAverageRating s providerId = mean (storedRatings s providerId).
Proof.
  unfold getAverageRating, getServiceProviderReviews, storedRatings, mean.
  set (stored := filter _ _). set (cmp := fun a b => _).
  intros N. rewrite JsArrayFacts.sort_length.
  destruct (Nat.eqb_spec (List.length stored) 0) as [E|_].
  - destruct stored; [now contradiction N|discriminate].
  - rewrite JsArrayFacts.reduce_sum, Z.add_0_l, length_map.
    rewrite (JsArrayFacts.sumZ_Permutation
               (map ServiceProviderReview.rating (JsArray.sort cmp stored))
               (map ServiceProviderReview.rating stored)); [reflexivity|].
    apply Permutation_map, JsArrayFacts.sort_Permutation.
Qed.

(** C5: creating a review for a stored provider persists, as the
    provider's [averageRating], the rounded mean of the ratings of all the
    reviews then stored for that provider, the new one included. *)
Theorem createServiceProviderReview_averageRating
    (s : MemStorage) (r : InsertServiceProviderReview.t) (uuid : string)
    (now : Z) (provider : ServiceProvider.t) :
  let X := InsertServiceProviderReview.providerId r in
  getServiceProvider s X = Some provider ->
  let s' := snd (createServiceProviderReview s r uuid now) in
  exists provider',
    getServiceProvider s' X = Some provider' /\
    ServiceProvider.averageRating provider'
      = Some (Math_round (mean (storedRatings s' X))) /\
    In (InsertServiceProviderReview.rating r) (storedRatings s' X) /\
    JsMap.get uuid (serviceProviderReviews s')
      = Some (fst (createServiceProviderReview s r uuid now)).
Proof.
  intros X G s'. unfold getServiceProvider in G.
  unfold s', createServiceProviderReview, updateServiceProvider.
  cbn [snd fst serviceProviders with_serviceProviderReviews]. fold X.
  rewrite G.
  set (review := ServiceProviderReview.mk _ _ _ _ _).
  set (s1 := with_serviceProviderReviews s _).
  cbn [snd].
  assert (Hin : In (InsertServiceProviderReview.rating r) (storedRatings s1 X)).
  { unfold storedRatings.
    change (InsertServiceProviderReview.rating r)
      with (ServiceProviderReview.rating review).
    apply in_map, filter_In. split.
    - unfold s1. cbn [serviceProviderReviews with_serviceProviderReviews].
      unfold JsMap.values. change review with (snd (uuid, review)).
      apply in_map, JsMapFacts.In_set_new.
    - apply String.eqb_refl. }
  eexists. split; [|split; [|split]].
  - unfold getServiceProvider. cbn [serviceProviders with_serviceProviders].
    apply JsMapFacts.get_set_same.
  - cbn [mergeServiceProvider ServiceProvider.averageRating over
         PartialServiceProvider.averageRating].
    rewrite getAverageRating_mean; [reflexivity|].
    intros E. rewrite E in Hin. contradiction.
  - exact Hin.
  - cbn [serviceProviderReviews with_serviceProviders].
    unfold s1. cbn [serviceProviderReviews with_serviceProviderReviews].
    apply JsMapFacts.get_set_same.
Qed.

(* ================================================================== *)
(** ** Favorites *)

Lemma matchesFavorite_key (type targetId : string) (e : string * Favorite.t) :
  matchesFavorite type targetId (snd e) = true
  <-> favoriteKey e = (type, targetId).
Proof.
  unfold matchesFavorite, favoriteKey.
  rewrite andb_true_iff, !String.eqb_eq. split.
  - now intros [-> ->].
  - now intros [= -> ->].
Qed.

Lemma favoritesUnique_entries (s : MemStorage) :
  favoritesUnique s <-> NoDup (map favoriteKey (favorites s)).
Proof.
  unfold favoritesUnique, JsMap.values. rewrite map_map. reflexivity.
Qed.

Lemma isFavorite_true (s : MemStorage) (type targetId : string) :
  isFavorite s type targetId = true
  <-> In (type, targetId) (map favoriteKey (favorites s)).
Proof.
  unfold isFavorite, JsMap.values. rewrite existsb_exists, in_map_iff. split.
  - intros (f & Hf & M). apply in_map_iff in Hf. destruct Hf as (e & <- & He).
    exists e. split; [now apply matchesFavorite_key|exact He].
  - intros (e & K & He). exists (snd e). split; [now apply in_map|].
    now apply matchesFavorite_key.
Qed.

Lemma NoDup_map_filter {A B : Type} (g : A -> B) (p : A -> bool) (l : list A) :
  NoDup (map g l) -> NoDup (map g (filter p l)).
Proof.
  induction l as [|x l IH]; cbn; [auto|]. intros N.
  apply NoDup_cons_iff in N. destruct N as [N1 N2].
  destruct (p x); cbn; [|auto]. constructor; [|auto].
  intros H. apply N1. apply in_map_iff in H. destruct H as (y & E & Hy).
  apply filter_In in Hy. rewrite <- E. apply in_map. tauto.
Qed.

Lemma NoDup_map_eq {A B : Type} (g : A -> B) (l : list A) (x y : A) :
  NoDup (map g l) -> In x l -> In y l -> g x = g y -> x = y.
Proof.
  induction l as [|z l IH]; cbn; [contradiction|]. intros N Hx Hy E.
  apply NoDup_cons_iff in N. destruct N as [N1 N2].
  destruct Hx as [->|Hx]; destruct Hy as [->|Hy]; auto.
  - exfalso. apply N1. rewrite E. now apply in_map.
  - exfalso. apply N1. rewrite <- E. now apply in_map.
Qed.

Lemma NoDup_map_set {V B : Type} (g : string * V -> B) (k : string) (v : V)
    (m : JsMap.t V) :
  NoDup (map g m) -> ~ In (g (k, v)) (map g m) ->
  NoDup (map g (JsMap.set k v m)).
Proof.
  induction m as [|e m IH]; cbn; intros N F.
  - constructor; [tauto|constructor].
  - apply NoDup_cons_iff in N. destruct N as [N1 N2].
    destruct (String.eqb (fst e) k); cbn.
    + constructor; [tauto|exact N2].
    + constructor; [|apply IH; tauto].
      intros H. apply in_map_iff in H. destruct H as ([k' v'] & E & H).
      apply JsMapFacts.In_set_entries in H. destruct H as [[-> ->]|H].
      * apply F. now left.
      * apply N1. rewrite <- E. now apply in_map.
Qed.

Lemma toggleFavorite_unique (s : MemStorage) (type targetId uuid : string)
    (now : Z) :
  favoritesUnique s ->
  favoritesUnique (snd (toggleFavorite s type targetId uuid now)).
Proof.
  rewrite !favoritesUnique_entries. intros N. unfold toggleFavorite.
  fold (isFavorite s type targetId).
  destruct (isFavorite s type targetId) eqn:F.
  - destruct (find _ _) as [e|]; cbn; [|exact N].
    unfold JsMap.delete. now apply NoDup_map_filter.
  - cbn. apply NoDup_map_set; [exact N|].
    intros H. apply isFavorite_true in H. unfold favoriteKey in H. cbn in H.
    congruence.
Qed.

Lemma favoritesUnique_step (tza : TimeZone) (parse : string -> Date)
    (s : MemStorage) (op : Op) :
  favoritesUnique s -> favoritesUnique (step tza parse s op).
Proof.
  intros H.
  destruct op; try (unfold favoritesUnique in *; step_cases; frame H).
  cbn [step]. now apply toggleFavorite_unique.
Qed.

Lemma reachable_favoritesUnique (tza : TimeZone) (parse : string -> Date)
    (s : MemStorage) :
  reachable tza parse s -> favoritesUnique s.
Proof.
  induction 1 as [uuid|s op _ IH].
  - constructor.
  - now apply favoritesUnique_step.
Qed.

Lemma toggleFavorite_result (s : MemStorage) (type targetId uuid : string)
    (now : Z) :
  favoritesUnique s ->
  fst (toggleFavorite s type targetId uuid now)
    = negb (isFavorite s type targetId) /\
  isFavorite (snd (toggleFavorite s type targetId uuid now)) type targetId
    = fst (toggleFavorite s type targetId uuid now).
Proof.
  intros U. unfold toggleFavorite. fold (isFavorite s type targetId).
  destruct (isFavorite s type targetId) eqn:F.
  - destruct (find _ _) as [e|] eqn:Fd; cbn [fst snd negb].
    + split; [reflexivity|].
      apply not_true_is_false. intros H. apply isFavorite_true in H.
      cbn [favorites with_favorites] in H.
      apply in_map_iff in H. destruct H as ([k' f'] & K & H).
      apply JsMapFacts.In_delete in H. destruct H as [H Nk].
      apply find_some in Fd. destruct Fd as [He Me].
      apply matchesFavorite_key in Me.
      apply favoritesUnique_entries in U.
      assert (E : (k', f') = e).
      { apply (NoDup_map_eq favoriteKey (favorites s)); auto. congruence. }
      apply Nk. now rewrite <- E.
    + exfalso. apply isFavorite_true in F. apply in_map_iff in F.
      destruct F as (e & K & He).
      apply (find_none _ _ Fd) in He.
      apply matchesFavorite_key in K. congruence.
  - cbn [fst snd negb]. split; [reflexivity|].
    apply isFavorite_true. cbn [favorites with_favorites].
    apply in_map_iff. exists (uuid, Favorite.mk uuid type targetId (Some now)).
    split; [reflexivity|apply JsMapFacts.In_set_new].
Qed.

(** C8: in every state of the store, [toggleFavorite] returns the negation
    of [isFavorite] before the call, [isFavorite] after the call is the
    value returned, and a second toggle brings the membership back. *)
Theorem toggleFavorite_flips
    (tza : TimeZone) (parse : string -> Date) (s : MemStorage)
    (type targetId uuid uuid' : string) (now now' : Z) :
  reachable tza parse s ->
  let first := toggleFavorite s type targetId uuid now in
  let second := toggleFavorite (snd first) type targetId uuid' now' in
  fst first = negb (isFavorite s type targetId) /\
  isFavorite (snd first) type targetId = fst first /\
  fst second = isFavorite s type targetId /\
  isFavorite (snd second) type targetId = isFavorite s type targetId.
Proof.
  intros R first second.
  pose proof (reachable_favoritesUnique _ _ _ R) as U.
  destruct (toggleFavorite_result s type targetId uuid now U) as [A B].
  pose proof (toggleFavorite_unique s type targetId uuid now U) as U'.
  destruct (toggleFavorite_result (snd first) type targetId uuid' now' U')
    as [A' B'].
  fold first in A, B. fold second in A', B'.
  assert (E : fst second = isFavorite s type targetId).
  { rewrite A', B, A. apply negb_involutive. }
  repeat split; auto. now rewrite B'.
Qed.

(* ================================================================== *)
(** ** Deleting a product *)

Lemma reachable_run (tza : TimeZone) (parse : string -> Date) (s : MemStorage)
    (ops : list Op) :
  reachable tza parse s -> reachable tza parse (run tza parse s ops).
Proof.
  unfold run. revert s. induction ops as [|op ops IH]; intros s R; cbn.
  - exact R.
  - apply IH. now constructor.
Qed.

Lemma reviewKeysOk_step (tza : TimeZone) (parse : string -> Date)
    (s : MemStorage) (op : Op) :
  reviewKeysOk s -> reviewKeysOk (step tza parse s op).
Proof.
  intros H.
  destruct op; try (unfold reviewKeysOk in *; step_cases; frame H).
  - (* deleteProduct *)
    unfold reviewKeysOk in *. step_cases. intros k r Hin.
    apply JsMapFacts.In_delete_all in Hin. apply H. tauto.
  - (* createReview *)
    unfold reviewKeysOk in *. step_cases. intros k r0 Hin.
    apply JsMapFacts.In_set_entries in Hin.
    destruct Hin as [[-> ->]|Hin]; [reflexivity|now apply H].
Qed.

Lemma reachable_reviewKeysOk (tza : TimeZone) (parse : string -> Date)
    (s : MemStorage) :
  reachable tza parse s -> reviewKeysOk s.
Proof.
  induction 1 as [uuid|s op _ IH].
  - intros k r [].
  - now apply reviewKeysOk_step.
Qed.

(** Support requests keep their keys under every operation except an
    [updateSupportRequest] that writes another [id]. *)
Lemma supportRequestKeysOk_step (tza : TimeZone) (parse : string -> Date)
    (s : MemStorage) (op : Op) :
  supportRequestKeysOk s ->
  (forall id u, op = OpUpdateSupportRequest id u ->
                PartialSupportRequest.id u = None
                \/ PartialSupportRequest.id u = Some id) ->
  supportRequestKeysOk (step tza parse s op).
Proof.
  intros H K.
  destruct op; try (unfold supportRequestKeysOk in *; step_cases; frame H).
  - (* deleteProduct *)
    unfold supportRequestKeysOk in *. step_cases. intros k r Hin.
    apply JsMapFacts.In_delete_all in Hin. apply H. tauto.
  - (* createSupportRequest *)
    unfold supportRequestKeysOk in *. step_cases. intros k r0 Hin.
    apply JsMapFacts.In_set_entries in Hin.
    destruct Hin as [[-> ->]|Hin]; [reflexivity|now apply H].
  - (* updateSupportRequest *)
    unfold supportRequestKeysOk in *. step_cases.
    destruct (JsMap.get id (supportRequests s)) as [request|] eqn:G;
      store_simpl; [|exact H].
    intros k r0 Hin. apply JsMapFacts.In_set_entries in Hin.
    destruct Hin as [[-> ->]|Hin]; [|now apply H].
    apply JsMapFacts.get_In in G. apply H in G.
    unfold mergeSupportRequest. cbn.
    destruct (K id u eq_refl) as [-> | ->]; cbn; auto.
Qed.

(** The children a product delete removes: the reviews of the product, in a
    store whose reviews carry their keys. *)
Lemma deleteProduct_reviews (s : MemStorage) (id : string) :
  reviewKeysOk s ->
  forall r, In r (JsMap.values (reviews (snd (deleteProduct s id)))) ->
            Review.productId r <> id.
Proof.
  intros H r Hin E. rewrite deleteProduct_eq in Hin. cbn [snd reviews] in Hin.
  unfold JsMap.values in Hin. apply in_map_iff in Hin.
  destruct Hin as ([k r'] & Er & Hin). cbn in Er. subst r'.
  apply JsMapFacts.In_delete_all in Hin. destruct Hin as [Hin Hn].
  apply Hn. rewrite <- (H k r Hin). apply in_map.
  unfold getReviewsByProduct. apply JsArrayFacts.sort_In, filter_In.
  split.
  - unfold JsMap.values. change r with (snd (k, r)). now apply in_map.
  - now apply String.eqb_eq.
Qed.

Lemma deleteProduct_supportRequests (s : MemStorage) (id : string) :
  supportRequestKeysOk s ->
  forall r, In r (JsMap.values (supportRequests (snd (deleteProduct s id)))) ->
            SupportRequest.productId r <> id.
Proof.
  intros H r Hin E. rewrite deleteProduct_eq in Hin.
  cbn [snd supportRequests] in Hin.
  unfold JsMap.values in Hin. apply in_map_iff in Hin.
  destruct Hin as ([k r'] & Er & Hin). cbn in Er. subst r'.
  apply JsMapFacts.In_delete_all in Hin. destruct Hin as [Hin Hn].
  apply Hn. rewrite <- (H k r Hin). apply in_map.
  unfold getSupportRequestsByProduct. apply JsArrayFacts.sort_In, filter_In.
  split.
  - unfold JsMap.values. change r with (snd (k, r)). now apply in_map.
  - now apply String.eqb_eq.
Qed.

(** The cascade where it works: in a state of the store whose support
    requests still carry their keys as [id], [deleteProduct] removes the
    product, its reviews and its support requests, returns whether the
    product existed, and a second call returns [false] and changes
    nothing. *)
Theorem deleteProduct_cascade
    (tza : TimeZone) (parse : string -> Date) (s : MemStorage) (id : string) :
  reachable tza parse s ->
  supportRequestKeysOk s ->
  let s' := snd (deleteProduct s id) in
  fst (deleteProduct s id) = JsMap.has id (products s) /\
  getProduct s' id = None /\
  getReviewsByProduct s' id = [] /\
  getSupportRequestsByProduct s' id = [] /\
  (forall r, In r (getAllReviews s') -> Review.productId r <> id) /\
  (forall r, In r (getAllSupportRequests s') ->
             SupportRequest.productId r <> id) /\
  deleteProduct s' id = (false, s').
Proof.
  intros R K s'.
  pose proof (reachable_reviewKeysOk _ _ _ R) as KR.
  pose proof (deleteProduct_reviews s id KR) as HR.
  pose proof (deleteProduct_supportRequests s id K) as HS.
  fold s' in HR, HS.
  assert (ER : getReviewsByProduct s' id = []).
  { unfold getReviewsByProduct. rewrite JsArrayFacts.filter_none; [reflexivity|].
    intros r Hr. apply String.eqb_neq. now apply HR. }
  assert (ES : getSupportRequestsByProduct s' id = []).
  { unfold getSupportRequestsByProduct.
    rewrite JsArrayFacts.filter_none; [reflexivity|].
    intros r Hr. apply String.eqb_neq. now apply HS. }
  assert (EP : JsMap.has id (products s') = false).
  { unfold s'. rewrite deleteProduct_eq. cbn [snd products].
    apply JsMapFacts.has_delete_same. }
  split; [now rewrite deleteProduct_eq|].
  split; [now apply JsMapFacts.has_get|].
  split; [exact ER|]. split; [exact ES|].
  split; [|split].
  - intros r Hr. apply HR. unfold getAllReviews in Hr.
    now apply JsArrayFacts.sort_In in Hr.
  - intros r Hr. apply HS. unfold getAllSupportRequests in Hr.
    now apply JsArrayFacts.sort_In in Hr.
  - rewrite (deleteProduct_eq s' id), ER, ES, EP. cbn [fold_left].
    rewrite (JsMapFacts.delete_absent _ _ EP). now destruct s'.
Qed.

(** A delete that finds no product still deletes the children, so it
    changes the store whenever a review refers to the missing product. *)
Lemma deleteProduct_absent
    (tza : TimeZone) (parse : string -> Date) (s : MemStorage) (id : string) :
  reachable tza parse s ->
  supportRequestKeysOk s ->
  getProduct s id = None ->
  let s' := snd (deleteProduct s id) in
  fst (deleteProduct s id) = false /\
  getReviewsByProduct s' id = [] /\
  getSupportRequestsByProduct s' id = [] /\
  (getReviewsByProduct s id <> [] -> s' <> s).
Proof.
  intros R K G s'.
  destruct (deleteProduct_cascade tza parse s id R K)
    as (A & _ & B & C & _).
  fold s' in B, C. split; [|split; [exact B|split; [exact C|]]].
  - rewrite A. now apply JsMapFacts.has_get.
  - intros N E. apply N. rewrite <- E. exact B.
Qed.

(* ================================================================== *)
(** ** Analytics *)

Lemma byRating_le (x y : RatedEntry.t) :
  Qle_bool (byRating x y) 0 = true
  <-> (RatedEntry.rating y <= RatedEntry.rating x)%Q.
Proof.
  rewrite Qle_bool_iff. unfold byRating. split; intros H; lra.
Qed.

Lemma insert_descending (x : RatedEntry.t) (l : list RatedEntry.t) :
  descending l -> descending (JsArray.insert byRating x l).
Proof.
  induction l as [|y l IH]; cbn [JsArray.insert descending].
  - intros _. split; [intros ? []|exact I].
  - intros [Hy Hl]. destruct (Qle_bool (byRating x y) 0) eqn:C.
    + apply byRating_le in C. cbn [descending]. split; [|split; assumption].
      intros z [<-|Hz]; [exact C|].
      apply Qle_trans with (RatedEntry.rating y); auto.
    + assert (C' : (RatedEntry.rating x < RatedEntry.rating y)%Q).
      { apply Qnot_le_lt. intros H. apply byRating_le in H. congruence. }
      cbn [descending]. split; [|now apply IH].
      intros z Hz.
      apply (Permutation_in _ (JsArrayFacts.insert_Permutation byRating x l))
        in Hz.
      destruct Hz as [<-|Hz]; [now apply Qlt_le_weak|now apply Hy].
Qed.

Lemma sort_descending (l : list RatedEntry.t) :
  descending (JsArray.sort byRating l).
Proof.
  induction l as [|x l IH]; cbn; [exact I|]. now apply insert_descending.
Qed.

Lemma slice0_descending (n : nat) (l : list RatedEntry.t) :
  descending l -> descending (JsArray.slice0 n l).
Proof.
  unfold JsArray.slice0. revert l.
  induction n as [|n IH]; intros [|x l]; cbn [firstn descending]; auto.
  intros [Hx Hl]. split; [|now apply IH].
  intros y Hy. apply Hx. revert Hy. clear. revert l.
  induction n as [|n IH]; intros [|z l]; cbn; try tauto.
  intros [->|H]; auto.
Qed.

Lemma slice0_In {A : Type} (n : nat) (l : list A) (x : A) :
  In x (JsArray.slice0 n l) -> In x l.
Proof.
  unfold JsArray.slice0. revert l.
  induction n as [|n IH]; intros [|z l]; cbn; try tauto.
  intros [->|H]; auto.
Qed.

(** The list computed by the analytics page, for any feed of reviews: at
    most five entries, in descending order of rating, each made from a
    group with at least one rating by [entryOfGroup], that is with rating
    [Math.round(mean * 10) / 10] and the number of ratings as
    [reviewCount]. *)
Lemma clientTopRatedProviders_shape {R : Type}
    (providerIdOf : R -> option string) (ratingOf : R -> Q)
    (providers : list ServiceProvider.t) (feed : list R) :
  let top := clientTopRatedProviders providerIdOf ratingOf providers feed in
  (List.length top <= 5)%nat /\
  descending top /\
  forall e, In e top ->
    0 < RatedEntry.reviewCount e /\
    exists g, e = entryOfGroup g /\ RatingGroup.ratings g <> [].
Proof.
  cbv zeta. unfold clientTopRatedProviders.
  split; [apply firstn_le_length|].
  split; [apply slice0_descending, sort_descending|].
  intros e He. apply slice0_In, JsArrayFacts.sort_In, in_map_iff in He.
  destruct He as (g & <- & Hg). apply filter_In in Hg.
  destruct Hg as [_ Hg]. apply Nat.ltb_lt in Hg.
  split.
  - cbn. lia.
  - exists g. split; [reflexivity|]. intros E. rewrite E in Hg. cbn in Hg. lia.
Qed.

(** The list of the analytics route: at most five entries in descending
    order, one per stored provider when there are no more than five,
    reviewed or not, each with the persisted integer rating and a review
    count of 0. *)
Lemma serverTopRatedProviders_shape (s : MemStorage) :
  let top := serverTopRatedProviders s in
  (List.length top <= 5)%nat /\
  descending top /\
  (forall e, In e top ->
     RatedEntry.reviewCount e = 0 /\
     exists p, In p (JsMap.values (serviceProviders s)) /\
               RatedEntry.id e = ServiceProvider.id p /\
               RatedEntry.rating e
                 = inject_Z (orZero (ServiceProvider.averageRating p))) /\
  ((List.length (JsMap.values (serviceProviders s)) <= 5)%nat ->
   forall p, In p (JsMap.values (serviceProviders s)) ->
     exists e, In e top /\ RatedEntry.id e = ServiceProvider.id p).
Proof.
  cbv zeta. unfold serverTopRatedProviders.
  set (entry := fun p : ServiceProvider.t => RatedEntry.mk _ _ _ _).
  split; [apply firstn_le_length|].
  split; [apply slice0_descending, sort_descending|]. split.
  - intros e He. apply slice0_In, JsArrayFacts.sort_In, in_map_iff in He.
    destruct He as (p & <- & Hp). split; [reflexivity|].
    exists p. split; [|split; reflexivity].
    unfold getAllServiceProviders in Hp.
    now apply JsArrayFacts.sort_In in Hp.
  - intros Hn p Hp. exists (entry p). split; [|reflexivity].
    unfold JsArray.slice0. rewrite firstn_all2.
    + apply JsArrayFacts.sort_In, in_map.
      unfold getAllServiceProviders. now apply JsArrayFacts.sort_In.
    + rewrite JsArrayFacts.sort_length, length_map.
      unfold getAllServiceProviders. now rewrite JsArrayFacts.sort_length.
Qed.

Lemma collectProviders_empty_ratings (providers : list ServiceProvider.t) :
  forall g, In g (JsMap.values (collectProviders providers)) ->
            RatingGroup.ratings g = [].
Proof.
  unfold collectProviders, JsArray.forEach.
  assert (G : forall (m : JsMap.t RatingGroup.t),
             (forall g, In g (JsMap.values m) -> RatingGroup.ratings g = []) ->
             forall g,
               In g (JsMap.values
                       (fold_left
                          (fun acc p =>
                             JsMap.set (ServiceProvider.id p)
                               (RatingGroup.mk (ServiceProvider.name p) []
                                               (ServiceProvider.id p)) acc)
                          providers m)) ->
               RatingGroup.ratings g = []).
  { induction providers as [|p ps IH]; intros m Hm g; cbn [fold_left].
    - apply Hm.
    - apply IH. intros g' Hg'. apply JsMapFacts.In_values_set in Hg'.
      destruct Hg' as [->|Hg']; [reflexivity|now apply Hm]. }
  apply G. intros g [].
Qed.

(** What the analytics page shows: its feed is the response of
    [GET /api/community/reviews], product reviews, none of which has a
    [providerId]; every group stays empty and so does the list. *)
Lemma clientTopRatedProviders_feed (s : MemStorage) :
  clientTopRatedProviders CommunityReview_providerId CommunityReview_rating
    (getAllServiceProviders s) (communityReviews s) = [].
Proof.
  unfold clientTopRatedProviders.
  assert (E : forall (l : list CommunityReview) m,
             JsArray.forEach
               (pushRating CommunityReview_providerId CommunityReview_rating)
               l m = m).
  { unfold JsArray.forEach. induction l as [|r l IH]; intros m; cbn; auto. }
  rewrite E. rewrite JsArrayFacts.filter_none; [reflexivity|].
  intros g Hg. now rewrite (collectProviders_empty_ratings _ g Hg).
Qed.

(* ================================================================== *)
(** ** The scenarios *)

(** *** Default expiration *)

(** C1 fails on 29 February: a product purchased on 2020-02-29 is stored
    with the expiration 2023-03-01, another month and day. *)
Lemma createProduct_feb29_counterexample :
  let p := fst (createProduct utcZone noParse freshStore (widget d2020_02_29) "p-1") in
  let P := Product.purchaseDate p in
  let W := Product.warrantyExpiration p in
  Product.hasExtension p = None /\
  getFullYear utcZone P = Some 2020 /\ getMonth utcZone P = Some 1 /\
  getDate utcZone P = Some 29 /\
  W = Some d2023_03_01 /\
  getFullYear utcZone W = Some 2023 /\ getMonth utcZone W = Some 2 /\
  getDate utcZone W = Some 1 /\
  ~ (getMonth utcZone W = getMonth utcZone P /\ getDate utcZone W = getDate utcZone P).
Proof.
  vm_compute. repeat split; try reflexivity. intros [H _]. discriminate H.
Qed.

(** The Widget purchased on 2023-01-15 expires on 2026-01-15. *)
Lemma createProduct_warrantyExpiration_witness :
  let created :=
    createProduct utcZone noParse freshStore (widget d2023_01_15) "p-1" in
  let P := Product.purchaseDate (fst created) in
  let W := Product.warrantyExpiration (fst created) in
  (newDate noParse (InsertProduct.purchaseDate (widget d2023_01_15))
     = Some d2023_01_15 /\
   (forall u isUTC, - msPerDay <= utcZone u isUTC <= msPerDay) /\
   - maxTime <= d2023_01_15 /\ d2023_01_15 + 1098 * msPerDay <= maxTime) /\
  getProduct (snd created) "p-1" = Some (fst created) /\
  (exists y, getFullYear utcZone P = Some y
             /\ getFullYear utcZone W = Some (y + 3)) /\
  getTimeOfDay utcZone W = getTimeOfDay utcZone P /\
  getMonth utcZone W = getMonth utcZone P /\
  getDate utcZone W = getDate utcZone P /\
  W = Some d2026_01_15.
Proof.
  assert (H1 : newDate noParse (InsertProduct.purchaseDate (widget d2023_01_15))
               = Some d2023_01_15) by reflexivity.
  assert (H0 : forall u isUTC, - msPerDay <= utcZone u isUTC <= msPerDay)
    by (intros u isUTC; unfold utcZone, msPerDay; lia).
  assert (H2 : - maxTime <= d2023_01_15) by (vm_compute; discriminate).
  assert (H3 : d2023_01_15 + 1098 * msPerDay <= maxTime)
    by (vm_compute; discriminate).
  pose proof (createProduct_warrantyExpiration utcZone noParse freshStore
                (widget d2023_01_15) "p-1" d2023_01_15 H1 H0 H2 H3) as H.
  cbv zeta in H. destruct H as (G & _ & x & _ & _ & _ & _ & L).
  destruct (L (LocalTime_UTC_utcZone x)) as (Y & T & M).
  cbv zeta. split; [auto|]. split; [exact G|]. split; [exact Y|].
  split; [exact T|].
  destruct M as [(M1 & _)|(_ & M2 & M3)].
  - vm_compute in M1. discriminate M1.
  - split; [exact M2|]. split; [exact M3|]. vm_compute. reflexivity.
Defined.

(** Across the start of summer time the expiration keeps the local time
    of day, not the one of UTC: in Lisbon a purchase at noon of 2021-03-29,
    11:00 UTC, expires at noon of 2024-03-29, 12:00 UTC, 1096 days and one
    hour later. *)
Example createProduct_lisbon_noon :
  let p :=
    fst (createProduct lisbon noParse freshStore (widget d2021_03_29_11h)
           "p-1") in
  let P := Product.purchaseDate p in
  let W := Product.warrantyExpiration p in
  W = Some 1711713600000 /\
  1711713600000 = d2021_03_29_11h + 1096 * msPerDay + hours 1 /\
  getTimeOfDay lisbon P = Some (hours 12) /\
  getTimeOfDay lisbon W = Some (hours 12) /\
  getTimeOfDay utcZone P = Some (hours 11) /\
  getTimeOfDay utcZone W = Some (hours 12).
Proof. vm_compute. repeat split; reflexivity. Qed.

(** A local time that the start of summer time skips is moved forward: in
    Lisbon a purchase at 01:00 of 2021-03-31 expires at 02:00 of 2024-03-31,
    since 01:00 does not exist on that day. *)
Example createProduct_lisbon_skipped_hour :
  let p :=
    fst (createProduct lisbon noParse freshStore (widget d2021_03_31) "p-1") in
  let P := Product.purchaseDate p in
  let W := Product.warrantyExpiration p in
  W = Some 1711846800000 /\
  getFullYear lisbon W = Some 2024 /\ getMonth lisbon W = Some 2 /\
  getDate lisbon W = Some 31 /\
  getTimeOfDay lisbon P = Some (hours 1) /\
  getTimeOfDay lisbon W = Some (hours 2).
Proof. vm_compute. repeat split; reflexivity. Qed.

(** *** Extensions *)

(** The same Widget, extended to 2027-01-15. *)
Lemma addWarrantyExtension_overrides_witness :
  let s := run utcZone noParse freshStore [OpCreateProduct (widget d2023_01_15) "p-1"] in
  exists p updated,
    getProduct s "p-1" = Some p /\
    Product.warrantyExpiration p = Some d2026_01_15 /\
    getProduct (snd (addWarrantyExtension s "p-1" (extensionTo d2027_01_15))) "p-1"
      = Some updated /\
    Product.warrantyExpiration updated = Some d2027_01_15 /\
    Product.hasExtension updated = Some true /\
    Product.extensionCost updated = Some 0.
Proof.
  cbv zeta. eexists.
  set (s := run utcZone noParse freshStore [OpCreateProduct (widget d2023_01_15) "p-1"]).
  assert (G : getProduct s "p-1"
              = Some (fst (createProduct utcZone noParse freshStore
                             (widget d2023_01_15) "p-1")))
    by (vm_compute; reflexivity).
  destruct (addWarrantyExtension_overrides s "p-1" (extensionTo d2027_01_15) _ G)
    as (updated & _ & G' & W & X & _ & _ & _ & _ & C & _).
  exists updated. split; [exact G|]. split; [vm_compute; reflexivity|].
  split; [exact G'|]. split; [exact W|]. split; [exact X|exact C].
Defined.

(** *** Warranty status *)

(** C3 fails within the first day: twelve hours after the expiration the
    warranty is still classified as valid. *)
Lemma warranty_status_counterexample :
  let warrantyExpiration := d2025_06_01 in
  let now := d2025_06_01 + hours 12 in
  warrantyExpiration < now /\
  daysRemaining (Some warrantyExpiration) now = Some 0 /\
  isExpired (daysRemaining (Some warrantyExpiration) now) = false /\
  fst (certificateStatus (Some warrantyExpiration) now) = "VÁLIDA" /\
  fst (exportStatus (Some warrantyExpiration) now) = "Expira em Breve" /\
  ~ (isExpired (daysRemaining (Some warrantyExpiration) now) = true
     <-> warrantyExpiration < now).
Proof.
  vm_compute. repeat split; try reflexivity.
  intros [_ H]. specialize (H eq_refl). discriminate H.
Qed.

(** A warranty that ended two days ago: expired, zero days shown. *)
Lemma warranty_status_witness :
  let warrantyExpiration := Some d2025_06_01 in
  let now := d2025_06_01 + hours 48 in
  isExpired (daysRemaining warrantyExpiration now) = true /\
  fst (certificateStatus warrantyExpiration now) = "EXPIRADA" /\
  fst (exportStatus warrantyExpiration now) = "Expirada" /\
  snd (exportStatus warrantyExpiration now) = Some 0.
Proof.
  cbv zeta.
  destruct (warranty_status (Some d2025_06_01) (d2025_06_01 + hours 48))
    as (A & B & C & D & _ & F).
  assert (E : isExpired (daysRemaining (Some d2025_06_01)
                           (d2025_06_01 + hours 48)) = true).
  { apply A. exists d2025_06_01. split; [reflexivity|].
    vm_compute. discriminate. }
  split; [exact E|]. split; [now apply B|]. split; [now apply C|].
  rewrite D. reflexivity.
Defined.

(** The scenario of the specification: on 2025-06-01 the Widget has 228
    days left. *)
Example widget_days_remaining :
  daysRemaining (Some d2026_01_15) d2025_06_01 = Some 228 /\
  exportStatus (Some d2026_01_15) d2025_06_01 = ("Válida", Some 228).
Proof. vm_compute. split; reflexivity. Qed.

(** *** The warranty invariant *)

(** C4 fails for [updateProduct]: changing [purchaseDate] alone leaves the
    old expiration in place. *)
Lemma updateProduct_breaks_invariant :
  let s := run utcZone noParse freshStore [OpCreateProduct (widget d2023_01_15) "p-1"] in
  let s' := step utcZone noParse s
              (OpUpdateProduct "p-1" (onlyPurchaseDate (Some d2024_01_15))) in
  warrantyInvariant utcZone s = true /\
  warrantyInvariant utcZone s' = false /\
  exists p,
    getProduct s' "p-1" = Some p /\
    Product.hasExtension p = None /\
    Product.purchaseDate p = Some d2024_01_15 /\
    Product.warrantyExpiration p = Some d2026_01_15 /\
    defaultExpiration utcZone (Product.purchaseDate p) = Some d2027_01_15.
Proof.
  cbv zeta. split; [vm_compute; reflexivity|].
  split; [vm_compute; reflexivity|].
  exists (Product.mk "p-1" "brand-a" "Widget" "W-1" None "Informática"
            (Some d2024_01_15) (Some d2026_01_15) None (Some []) None None
            None None None None None).
  repeat split; vm_compute; reflexivity.
Qed.

(** Extending the Widget keeps the invariant. *)
Lemma warrantyInvariant_step_witness :
  let s := run utcZone noParse freshStore [OpCreateProduct (widget d2023_01_15) "p-1"] in
  let op := OpAddWarrantyExtension "p-1" (extensionTo d2027_01_15) in
  (warrantyInvariant utcZone s = true /\ keepsWarranty op = true) /\
  warrantyInvariant utcZone (step utcZone noParse s op) = true.
Proof.
  cbv zeta.
  assert (H1 : warrantyInvariant utcZone
                 (run utcZone noParse freshStore
                    [OpCreateProduct (widget d2023_01_15) "p-1"]) = true)
    by (vm_compute; reflexivity).
  assert (H2 : keepsWarranty
                 (OpAddWarrantyExtension "p-1" (extensionTo d2027_01_15)) = true)
    by reflexivity.
  split; [auto|].
  exact (warrantyInvariant_step utcZone noParse _ _ H1 H2).
Defined.

(** *** Average rating *)

(** The scenario of C5: ratings 5, 4, 5 persist 5; a fourth rating 1
    persists 4. *)
Example fixIt_averageRating :
  option_map ServiceProvider.averageRating (getServiceProvider fixItStore "sp-1")
    = Some (Some 5) /\
  option_map ServiceProvider.averageRating
    (getServiceProvider
       (snd (createServiceProviderReview fixItStore (fixItReview 1) "r-4" 5000))
       "sp-1")
    = Some (Some 4).
Proof. vm_compute. split; reflexivity. Qed.

(** The fourth review of FixIt, rated 1: the mean of 5, 4, 5 and 1 is
    3.75 and 4 is persisted. *)
Lemma createServiceProviderReview_averageRating_witness :
  let s' :=
    snd (createServiceProviderReview fixItStore (fixItReview 1) "r-4" 5000) in
  exists provider provider',
    getServiceProvider fixItStore "sp-1" = Some provider /\
    getServiceProvider s' "sp-1" = Some provider' /\
    storedRatings s' "sp-1" = [5; 4; 5; 1] /\
    ServiceProvider.averageRating provider'
      = Some (Math_round (mean [5; 4; 5; 1])) /\
    Math_round (mean [5; 4; 5; 1]) = 4.
Proof.
  cbv zeta. eexists.
  assert (G : getServiceProvider fixItStore
                (InsertServiceProviderReview.providerId (fixItReview 1))
              = Some (ServiceProvider.mk "sp-1" "FixIt" "fixit@example.test"
                        None None "Rua 1" "Lisboa" "Lisboa" (Some [])
                        (Some 5) (Some 1000)))
    by (vm_compute; reflexivity).
  destruct (createServiceProviderReview_averageRating fixItStore
              (fixItReview 1) "r-4" 5000 _ G)
    as (provider' & G' & A & _).
  exists provider'. split; [exact G|]. split; [exact G'|].
  assert (E : storedRatings
                (snd (createServiceProviderReview fixItStore (fixItReview 1)
                        "r-4" 5000)) "sp-1" = [5; 4; 5; 1])
    by (vm_compute; reflexivity).
  split; [exact E|]. split; [|vm_compute; reflexivity].
  rewrite A. cbn [InsertServiceProviderReview.providerId fixItReview].
  now rewrite E.
Defined.

(** *** Top-rated providers *)

(** C6 on the server: a provider without reviews is listed, with rating 0. *)
Theorem serverTopRatedProviders_unreviewed :
  let s := run utcZone noParse freshStore [OpCreateServiceProvider fixIt "sp-1" 1000] in
  storedRatings s "sp-1" = [] /\
  serverTopRatedProviders s = [RatedEntry.mk "sp-1" "FixIt" 0 0].
Proof. vm_compute. split; reflexivity. Qed.

(** With the ratings 5 and 4 the server lists the persisted integer 5 and
    a review count of 0, where the mean to one decimal is 4.5 and the
    count 2. *)
Example serverTopRatedProviders_reviewed :
  let s :=
    run utcZone noParse freshStore
      [ OpCreateServiceProvider fixIt "sp-1" 1000;
        OpCreateServiceProviderReview (fixItReview 5) "r-1" 2000;
        OpCreateServiceProviderReview (fixItReview 4) "r-2" 3000 ] in
  storedRatings s "sp-1" = [5; 4] /\
  serverTopRatedProviders s = [RatedEntry.mk "sp-1" "FixIt" 5 0] /\
  RatedEntry.rating
    (entryOfGroup (RatingGroup.mk "FixIt" [5%Q; 4%Q] "sp-1")) = (45 # 10)%Q /\
  RatedEntry.reviewCount
    (entryOfGroup (RatingGroup.mk "FixIt" [5%Q; 4%Q] "sp-1")) = 2.
Proof. vm_compute. repeat split; reflexivity. Qed.

(** *** Deleting a product *)

(** C7 on [renamedRequestStore], where an update has overwritten the [id]
    of the Widget's support request: the product is deleted, its support
    request stays retrievable, and the second delete returns [false]. *)
Theorem deleteProduct_keeps_renamed_request :
  let deleted := deleteProduct renamedRequestStore "p-1" in
  let s' := snd deleted in
  let kept :=
    SupportRequest.mk "sr-2" "p-1" "does not start" "malfunction" "high" "sent"
      (Some (Some 1000)) (Some 1000) in
  fst deleted = true /\
  getProduct s' "p-1" = None /\
  getSupportRequest s' "sr-1" = Some kept /\
  getSupportRequestsByProduct s' "p-1" = [kept] /\
  fst (deleteProduct s' "p-1") = false.
Proof. vm_compute. repeat split; reflexivity. Qed.

(** C10 on [orphanStore], where a review and a support request refer to a
    product that was never stored and an update has overwritten the [id] of
    the request: the delete reports not-found and removes the review, but
    the support request stays. *)
Theorem deleteProduct_absent_keeps_renamed_request :
  let deleted := deleteProduct orphanStore "p-0" in
  let s' := snd deleted in
  getProduct orphanStore "p-0" = None /\
  List.length (getReviewsByProduct orphanStore "p-0") = 1%nat /\
  fst deleted = false /\
  getReviewsByProduct s' "p-0" = [] /\
  List.length (getSupportRequestsByProduct s' "p-0") = 1%nat /\
  option_map SupportRequest.productId (getSupportRequest s' "sr-1")
    = Some "p-0".
Proof. vm_compute. repeat split; reflexivity. Qed.

(** *** Favorites *)

(** A favorite product toggled off and on again. *)
Lemma toggleFavorite_flips_witness :
  let s := run utcZone noParse freshStore [OpToggleFavorite "product" "p-1" "f-1" 1000] in
  let first := toggleFavorite s "product" "p-1" "f-2" 2000 in
  let second := toggleFavorite (snd first) "product" "p-1" "f-3" 3000 in
  reachable utcZone noParse s /\
  isFavorite s "product" "p-1" = true /\
  fst first = false /\
  isFavorite (snd first) "product" "p-1" = false /\
  fst second = true /\
  isFavorite (snd second) "product" "p-1" = true.
Proof.
  cbv zeta.
  set (s := run utcZone noParse freshStore
              [OpToggleFavorite "product" "p-1" "f-1" 1000]).
  assert (R : reachable utcZone noParse s).
  { unfold s, run. cbn [fold_left]. apply reachable_step.
    apply (reachable_new utcZone noParse seedId). }
  assert (F : isFavorite s "product" "p-1" = true) by (vm_compute; reflexivity).
  destruct (toggleFavorite_flips utcZone noParse s "product" "p-1" "f-2" "f-3"
              2000 3000 R) as (A & B & C & D).
  rewrite F in A, C, D. cbn [negb] in A.
  split; [exact R|]. split; [exact F|]. split; [exact A|].
  split; [now rewrite B|]. split; [exact C|exact D].
Defined.

(** *** Client profile *)

(** A second save over an existing profile. *)
Lemma saveClientProfile_replaces_witness :
  let s1 := snd (saveClientProfile freshStore someProfile "c-1" 1000) in
  let saved := fst (saveClientProfile s1 someProfile "c-2" 2000) in
  getClientProfile (snd (saveClientProfile s1 someProfile "c-2" 2000))
    = Some saved /\
  ClientProfile.id saved = "c-2" /\
  ClientProfile.createdAt saved = Some 2000 /\
  ClientProfile.updatedAt saved = Some 2000.
Proof.
  cbv zeta.
  destruct (saveClientProfile_replaces
              (snd (saveClientProfile freshStore someProfile "c-1" 1000))
              someProfile "c-2" 2000)
    as (A & B & C & D & _).
  split; [exact A|]. split; [exact B|]. split; [exact C|].
  now rewrite D, C.
Defined.

(* ================================================================== *)
(** * Further properties of the store and the routes *)

(* ================================================================== *)
(** ** What every state of the store satisfies *)

Lemma delete_all_keys_NoDup {V A : Type} (idOf : A -> string) (l : list A)
    (m : JsMap.t V) :
  keysUnique m ->
  keysUnique (fold_left (fun acc x => JsMap.delete (idOf x) acc) l m).
Proof.
  unfold keysUnique. revert m.
  induction l as [|x l IH]; intros m N; cbn [fold_left]; [exact N|].
  apply IH. now apply JsMapFacts.delete_keys_NoDup.
Qed.

Lemma seedFrom_keysUnique (uuid : nat -> string) (bs : list InsertBrand.t) :
  forall i m, keysUnique m -> keysUnique (seedFrom uuid i bs m).
Proof.
  unfold keysUnique.
  induction bs as [|b bs IH]; intros i m N; cbn [seedFrom]; [exact N|].
  apply IH. now apply JsMapFacts.set_keys_NoDup.
Qed.

Lemma storeWf_new (uuid : nat -> string) : storeWf (newMemStorage uuid).
Proof.
  constructor;
    try (unfold newMemStorage, seedBrands; cbn [brands with_brands];
         apply seedFrom_keysUnique; constructor);
    try (constructor; fail); intros ? ? [].
Qed.

(** Membership in a map just written, reduced to membership before. *)
Ltac in_written H :=
  first
    [ apply JsMapFacts.In_set_entries in H;
      destruct H as [[? ?]|H]; [subst; cbn|]
    | apply JsMapFacts.In_delete_all in H; destruct H as [H _]
    | apply JsMapFacts.In_delete in H; destruct H as [H _]
    | idtac ].

Ltac wf_field :=
  step_cases; repeat split_match; store_simpl;
  first
    [ assumption
    | apply JsMapFacts.set_keys_NoDup; assumption
    | apply JsMapFacts.delete_keys_NoDup; assumption
    | apply delete_all_keys_NoDup; assumption
    | let k := fresh "k" in
      let r := fresh "r" in
      let H := fresh "Hin" in
      intros k r H; in_written H; eauto ].

Lemma storeWf_step (tza : TimeZone) (parse : string -> Date) (s : MemStorage)
    (op : Op) :
  storeWf s -> storeWf (step tza parse s op).
Proof.
  intros [].
  destruct op; constructor; unfold keysUnique in *; try wf_field.
  (* markNotificationAsSent keeps the [id] of the notification *)
  match goal with
  | G : JsMap.get _ _ = Some _ |- _ => apply JsMapFacts.get_In in G; eauto
  end.
Qed.

Lemma reachable_storeWf (tza : TimeZone) (parse : string -> Date) (s : MemStorage) :
  reachable tza parse s -> storeWf s.
Proof.
  induction 1 as [uuid|s op _ IH];
    [apply storeWf_new|now apply storeWf_step].
Qed.

(* ================================================================== *)
(** ** More facts about maps and arrays *)

Module JsMapMore.
Section Facts.
Context {V : Type}.
Implicit Types (m : JsMap.t V) (k : string) (v : V).

Lemma In_has k v m : In (k, v) m -> JsMap.has k m = true.
Proof.
  intros H. unfold JsMap.has. apply existsb_exists.
  exists (k, v). split; [exact H|apply String.eqb_refl].
Qed.

Lemma has_In k m : JsMap.has k m = true -> exists v, In (k, v) m.
Proof.
  unfold JsMap.has. intros H. apply existsb_exists in H.
  destruct H as ([k' v] & H & E). apply String.eqb_eq in E. cbn in E.
  subst k'. now exists v.
Qed.

Lemma has_get_Some k m :
  JsMap.has k m = true <-> exists v, JsMap.get k m = Some v.
Proof.
  destruct (JsMap.get k m) as [v|] eqn:G.
  - split; [intros _; now exists v|intros _].
    apply JsMapFacts.get_In in G. now apply In_has in G.
  - apply JsMapFacts.has_get in G. rewrite G.
    split; [discriminate|now intros [v [=]]].
Qed.

Lemma set_absent k v m :
  JsMap.has k m = false -> JsMap.set k v m = (m ++ [(k, v)])%list.
Proof.
  unfold JsMap.has. induction m as [|e m IH]; cbn; [reflexivity|].
  destruct (String.eqb (fst e) k); cbn; [discriminate|].
  intros H. now rewrite IH.
Qed.

Lemma set_get_id k v m : JsMap.get k m = Some v -> JsMap.set k v m = m.
Proof.
  unfold JsMap.get. induction m as [|e m IH]; cbn; [discriminate|].
  destruct (String.eqb_spec (fst e) k) as [E|E]; cbn.
  - intros [= <-]. rewrite <- E. now destruct e.
  - intros H. now rewrite IH.
Qed.

Lemma set_set k v1 v2 m :
  JsMap.set k v2 (JsMap.set k v1 m) = JsMap.set k v2 m.
Proof.
  induction m as [|e m IH]; cbn.
  - now rewrite String.eqb_refl.
  - destruct (String.eqb (fst e) k) eqn:E; cbn.
    + now rewrite String.eqb_refl.
    + now rewrite E, IH.
Qed.

Lemma keys_set_present k v m :
  JsMap.has k m = true -> map fst (JsMap.set k v m) = map fst m.
Proof.
  unfold JsMap.has. induction m as [|e m IH]; cbn; [discriminate|].
  destruct (String.eqb_spec (fst e) k) as [E|E]; cbn.
  - intros _. now rewrite E.
  - intros H. now rewrite IH.
Qed.

Lemma keys_functional k v v' m :
  keysUnique m -> In (k, v) m -> In (k, v') m -> v = v'.
Proof.
  unfold keysUnique. induction m as [|e m IH]; cbn; [contradiction|].
  intros N H H'. apply NoDup_cons_iff in N. destruct N as [N1 N2].
  destruct H as [->|H]; destruct H' as [E|H'].
  - congruence.
  - exfalso. apply N1. cbn. change k with (fst (k, v')). now apply in_map.
  - subst e. exfalso. apply N1. cbn. change k with (fst (k, v)).
    now apply in_map.
  - auto.
Qed.

Lemma get_of_In k v m : keysUnique m -> In (k, v) m -> JsMap.get k m = Some v.
Proof.
  intros N H. destruct (JsMap.get k m) as [v'|] eqn:G.
  - apply JsMapFacts.get_In in G. f_equal. now apply (keys_functional k v' v m).
  - apply JsMapFacts.has_get in G. apply In_has in H. congruence.
Qed.

Lemma In_set_iff k v m k' v' :
  keysUnique m ->
  In (k', v') (JsMap.set k v m)
  <-> (k' = k /\ v' = v) \/ (k' <> k /\ In (k', v') m).
Proof.
  intros N. split.
  - intros H. destruct (String.eqb_spec k' k) as [E|E].
    + left. split; [exact E|]. subst k'.
      apply (keys_functional k v' v (JsMap.set k v m)); auto.
      * now apply JsMapFacts.set_keys_NoDup.
      * apply JsMapFacts.In_set_new.
    + right. split; [exact E|].
      apply JsMapFacts.In_set_entries in H. destruct H as [[? _]|H]; tauto.
  - intros [[-> ->]|[E H]].
    + apply JsMapFacts.In_set_new.
    + now apply JsMapFacts.In_set_old.
Qed.

(** Deleting a list of keys is one filter. *)
Lemma delete_all_filter {A : Type} (idOf : A -> string) (l : list A) m :
  fold_left (fun acc x => JsMap.delete (idOf x) acc) l m
  = filter (fun e => negb (existsb (String.eqb (fst e)) (map idOf l))) m.
Proof.
  revert m. induction l as [|x l IH]; intros m; cbn [fold_left map existsb].
  - symmetry. apply forallb_filter_id. now apply forallb_forall.
  - rewrite IH. unfold JsMap.delete. clear IH.
    induction m as [|e m IHm]; [reflexivity|]. cbn [filter].
    destruct (String.eqb (fst e) (idOf x)); cbn [negb orb filter];
      rewrite IHm; reflexivity.
Qed.
End Facts.
End JsMapMore.

Module JsArrayMore.

Lemma filter_filter_keep {A : Type} (p q : A -> bool) (l : list A) :
  (forall x, In x l -> p x = true -> q x = true) ->
  filter p (filter q l) = filter p l.
Proof.
  induction l as [|x l IH]; cbn; [reflexivity|]. intros H.
  destruct (q x) eqn:Q; cbn.
  - rewrite IH; [reflexivity|]. intros y Hy. apply H. now right.
  - destruct (p x) eqn:P.
    + rewrite (H x (or_introl eq_refl) P) in Q. discriminate.
    + apply IH. intros y Hy. apply H. now right.
Qed.

Lemma filter_map_snd {V : Type} (p : V -> bool) (m : JsMap.t V) :
  filter p (JsMap.values m) = JsMap.values (filter (fun e => p (snd e)) m).
Proof.
  unfold JsMap.values. induction m as [|e m IH]; cbn; [reflexivity|].
  destruct (p (snd e)); cbn; now rewrite IH.
Qed.

Lemma Qle_bool_inject_Z (z : Z) : Qle_bool (inject_Z z) 0 = true <-> z <= 0.
Proof.
  rewrite Qle_bool_iff. unfold Qle, inject_Z. cbn. lia.
Qed.

Section SortedBy.
Context {A : Type}.
Variable cmp : A -> A -> Q.
Variable key : A -> Z.

Lemma insert_descendingBy (x : A) (l : list A) :
  (forall y, In y l -> (Qle_bool (cmp x y) 0 = true <-> key y <= key x)) ->
  descendingBy key l -> descendingBy key (JsArray.insert cmp x l).
Proof.
  induction l as [|y l IH]; cbn [JsArray.insert descendingBy].
  - intros _ _. split; [intros ? []|exact I].
  - intros C [Hy Hl]. destruct (Qle_bool (cmp x y) 0) eqn:E.
    + apply (C y (or_introl eq_refl)) in E. cbn [descendingBy].
      split; [|split; assumption].
      intros z [<-|Hz]; [exact E|]. specialize (Hy z Hz). lia.
    + assert (E' : key x < key y).
      { destruct (Z.lt_ge_cases (key x) (key y)) as [L|G]; [exact L|].
        apply (C y (or_introl eq_refl)) in G. congruence. }
      cbn [descendingBy]. split.
      * intros z Hz.
        apply (Permutation_in _ (JsArrayFacts.insert_Permutation cmp x l))
          in Hz.
        destruct Hz as [<-|Hz]; [lia|now apply Hy].
      * apply IH; [|exact Hl]. intros z Hz. apply C. now right.
Qed.

Lemma sort_descendingBy (l : list A) :
  (forall x y, In x l -> In y l ->
               (Qle_bool (cmp x y) 0 = true <-> key y <= key x)) ->
  descendingBy key (JsArray.sort cmp l).
Proof.
  induction l as [|x l IH]; cbn; [intros _; exact I|]. intros C.
  apply insert_descendingBy.
  - intros y Hy. apply JsArrayFacts.sort_In in Hy. apply C; cbn; auto.
  - apply IH. intros a b Ha Hb. apply C; cbn; auto.
Qed.
End SortedBy.

Lemma newestFirst_le (a b : Date) :
  isValidDate a = true -> isValidDate b = true ->
  (Qle_bool (newestFirst a b) 0 = true <-> timeOf b <= timeOf a).
Proof.
  destruct a as [ta|]; [|discriminate]. destruct b as [tb|]; [|discriminate].
  intros _ _. cbn [newestFirst timeOf]. rewrite Qle_bool_inject_Z. lia.
Qed.
End JsArrayMore.

(* ================================================================== *)
(** ** Listings of the store *)

(** X1: [getAllServiceProviders] returns the stored providers, each once,
    in descending order of [averageRating || 0]. *)
Theorem getAllServiceProviders_sorted (s : MemStorage) :
  Permutation (getAllServiceProviders s) (JsMap.values (serviceProviders s)) /\
  descendingBy (fun p => orZero (ServiceProvider.averageRating p))
               (getAllServiceProviders s).
Proof.
  unfold getAllServiceProviders. split; [apply JsArrayFacts.sort_Permutation|].
  apply JsArrayMore.sort_descendingBy. intros x y _ _.
  unfold byAverageRating. rewrite JsArrayMore.Qle_bool_inject_Z. lia.
Qed.

Lemma reviews_valid_dates (s : MemStorage) :
  storeWf s ->
  forall r, In r (JsMap.values (reviews s)) ->
            isValidDate (Review.createdAt r) = true.
Proof.
  intros W r Hr. unfold JsMap.values in Hr. apply in_map_iff in Hr.
  destruct Hr as ([k r'] & <- & H). exact (wf_reviewDates s W k r' H).
Qed.

(** X2: in every state of the store [getReviewsByProduct] returns exactly
    the stored reviews of the product and [getAllReviews] all stored
    reviews, both with the newest first. *)
Theorem getReviewsByProduct_newest_first
    (tza : TimeZone) (parse : string -> Date) (s : MemStorage) (productId : string) :
  reachable tza parse s ->
  (forall r, In r (getReviewsByProduct s productId)
             <-> In r (JsMap.values (reviews s))
                 /\ Review.productId r = productId) /\
  descendingBy (fun r => timeOf (Review.createdAt r))
               (getReviewsByProduct s productId) /\
  Permutation (getAllReviews s) (JsMap.values (reviews s)) /\
  descendingBy (fun r => timeOf (Review.createdAt r)) (getAllReviews s).
Proof.
  intros R. pose proof (reachable_storeWf _ _ _ R) as W.
  pose proof (reviews_valid_dates s W) as V.
  split; [|split; [|split]].
  - intros r. unfold getReviewsByProduct.
    rewrite JsArrayFacts.sort_In, filter_In, String.eqb_eq. reflexivity.
  - unfold getReviewsByProduct. apply JsArrayMore.sort_descendingBy.
    intros x y Hx Hy. apply filter_In in Hx, Hy.
    apply JsArrayMore.newestFirst_le; apply V; tauto.
  - apply JsArrayFacts.sort_Permutation.
  - unfold getAllReviews. apply JsArrayMore.sort_descendingBy.
    intros x y Hx Hy. apply JsArrayMore.newestFirst_le; now apply V.
Qed.

Lemma getAllProducts_In (s : MemStorage) (p : Product.t) (b : Brand.t) :
  In (p, b) (getAllProducts s)
  <-> In p (JsMap.values (products s))
      /\ getBrand s (Product.brandId p) = Some b.
Proof.
  unfold getAllProducts. rewrite JsArrayFacts.sort_In, in_flat_map. split.
  - intros (o & Ho & Hin). apply in_map_iff in Ho.
    destruct Ho as (q & <- & Hq).
    destruct (getBrand s (Product.brandId q)) as [b'|] eqn:G;
      cbn in Hin; [|contradiction].
    destruct Hin as [[= <- <-]|[]]. auto.
  - intros [Hp G]. exists (Some (p, b)). split; [|now left].
    apply in_map_iff. exists p. now rewrite G.
Qed.

(** X3: [getAllProducts] lists a stored product, with its brand, exactly
    when the brand of its [brandId] exists; a product whose brand is missing
    is left out without an error.  When all stored purchase dates are valid
    the newest purchase comes first. *)
Theorem getAllProducts_members (s : MemStorage) :
  (forall p b, In (p, b) (getAllProducts s)
               <-> In p (JsMap.values (products s))
                   /\ getBrand s (Product.brandId p) = Some b) /\
  ((forall p, In p (JsMap.values (products s)) ->
              isValidDate (Product.purchaseDate p) = true) ->
   descendingBy (fun e => timeOf (Product.purchaseDate (fst e)))
                (getAllProducts s)).
Proof.
  split; [apply getAllProducts_In|].
  intros V. unfold getAllProducts. apply JsArrayMore.sort_descendingBy.
  intros [p b] [q c] Hp Hq. cbn [fst].
  assert (Ip : In (p, b) (getAllProducts s)).
  { unfold getAllProducts. now apply JsArrayFacts.sort_In. }
  assert (Iq : In (q, c) (getAllProducts s)).
  { unfold getAllProducts. now apply JsArrayFacts.sort_In. }
  apply getAllProducts_In in Ip, Iq.
  apply JsArrayMore.newestFirst_le; apply V; tauto.
Qed.

(** X4: [getProductsByBrand] returns exactly the entries of
    [getAllProducts] whose product has that [brandId]; for a brand that does
    not exist it returns nothing. *)
Theorem getProductsByBrand_members (s : MemStorage) (brandId : string) :
  (forall e, In e (getProductsByBrand s brandId)
             <-> In e (getAllProducts s)
                 /\ Product.brandId (fst e) = brandId) /\
  (getBrand s brandId = None -> getProductsByBrand s brandId = []).
Proof.
  split.
  - intros [p b]. rewrite getAllProducts_In. cbn [fst].
    unfold getProductsByBrand.
    destruct (getBrand s brandId) as [brand|] eqn:G.
    + rewrite JsArrayFacts.sort_In, in_map_iff. split.
      * intros (q & [= <- <-] & Hq). apply filter_In in Hq.
        destruct Hq as [Hq E]. apply String.eqb_eq in E.
        rewrite E. auto.
      * intros [[Hp Gb] E]. rewrite E in Gb. exists p.
        split; [congruence|]. apply filter_In. split; [exact Hp|].
        now apply String.eqb_eq.
    + split; [intros []|]. intros [[_ Gb] E]. rewrite E in Gb. congruence.
  - unfold getProductsByBrand. now intros ->.
Qed.

(* ================================================================== *)
(** ** Creating and looking up *)

(** X5: a review created under an identifier not yet in use is returned by
    [getReview] and listed for its product; the reviews stored under other
    identifiers and the listings of other products are as before, and
    [getAllReviews] gains exactly this review. *)
Theorem createReview_lookup
    (s : MemStorage) (r : InsertReview.t) (uuid : string) (now : Z) :
  getReview s uuid = None ->
  let review := fst (createReview s r uuid now) in
  let s' := snd (createReview s r uuid now) in
  getReview s' uuid = Some review /\
  Review.id review = uuid /\
  Review.createdAt review = Some now /\
  (forall k, k <> uuid -> getReview s' k = getReview s k) /\
  In review (getReviewsByProduct s' (InsertReview.productId r)) /\
  (forall productId, productId <> InsertReview.productId r ->
     getReviewsByProduct s' productId = getReviewsByProduct s productId) /\
  Permutation (getAllReviews s') (review :: getAllReviews s).
Proof.
  intros F review s'. unfold getReview in *.
  assert (E : reviews s' = (reviews s ++ [(uuid, review)])%list).
  { unfold s', createReview. cbn [snd reviews with_reviews].
    apply JsMapMore.set_absent. now apply JsMapFacts.has_get. }
  split; [apply JsMapFacts.get_set_same|].
  split; [reflexivity|]. split; [reflexivity|]. split; [|split; [|split]].
  - intros k N. now apply JsMapFacts.get_set_other.
  - unfold getReviewsByProduct. apply JsArrayFacts.sort_In, filter_In.
    split; [|apply String.eqb_refl].
    rewrite E. unfold JsMap.values. rewrite map_app. apply in_or_app.
    right. now left.
  - intros productId N. unfold getReviewsByProduct. rewrite E.
    unfold JsMap.values. rewrite map_app, filter_app. cbn [map filter snd].
    change (Review.productId review) with (InsertReview.productId r).
    destruct (String.eqb_spec (InsertReview.productId r) productId);
      [congruence|]. now rewrite app_nil_r.
  - unfold getAllReviews. rewrite JsArrayFacts.sort_Permutation, E.
    unfold JsMap.values. rewrite map_app. cbn [map snd].
    rewrite Permutation_app_comm. cbn. constructor.
    symmetry. apply JsArrayFacts.sort_Permutation.
Qed.

(* ================================================================== *)
(** ** Deleting *)

Lemma providerReviews_kept (s : MemStorage) (id providerId : string) :
  storeWf s -> providerId <> id ->
  filter (fun r => String.eqb (ServiceProviderReview.providerId r) providerId)
    (JsMap.values
       (fold_left (fun m r => JsMap.delete (ServiceProviderReview.id r) m)
          (filter (fun r => String.eqb (ServiceProviderReview.providerId r) id)
                  (JsMap.values (serviceProviderReviews s)))
          (serviceProviderReviews s)))
  = filter (fun r => String.eqb (ServiceProviderReview.providerId r) providerId)
      (JsMap.values (serviceProviderReviews s)).
Proof.
  intros W N. rewrite JsMapMore.delete_all_filter.
  set (ids := map ServiceProviderReview.id _).
  rewrite !JsArrayMore.filter_map_snd. f_equal.
  apply JsArrayMore.filter_filter_keep.
  intros [k r] Hin P. cbn [fst snd] in *. apply String.eqb_eq in P.
  apply negb_true_iff, not_true_is_false. intros Ex.
  apply existsb_exists in Ex. destruct Ex as (k' & Hk' & E).
  apply String.eqb_eq in E. subst k'. unfold ids in Hk'.
  apply in_map_iff in Hk'.
  destruct Hk' as (r' & Ek & Hr'). apply filter_In in Hr'.
  destruct Hr' as [Hr' P']. apply String.eqb_eq in P'.
  unfold JsMap.values in Hr'. apply in_map_iff in Hr'.
  destruct Hr' as ([k' r''] & Er & Hin'). cbn in Er. subst r''.
  rewrite (wf_providerReviewIds s W k' r' Hin') in Ek. subst k'.
  assert (r = r')
    by exact (JsMapMore.keys_functional k r r' _
                (wf_serviceProviderReviews s W) Hin Hin').
  congruence.
Qed.

(** X6: in every state of the store [deleteServiceProvider] returns whether
    the provider existed, removes it and every review of it, leaves the
    other providers and the reviews of the other providers as they were, and
    a second call returns [false] and changes nothing. *)
Theorem deleteServiceProvider_cascade
    (tza : TimeZone) (parse : string -> Date) (s : MemStorage) (id : string) :
  reachable tza parse s ->
  let s' := snd (deleteServiceProvider s id) in
  fst (deleteServiceProvider s id) = JsMap.has id (serviceProviders s) /\
  getServiceProvider s' id = None /\
  getServiceProviderReviews s' id = [] /\
  (forall k, k <> id -> getServiceProvider s' k = getServiceProvider s k) /\
  (forall providerId, providerId <> id ->
     getServiceProviderReviews s' providerId
     = getServiceProviderReviews s providerId) /\
  deleteServiceProvider s' id = (false, s').
Proof.
  intros R s'. pose proof (reachable_storeWf _ _ _ R) as W.
  unfold s'. rewrite deleteServiceProvider_eq. cbn [fst snd].
  set (gone := filter _ (JsMap.values (serviceProviderReviews s))).
  set (left := fold_left _ gone (serviceProviderReviews s)).
  assert (E : filter (fun r =>
                        String.eqb (ServiceProviderReview.providerId r) id)
                     (JsMap.values left) = []).
  { apply JsArrayFacts.filter_none. intros r Hr.
    apply not_true_is_false. intros P.
    unfold JsMap.values in Hr. apply in_map_iff in Hr.
    destruct Hr as ([k r'] & Er & Hin). cbn in Er. subst r'.
    apply JsMapFacts.In_delete_all in Hin. destruct Hin as [Hin Hn].
    apply Hn. rewrite <- (wf_providerReviewIds s W k r Hin).
    apply in_map, filter_In. split; [|exact P].
    unfold JsMap.values. change r with (snd (k, r)). now apply in_map. }
  split; [reflexivity|]. split; [apply JsMapFacts.get_delete_same|].
  split; [|split; [|split]].
  - unfold getServiceProviderReviews. cbn [serviceProviderReviews].
    now rewrite E.
  - intros k N. unfold getServiceProvider. cbn [serviceProviders].
    unfold JsMap.get, JsMap.delete.
    induction (serviceProviders s) as [|e m IH]; cbn; [reflexivity|].
    destruct (String.eqb_spec (fst e) id) as [Ei|Ei]; cbn.
    + destruct (String.eqb_spec (fst e) k); [congruence|exact IH].
    + destruct (String.eqb (fst e) k); [reflexivity|exact IH].
  - intros providerId N. unfold getServiceProviderReviews.
    cbn [serviceProviderReviews]. unfold left, gone.
    now rewrite providerReviews_kept.
  - rewrite deleteServiceProvider_eq.
    cbn [brands products reviews supportRequests serviceProviders
         serviceProviderReviews notifications favorites clientProfile].
    rewrite E. cbn [fold_left].
    rewrite JsMapFacts.has_delete_same.
    rewrite (JsMapFacts.delete_absent id (JsMap.delete id (serviceProviders s)))
      by apply JsMapFacts.has_delete_same.
    reflexivity.
Qed.

Lemma get_delete_other {V : Type} (k k' : string) (m : JsMap.t V) :
  k' <> k -> JsMap.get k' (JsMap.delete k m) = JsMap.get k' m.
Proof.
  intros N. unfold JsMap.get, JsMap.delete.
  induction m as [|e m IH]; cbn; [reflexivity|].
  destruct (String.eqb_spec (fst e) k) as [Ei|Ei]; cbn.
  - destruct (String.eqb_spec (fst e) k'); [congruence|exact IH].
  - destruct (String.eqb (fst e) k'); [reflexivity|exact IH].
Qed.

(** X7: in every state of the store [deleteProduct] leaves the other
    products, the reviews of the other products, the brands, the providers
    and their reviews, the notifications, the favorites and the profile as
    they were. *)
Theorem deleteProduct_keeps_others
    (tza : TimeZone) (parse : string -> Date) (s : MemStorage) (id : string) :
  reachable tza parse s ->
  let s' := snd (deleteProduct s id) in
  (forall k, k <> id -> getProduct s' k = getProduct s k) /\
  (forall productId, productId <> id ->
     getReviewsByProduct s' productId = getReviewsByProduct s productId) /\
  brands s' = brands s /\
  serviceProviders s' = serviceProviders s /\
  serviceProviderReviews s' = serviceProviderReviews s /\
  notifications s' = notifications s /\
  favorites s' = favorites s /\
  clientProfile s' = clientProfile s.
Proof.
  intros R s'. pose proof (reachable_storeWf _ _ _ R) as W.
  unfold s'. rewrite deleteProduct_eq. cbn [snd].
  split; [|split; [|repeat split]].
  - intros k N. unfold getProduct. cbn [products].
    now apply get_delete_other.
  - intros productId N. unfold getReviewsByProduct at 1 3. cbn [reviews].
    f_equal. rewrite JsMapMore.delete_all_filter.
    set (ids := map Review.id _).
    rewrite !JsArrayMore.filter_map_snd. f_equal.
    apply JsArrayMore.filter_filter_keep.
    intros [k r] Hin P. cbn [fst snd] in *. apply String.eqb_eq in P.
    apply negb_true_iff, not_true_is_false. intros Ex.
    apply existsb_exists in Ex. destruct Ex as (k' & Hk' & E).
    apply String.eqb_eq in E. subst k'. unfold ids in Hk'.
    apply in_map_iff in Hk'.
    destruct Hk' as (r' & Ek & Hr').
    apply (proj1 (JsArrayFacts.sort_In _ _ _)), filter_In in Hr'.
    destruct Hr' as [Hr' P']. apply String.eqb_eq in P'.
    unfold JsMap.values in Hr'. apply in_map_iff in Hr'.
    destruct Hr' as ([k' r''] & Er & Hin'). cbn in Er. subst r''.
    rewrite (wf_reviewIds s W k' r' Hin') in Ek. subst k'.
    assert (r = r')
      by exact (JsMapMore.keys_functional k r r' _ (wf_reviews s W) Hin Hin').
    congruence.
Qed.

(* ================================================================== *)
(** ** Updating *)

Lemma mergeProduct_none (p : Product.t) : mergeProduct p PartialProduct.none = p.
Proof. now destruct p. Qed.

(** X8: [updateProduct] on a stored product returns the merged record,
    stores it under the same key, keeps the keys and their order and leaves
    every other product alone; with the empty update the whole store is
    unchanged. *)
Theorem updateProduct_lookup
    (s : MemStorage) (id : string) (u : PartialProduct.t) (p : Product.t) :
  getProduct s id = Some p ->
  let s' := snd (updateProduct s id u) in
  fst (updateProduct s id u) = Some (mergeProduct p u) /\
  getProduct s' id = Some (mergeProduct p u) /\
  (forall k, k <> id -> getProduct s' k = getProduct s k) /\
  map fst (products s') = map fst (products s) /\
  updateProduct s id PartialProduct.none = (Some p, s).
Proof.
  unfold getProduct, updateProduct. intros G. rewrite G. cbn [fst snd products].
  split; [reflexivity|]. split; [apply JsMapFacts.get_set_same|].
  split; [|split].
  - intros k N. cbn. now apply JsMapFacts.get_set_other.
  - cbn. apply JsMapMore.keys_set_present.
    apply JsMapMore.has_get_Some. now exists p.
  - rewrite mergeProduct_none, (JsMapMore.set_get_id _ _ _ G).
    now destruct s.
Qed.

(** X9: a second warranty extension replaces the first without trace: the
    store after both is the store after the second alone. *)
Theorem addWarrantyExtension_last_wins
    (s : MemStorage) (id : string) (e1 e2 : Extension.t) (p : Product.t) :
  getProduct s id = Some p ->
  addWarrantyExtension (snd (addWarrantyExtension s id e1)) id e2
  = addWarrantyExtension s id e2.
Proof.
  unfold getProduct, addWarrantyExtension. intros G. rewrite G.
  cbn [snd products with_products]. rewrite JsMapFacts.get_set_same.
  cbn. now rewrite JsMapMore.set_set.
Qed.

(* ================================================================== *)
(** ** Notifications *)

(** X10: in every state of the store [markNotificationAsSent] returns
    whether the notification exists; afterwards the unsent notifications
    are those that were unsent before, without the one marked; when it
    returns [false] the store is unchanged. *)
Theorem markNotificationAsSent_unsent
    (tza : TimeZone) (parse : string -> Date) (s : MemStorage) (id : string)
    (now : Z) :
  reachable tza parse s ->
  let s' := snd (markNotificationAsSent s id now) in
  fst (markNotificationAsSent s id now) = JsMap.has id (notifications s) /\
  (forall n, In n (getAllUnsentNotifications s')
             <-> In n (getAllUnsentNotifications s)
                 /\ Notification.id n <> id) /\
  (fst (markNotificationAsSent s id now) = false -> s' = s).
Proof.
  intros R s'. pose proof (reachable_storeWf _ _ _ R) as W.
  assert (U : forall st n,
             In n (getAllUnsentNotifications st)
             <-> (exists k, In (k, n) (notifications st)) /\ unsent n = true).
  { intros st n. unfold getAllUnsentNotifications.
    rewrite JsArrayFacts.sort_In, filter_In. unfold JsMap.values.
    rewrite in_map_iff. split.
    - intros [([k n'] & E & H) P]. cbn in E. subst n'. eauto.
    - intros [[k H] P]. split; [|exact P]. now exists (k, n). }
  unfold s', markNotificationAsSent.
  destruct (JsMap.get id (notifications s)) as [n0|] eqn:G; cbn [fst snd].
  - split; [|split; [|discriminate]].
    + symmetry. apply JsMapMore.has_get_Some. now exists n0.
    + intros n. rewrite !U. cbn [notifications with_notifications]. split.
      * intros [[k H] P].
        apply (JsMapMore.In_set_iff _ _ _ _ _ (wf_notifications s W)) in H.
        destruct H as [[-> ->]|[N H]]; [discriminate P|].
        split; [eauto|]. now rewrite (wf_notificationIds s W k n H).
      * intros [[[k H] P] N]. split; [|exact P]. exists k.
        apply JsMapFacts.In_set_old; [exact H|].
        now rewrite <- (wf_notificationIds s W k n H).
  - split; [|split; [|reflexivity]].
    + symmetry. now apply JsMapFacts.has_get.
    + intros n. split; [|tauto]. intros H. split; [exact H|].
      apply U in H. destruct H as [[k H] _].
      rewrite (wf_notificationIds s W k n H). intros ->.
      apply (JsMapMore.get_of_In _ _ _ (wf_notifications s W)) in H.
      congruence.
Qed.

(* ================================================================== *)
(** ** Favorites *)

Lemma getFavorites_In (s : MemStorage) (type targetId : string) :
  In targetId
     (map Favorite.targetId
        (filter (fun f => String.eqb (Favorite.type f) type)
                (JsMap.values (favorites s))))
  <-> isFavorite s type targetId = true.
Proof.
  unfold isFavorite. rewrite in_map_iff, existsb_exists. split.
  - intros (f & E & H). apply filter_In in H. destruct H as [H T].
    exists f. split; [exact H|]. unfold matchesFavorite.
    rewrite T, E. now rewrite String.eqb_refl.
  - intros (f & H & M). unfold matchesFavorite in M.
    apply andb_prop in M. destruct M as [T E]. apply String.eqb_eq in E.
    exists f. split; [exact E|]. apply filter_In. auto.
Qed.

Lemma getFavorites_NoDup (s : MemStorage) (type : string) :
  favoritesUnique s ->
  NoDup (map Favorite.targetId
           (filter (fun f => String.eqb (Favorite.type f) type)
                   (JsMap.values (favorites s)))).
Proof.
  unfold favoritesUnique.
  induction (JsMap.values (favorites s)) as [|f l IH]; cbn; [constructor|].
  intros N. apply NoDup_cons_iff in N. destruct N as [N1 N2].
  destruct (String.eqb_spec (Favorite.type f) type) as [E|E]; cbn; [|auto].
  constructor; [|auto]. intros H. apply N1. apply in_map_iff in H.
  destruct H as (g & Eg & Hg). apply filter_In in Hg. destruct Hg as [Hg T].
  apply String.eqb_eq in T. apply in_map_iff. exists g.
  split; [|exact Hg]. congruence.
Qed.

(** X11: in every state of the store [getFavoriteProducts] and
    [getFavoriteProviders] list a target exactly when [isFavorite] holds for
    it, and list no target twice. *)
Theorem getFavorites_agree
    (tza : TimeZone) (parse : string -> Date) (s : MemStorage) :
  reachable tza parse s ->
  (forall targetId, In targetId (getFavoriteProducts s)
                    <-> isFavorite s "product" targetId = true) /\
  (forall targetId, In targetId (getFavoriteProviders s)
                    <-> isFavorite s "provider" targetId = true) /\
  NoDup (getFavoriteProducts s) /\
  NoDup (getFavoriteProviders s).
Proof.
  intros R. pose proof (reachable_favoritesUnique _ _ _ R) as U.
  unfold getFavoriteProducts, getFavoriteProviders.
  split; [intros t; apply getFavorites_In|].
  split; [intros t; apply getFavorites_In|].
  split; now apply getFavorites_NoDup.
Qed.

(** X12: in every state of the store, toggling one favorite with an
    identifier not yet in use changes [isFavorite] for no other type and
    target. *)
Theorem toggleFavorite_others
    (tza : TimeZone) (parse : string -> Date) (s : MemStorage)
    (type targetId uuid : string) (now : Z) (type' targetId' : string) :
  reachable tza parse s ->
  JsMap.has uuid (favorites s) = false ->
  (type', targetId') <> (type, targetId) ->
  isFavorite (snd (toggleFavorite s type targetId uuid now)) type' targetId'
  = isFavorite s type' targetId'.
Proof.
  intros R F N. pose proof (reachable_storeWf _ _ _ R) as W.
  unfold toggleFavorite. fold (isFavorite s type targetId).
  destruct (isFavorite s type targetId) eqn:Fav.
  - destruct (find _ _) as [e|] eqn:Fd; cbn [snd]; [|reflexivity].
    apply find_some in Fd. destruct Fd as [He Me].
    apply matchesFavorite_key in Me.
    apply eq_true_iff_eq. rewrite !isFavorite_true.
    cbn [favorites with_favorites]. rewrite !in_map_iff. split.
    + intros ([k f] & K & H). apply JsMapFacts.In_delete in H.
      exists (k, f). tauto.
    + intros ([k f] & K & H). exists (k, f). split; [exact K|].
      apply JsMapFacts.In_delete. split; [exact H|]. intros ->.
      destruct e as [k' f']. cbn [fst] in *.
      assert (f = f')
        by exact (JsMapMore.keys_functional k' f f' _ (wf_favorites s W) H He).
      subst f'. congruence.
  - cbn [snd]. unfold isFavorite. cbn [favorites with_favorites].
    rewrite (JsMapMore.set_absent _ _ _ F). unfold JsMap.values.
    rewrite map_app, existsb_app. cbn [map snd existsb].
    rewrite orb_false_r. unfold matchesFavorite at 2. cbn.
    destruct (String.eqb_spec type type') as [E1|E1];
      destruct (String.eqb_spec targetId targetId') as [E2|E2];
      cbn; rewrite ?orb_false_r; try reflexivity.
    exfalso. apply N. congruence.
Qed.

(* ================================================================== *)
(** ** Rounded means *)

Lemma sumZ_bounds (lo hi : Z) (l : list Z) :
  (forall x, In x l -> lo <= x <= hi) ->
  Z.of_nat (List.length l) * lo <= sumZ l <= Z.of_nat (List.length l) * hi.
Proof.
  unfold sumZ. induction l as [|x l IH]; intros H.
  - cbn. lia.
  - assert (Hx := H x (or_introl eq_refl)).
    assert (Hl := IH (fun y Hy => H y (or_intror Hy))).
    cbn [fold_right List.length]. lia.
Qed.

Lemma inject_Z_le (a b : Z) : (inject_Z a <= inject_Z b)%Q <-> a <= b.
Proof. unfold Qle, inject_Z. cbn. lia. Qed.

Lemma inject_Z_lt (a b : Z) : (inject_Z a < inject_Z b)%Q <-> a < b.
Proof. unfold Qlt, inject_Z. cbn. lia. Qed.

(** [Math.round(sum / n)] lies between two integers when [sum / n] does. *)
Lemma Math_round_quotient_bounds (lo hi sum n : Z) :
  0 < n -> n * lo <= sum <= n * hi ->
  lo <= Math_round (inject_Z sum / inject_Z n) <= hi.
Proof.
  intros Hn [Hlo Hhi]. unfold Math_round.
  assert (Pn : (0 < inject_Z n)%Q) by now apply (inject_Z_lt 0 n).
  assert (L : (inject_Z lo <= inject_Z sum / inject_Z n)%Q).
  { apply Qle_shift_div_l; [exact Pn|].
    rewrite <- inject_Z_mult. apply inject_Z_le. lia. }
  assert (U : (inject_Z sum / inject_Z n <= inject_Z hi)%Q).
  { apply Qle_shift_div_r; [exact Pn|].
    rewrite <- inject_Z_mult. apply inject_Z_le. lia. }
  generalize dependent (inject_Z sum / inject_Z n)%Q. intros q L U. split.
  - rewrite <- (Qfloor_Z lo) at 1. apply Qfloor_resp_le.
    generalize dependent (inject_Z lo). intros. lra.
  - assert (F := Qfloor_le (q + (1 # 2))).
    assert (H : (inject_Z (Qfloor (q + (1 # 2))) < inject_Z (hi + 1))%Q).
    { rewrite inject_Z_plus. change (inject_Z 1) with 1%Q.
      generalize dependent (inject_Z (Qfloor (q + (1 # 2)))).
      generalize dependent (inject_Z hi). intros. lra. }
    apply (proj1 (inject_Z_lt _ _)) in H. lia.
Qed.

Lemma Math_round_mean_bounds (lo hi : Z) (l : list Z) :
  l <> [] -> (forall x, In x l -> lo <= x <= hi) ->
  lo <= Math_round (mean l) <= hi.
Proof.
  intros N H. unfold mean. apply Math_round_quotient_bounds.
  - destruct l; [contradiction|cbn [List.length]; lia].
  - now apply sumZ_bounds.
Qed.

(* ================================================================== *)
(** ** Reviews of providers *)

(** X13: when every rating stored for a provider and the new rating lie
    between [lo] and [hi], the [averageRating] persisted by
    [createServiceProviderReview] lies between [lo] and [hi] too (between 1
    and 5 for star ratings). *)
Theorem createServiceProviderReview_rating_range
    (s : MemStorage) (r : InsertServiceProviderReview.t) (uuid : string)
    (now : Z) (provider : ServiceProvider.t) (lo hi : Z) :
  let X := InsertServiceProviderReview.providerId r in
  getServiceProvider s X = Some provider ->
  (forall x, In x (storedRatings s X) -> lo <= x <= hi) ->
  lo <= InsertServiceProviderReview.rating r <= hi ->
  exists provider' rating,
    getServiceProvider (snd (createServiceProviderReview s r uuid now)) X
      = Some provider' /\
    ServiceProvider.averageRating provider' = Some rating /\
    lo <= rating <= hi.
Proof.
  intros X G H Hr. unfold getServiceProvider in G.
  unfold createServiceProviderReview, updateServiceProvider.
  cbn [snd fst serviceProviders with_serviceProviderReviews]. fold X.
  rewrite G.
  set (review := ServiceProviderReview.mk _ _ _ _ _).
  set (s1 := with_serviceProviderReviews s _).
  cbn [snd].
  assert (Hin : In (ServiceProviderReview.rating review) (storedRatings s1 X)).
  { unfold storedRatings. apply in_map, filter_In. split.
    - unfold s1. cbn [serviceProviderReviews with_serviceProviderReviews].
      unfold JsMap.values. change review with (snd (uuid, review)).
      apply in_map, JsMapFacts.In_set_new.
    - apply String.eqb_refl. }
  assert (Hall : forall x, In x (storedRatings s1 X) -> lo <= x <= hi).
  { intros x Hx. unfold storedRatings in Hx. apply in_map_iff in Hx.
    destruct Hx as (r' & <- & Hr'). apply filter_In in Hr'.
    destruct Hr' as [Hr' P]. unfold s1 in Hr'.
    cbn [serviceProviderReviews with_serviceProviderReviews] in Hr'.
    apply JsMapFacts.In_values_set in Hr'. destruct Hr' as [->|Hr'].
    - exact Hr.
    - apply H. unfold storedRatings. apply in_map, filter_In. auto. }
  eexists. eexists. split; [|split].
  - unfold getServiceProvider. cbn [serviceProviders with_serviceProviders].
    apply JsMapFacts.get_set_same.
  - reflexivity.
  - rewrite getAverageRating_mean.
    + now apply Math_round_mean_bounds; [intros E; rewrite E in Hin|].
    + intros E. now rewrite E in Hin.
Qed.

(** X14: a review for a provider that does not exist is stored all the
    same and listed by [getServiceProviderReviews]; no provider is created
    or changed. *)
Theorem createServiceProviderReview_unknown_provider
    (s : MemStorage) (r : InsertServiceProviderReview.t) (uuid : string)
    (now : Z) :
  let X := InsertServiceProviderReview.providerId r in
  getServiceProvider s X = None ->
  let review := fst (createServiceProviderReview s r uuid now) in
  let s' := snd (createServiceProviderReview s r uuid now) in
  s' = with_serviceProviderReviews s
         (JsMap.set uuid review (serviceProviderReviews s)) /\
  getServiceProvider s' X = None /\
  In review (getServiceProviderReviews s' X).
Proof.
  intros X G review s'. unfold getServiceProvider in G.
  assert (E : s' = with_serviceProviderReviews s
                     (JsMap.set uuid review (serviceProviderReviews s))).
  { unfold s', createServiceProviderReview, updateServiceProvider.
    cbn [snd fst serviceProviders with_serviceProviderReviews]. fold X.
    now rewrite G. }
  split; [exact E|]. rewrite E. split; [exact G|].
  unfold getServiceProviderReviews. apply JsArrayFacts.sort_In, filter_In.
  cbn [serviceProviderReviews with_serviceProviderReviews].
  split; [|apply String.eqb_refl].
  unfold JsMap.values. change review with (snd (uuid, review)).
  apply in_map, JsMapFacts.In_set_new.
Qed.

(* ================================================================== *)
(** ** Days remaining *)

(** X15: for a valid expiration, [daysRemaining] is the number of days [d]
    with [(d - 1) days < expiration - now <= d days]; it does not decrease
    when the expiration moves later and does not increase as time passes. *)
Theorem daysRemaining_bracket (t now : Z) :
  exists d,
    daysRemaining (Some t) now = Some d /\
    (d - 1) * msPerDay < t - now <= d * msPerDay /\
    (forall t' d', t <= t' -> daysRemaining (Some t') now = Some d' -> d <= d') /\
    (forall now' d', now <= now' -> daysRemaining (Some t) now' = Some d' ->
                     d' <= d).
Proof.
  exists (- ((now - t) / msPerDay)).
  split; [apply daysRemaining_valid|]. unfold msPerDay. split.
  - Z.div_mod_to_equations. lia.
  - split; intros x d' Hx E; rewrite daysRemaining_valid in E;
      injection E as <-; unfold msPerDay; Z.div_mod_to_equations; lia.
Qed.

(** X16: the status of the PDF export in terms of time: "Expirada" when the
    expiration lies a day or more back, "Expira em Breve" from less than a
    day back to 90 days ahead, "Valida" beyond 90 days; an Invalid Date is
    reported as valid. *)
Theorem exportStatus_bands (warrantyExpiration : Date) (now : Z) :
  let status := fst (exportStatus warrantyExpiration now) in
  match warrantyExpiration with
  | Some t =>
      (status = "Expirada" <-> t - now <= - msPerDay) /\
      (status = "Expira em Breve"
       <-> - msPerDay < t - now <= 90 * msPerDay) /\
      (status = "Válida" <-> 90 * msPerDay < t - now)
  | None => status = "Válida"
  end.
Proof.
  cbv zeta. destruct warrantyExpiration as [t|]; [|reflexivity].
  unfold exportStatus. rewrite daysRemaining_valid. cbn [isExpired fst].
  set (d := - ((now - t) / msPerDay)).
  assert (B : (d - 1) * msPerDay < t - now <= d * msPerDay).
  { unfold d, msPerDay. Z.div_mod_to_equations. lia. }
  unfold msPerDay in *.
  destruct (Z.ltb_spec d 0); [|destruct (Z.leb_spec d 90)];
    repeat split; intros; try discriminate; try reflexivity; lia.
Qed.

(* ================================================================== *)
(** ** A new product and its certificate *)


(** X18: a purchase date that does not parse is stored as it is: both
    [purchaseDate] and [warrantyExpiration] are Invalid Dates, and at any
    time the certificate says valid with NaN days remaining and the export
    says valid. *)
Theorem createProduct_invalid_date
    (tza : TimeZone) (parse : string -> Date) (s : MemStorage)
    (ins : InsertProduct.t) (uuid : string) :
  newDate parse (InsertProduct.purchaseDate ins) = None ->
  let p := fst (createProduct tza parse s ins uuid) in
  getProduct (snd (createProduct tza parse s ins uuid)) uuid = Some p /\
  Product.purchaseDate p = None /\
  Product.warrantyExpiration p = None /\
  forall now,
    certificateStatus (Product.warrantyExpiration p) now
      = ("VÁLIDA", Some None) /\
    exportStatus (Product.warrantyExpiration p) now = ("Válida", None).
Proof.
  intros HP p.
  assert (EW : Product.warrantyExpiration p = None).
  { unfold p, createProduct. cbn. now rewrite HP. }
  split; [apply JsMapFacts.get_set_same|]. split; [exact HP|].
  split; [exact EW|]. intros now. now rewrite EW.
Qed.

(* ================================================================== *)
(** ** The extension route *)

Lemma orZero_value (x : option Z) :
  orZero x = match x with Some c => c | None => 0 end.
Proof.
  destruct x as [c|]; [|reflexivity]. cbn.
  destruct (Z.eqb_spec c 0); congruence.
Qed.

(** X19: the extension route answers 400 exactly when the date, the
    provider or the policy number is missing or empty, 404 when the three
    are given and the product does not exist, both without changing the
    store; otherwise it stores and returns the extended product, whose
    expiration is the parsed date (an Invalid Date when the string does not
    parse), with an empty agent name and a cost of 0 when those are not
    given. *)
Theorem postExtension_responses
    (parse : string -> Date) (s : MemStorage) (id : string)
    (body : ExtensionBody.t) :
  let missing :=
    isFalsy (ExtensionBody.extendedExpirationDate body)
    || isFalsy (ExtensionBody.insuranceProvider body)
    || isFalsy (ExtensionBody.policyNumber body) in
  let s' := snd (postExtension parse s id body) in
  match fst (postExtension parse s id body) with
  | ExtensionBadRequest => missing = true /\ s' = s
  | ExtensionNotFound => missing = false /\ getProduct s id = None /\ s' = s
  | ExtensionOk product =>
      missing = false /\
      (exists old, getProduct s id = Some old) /\
      getProduct s' id = Some product /\
      Product.hasExtension product = Some true /\
      Product.warrantyExpiration product
        = parse (orEmpty (ExtensionBody.extendedExpirationDate body)) /\
      Product.insuranceProvider product
        = ExtensionBody.insuranceProvider body /\
      Product.policyNumber product = ExtensionBody.policyNumber body /\
      Product.agentName product
        = Some (orEmpty (ExtensionBody.agentName body)) /\
      Product.extensionCost product
        = Some (match ExtensionBody.extensionCost body with
                | Some c => c
                | None => 0
                end)
  end.
Proof.
  cbv zeta. unfold postExtension.
  destruct (isFalsy (ExtensionBody.extendedExpirationDate body)
            || isFalsy (ExtensionBody.insuranceProvider body)
            || isFalsy (ExtensionBody.policyNumber body)) eqn:M;
    cbn [fst snd]; [auto|].
  apply orb_false_elim in M. destruct M as [M M3].
  apply orb_false_elim in M. destruct M as [M1 M2].
  unfold addWarrantyExtension, getProduct.
  destruct (JsMap.get id (products s)) as [old|] eqn:G; cbn [fst snd]; [|auto].
  split; [reflexivity|]. split; [now exists old|].
  split; [apply JsMapFacts.get_set_same|]. cbn.
  split; [reflexivity|]. split; [reflexivity|].
  destruct (ExtensionBody.insuranceProvider body) as [a|]; [|discriminate].
  destruct (ExtensionBody.policyNumber body) as [b|]; [|discriminate].
  repeat split. rewrite orZero_value. f_equal.
  destruct (ExtensionBody.extensionCost body) as [c|]; [|reflexivity].
  destruct (Z.eqb_spec c 0); congruence.
Qed.

(* ================================================================== *)
(** ** Reviews and support requests with their products *)

Lemma flat_map_option_fst {A B : Type} (f : A -> option B) (l : list A) :
  map fst
    (flat_map (fun x => match f x with Some y => [(x, y)] | None => [] end) l)
  = filter (fun x => match f x with Some _ => true | None => false end) l.
Proof.
  induction l as [|x l IH]; cbn; [reflexivity|].
  destruct (f x); cbn; now rewrite IH.
Qed.

Lemma flat_map_option_In {A B : Type} (f : A -> option B) (l : list A)
    (x : A) (y : B) :
  In (x, y)
     (flat_map (fun x => match f x with Some y => [(x, y)] | None => [] end) l)
  <-> In x l /\ f x = Some y.
Proof.
  rewrite in_flat_map. split.
  - intros (x' & Hx & H). destruct (f x') as [y'|] eqn:E; [|contradiction].
    destruct H as [[= <- <-]|[]]. auto.
  - intros [Hx E]. exists x. split; [exact Hx|]. rewrite E. now left.
Qed.

(** X20: the community reviews are the reviews of [getAllReviews], in the
    same order, whose product and brand exist, each with that product and
    brand; the support history is the same selection of
    [getAllSupportRequests]; a review or request of a missing product is
    left out without an error. *)
Theorem communityReviews_members (s : MemStorage) :
  map fst (communityReviews s)
    = filter (fun r => hasProductWithBrand s (Review.productId r))
             (getAllReviews s) /\
  (forall r e, In (r, e) (communityReviews s)
               <-> In r (JsMap.values (reviews s))
                   /\ getProductWithBrand s (Review.productId r) = Some e) /\
  map fst (supportHistory s)
    = filter (fun r => hasProductWithBrand s (SupportRequest.productId r))
             (getAllSupportRequests s) /\
  (forall r e, In (r, e) (supportHistory s)
               <-> In r (JsMap.values (supportRequests s))
                   /\ getProductWithBrand s (SupportRequest.productId r)
                      = Some e).
Proof.
  unfold communityReviews, supportHistory, hasProductWithBrand.
  split; [apply flat_map_option_fst|]. split; [|split].
  - intros r e. rewrite flat_map_option_In. unfold getAllReviews.
    now rewrite JsArrayFacts.sort_In.
  - apply flat_map_option_fst.
  - intros r e. rewrite flat_map_option_In. unfold getAllSupportRequests.
    now rewrite JsArrayFacts.sort_In.
Qed.

(* ================================================================== *)
(** ** The statistics of the analytics route *)

Lemma displayDays_valid (t now : Z) :
  exists d, daysRemaining (Some t) now = Some d /\
            displayDays (daysRemaining (Some t) now) = Some (Z.max d 0).
Proof. rewrite daysRemaining_valid. eexists. split; reflexivity. Qed.

Lemma warrantyDaysSum_bounds (clock : nat -> Z)
    (listed : list (Product.t * Brand.t)) (M : Z) :
  0 <= M ->
  (forall e, In e listed ->
             isValidDate (Product.warrantyExpiration (fst e)) = true) ->
  (forall e i d, In e listed ->
     daysRemaining (Product.warrantyExpiration (fst e)) (clock i) = Some d ->
     d <= M) ->
  exists sum,
    warrantyDaysSum clock listed = Some sum /\
    0 <= sum <= Z.of_nat (List.length listed) * M.
Proof.
  intros HM V B. unfold warrantyDaysSum, JsArray.reduce.
  assert (G : forall (li : list ((Product.t * Brand.t) * nat)) (a : Z),
             (forall e i, In (e, i) li -> In e listed) ->
             exists sum,
               fold_left
                 (fun sum0 pi =>
                    addNaN sum0
                      (displayDays
                         (daysRemaining
                            (Product.warrantyExpiration (fst (fst pi)))
                            (clock (snd pi))))) li (Some a) = Some (a + sum)
               /\ 0 <= sum <= Z.of_nat (List.length li) * M).
  { induction li as [|[e i] li IH]; intros a Hin.
    - exists 0. cbn. split; [f_equal; lia|lia].
    - assert (He : In e listed) by (apply (Hin e i); now left).
      specialize (V e He).
      destruct (Product.warrantyExpiration (fst e)) as [t|] eqn:E;
        [|discriminate].
      destruct (displayDays_valid t (clock i)) as (d & Hd & Hs).
      assert (Hb : d <= M) by (apply (B e i d He); now rewrite E).
      destruct (IH (a + Z.max d 0)) as (sum & Hf & Hr).
      { intros e' i' H. apply (Hin e' i'). now right. }
      exists (Z.max d 0 + sum). cbn [fold_left fst snd]. rewrite E, Hs.
      cbn [addNaN]. rewrite Hf. split; [f_equal; lia|].
      cbn [List.length]. lia. }
  destruct (G (combine listed (seq 0 (List.length listed))) 0) as (sum & Hf & Hr).
  { intros e i H. now apply in_combine_l in H. }
  exists sum. rewrite Hf. split; [reflexivity|].
  rewrite length_combine, length_seq, Nat.min_id in Hr. exact Hr.
Qed.

Lemma getAllProducts_length (s : MemStorage) :
  (List.length (getAllProducts s)
   <= List.length (JsMap.values (products s)))%nat.
Proof.
  unfold getAllProducts. rewrite JsArrayFacts.sort_length.
  induction (JsMap.values (products s)) as [|p l IH]; cbn; [lia|].
  destruct (getBrand s (Product.brandId p)); cbn; lia.
Qed.

(** X21: when every stored warranty expiration is valid and no product has
    more than [M] days remaining, the statistics report an average between
    0 and [M], 0 when no product is listed; [totalProducts] counts the
    listed products only and [totalProviders] all stored providers. *)
Theorem analyticsStats_average (clock : nat -> Z) (s : MemStorage) (M : Z) :
  0 <= M ->
  (forall p, In p (JsMap.values (products s)) ->
             isValidDate (Product.warrantyExpiration p) = true) ->
  (forall p i d, In p (JsMap.values (products s)) ->
     daysRemaining (Product.warrantyExpiration p) (clock i) = Some d ->
     d <= M) ->
  let stats := analyticsStats clock s in
  exists avg,
    AnalyticsStats.avgWarrantyExpiration stats = Some avg /\
    0 <= avg <= M /\
    (getAllProducts s = [] -> avg = 0) /\
    AnalyticsStats.totalProducts stats
      = Z.of_nat (List.length (getAllProducts s)) /\
    AnalyticsStats.totalProducts stats
      <= Z.of_nat (List.length (JsMap.values (products s))) /\
    AnalyticsStats.totalProviders stats
      = Z.of_nat (List.length (JsMap.values (serviceProviders s))).
Proof.
  intros HM V B stats.
  destruct (warrantyDaysSum_bounds clock (getAllProducts s) M HM)
    as (sum & Hs & Hr).
  { intros [p b] H. apply getAllProducts_In in H. apply V. tauto. }
  { intros [p b] i d H. apply getAllProducts_In in H. apply B. tauto. }
  unfold stats, analyticsStats. cbn [AnalyticsStats.avgWarrantyExpiration
    AnalyticsStats.totalProducts AnalyticsStats.totalProviders].
  rewrite Hs. eexists. split; [reflexivity|].
  set (n := lengthOrOne (getAllProducts s)).
  assert (Hn : 0 < n /\ Z.of_nat (List.length (getAllProducts s)) <= n).
  { unfold n, lengthOrOne.
    destruct (Nat.eqb_spec (List.length (getAllProducts s)) 0); lia. }
  split; [|split; [|split; [|split]]].
  - apply Math_round_quotient_bounds; [tauto|]. nia.
  - intros E. rewrite E in Hr. cbn in Hr.
    pose proof (Math_round_quotient_bounds 0 0 sum n) as Q.
    lia.
  - reflexivity.
  - pose proof (getAllProducts_length s). lia.
  - unfold getAllServiceProviders. now rewrite JsArrayFacts.sort_length.
Qed.

(* ================================================================== *)
(** ** The top brands *)

Lemma countBrand_eq (p : Product.t * Brand.t) (m : JsMap.t BrandCount.t) :
  let k := Product.brandId (fst p) in
  countBrand p m
  = JsMap.set k
      (bump (match JsMap.get k m with
             | Some c => c
             | None => BrandCount.mk (Brand.name (snd p)) 0 k
             end)) m.
Proof.
  cbv zeta. unfold countBrand.
  destruct (JsMap.has (Product.brandId (fst p)) m) eqn:H.
  - apply JsMapMore.has_get_Some in H. destruct H as [c G]. now rewrite G.
  - rewrite JsMapFacts.get_set_same, JsMapMore.set_set.
    apply JsMapFacts.has_get in H. now rewrite H.
Qed.

Lemma productsOfBrand_app (k : string) (l : list (Product.t * Brand.t))
    (p : Product.t * Brand.t) :
  productsOfBrand k (l ++ [p])
  = productsOfBrand k l
    + (if String.eqb (Product.brandId (fst p)) k then 1 else 0).
Proof.
  unfold productsOfBrand. rewrite filter_app, length_app. cbn [filter].
  destruct (String.eqb (Product.brandId (fst p)) k); cbn [List.length]; lia.
Qed.

Lemma counted_step (done : list (Product.t * Brand.t))
    (m : JsMap.t BrandCount.t) (p : Product.t * Brand.t) :
  counted done m -> counted (done ++ [p]) (countBrand p m).
Proof.
  intros [K S E]. rewrite countBrand_eq. cbv zeta.
  set (k := Product.brandId (fst p)).
  set (c0 := match JsMap.get k m with
             | Some c => c
             | None => BrandCount.mk (Brand.name (snd p)) 0 k
             end).
  assert (C0 : BrandCount.id c0 = k /\
               BrandCount.count c0 = productsOfBrand k done /\
               exists q, In q (done ++ [p]) /\ Product.brandId (fst q) = k
                         /\ BrandCount.name c0 = Brand.name (snd q)).
  { unfold c0. destruct (JsMap.get k m) as [c|] eqn:G.
    - apply JsMapFacts.get_In in G. destruct (E k c G) as (A & B & _ & q & Q).
      split; [exact A|]. split; [exact B|]. exists q.
      split; [apply in_or_app; tauto|tauto].
    - cbn. split; [reflexivity|]. split.
      + unfold productsOfBrand. rewrite JsArrayFacts.filter_none; [reflexivity|].
        intros q Hq. apply not_true_is_false. intros Eq.
        apply String.eqb_eq in Eq. apply S in Hq. rewrite Eq in Hq.
        apply JsMapFacts.has_get in G. congruence.
      + exists p. split; [apply in_or_app; right; now left|]. auto. }
  destruct C0 as (A0 & B0 & q0 & Q0).
  assert (P0 : 0 <= productsOfBrand k done).
  { unfold productsOfBrand. lia. }
  constructor.
  - now apply JsMapFacts.set_keys_NoDup.
  - intros q Hq. apply in_app_or in Hq. destruct Hq as [Hq|[<-|[]]].
    + destruct (String.eqb_spec (Product.brandId (fst q)) k) as [Eq|Eq].
      * rewrite Eq. apply (JsMapMore.In_has k (bump c0)).
        apply JsMapFacts.In_set_new.
      * apply S in Hq. apply JsMapMore.has_In in Hq. destruct Hq as [c Hc].
        apply (JsMapMore.In_has _ c). now apply JsMapFacts.In_set_old.
    + apply (JsMapMore.In_has k (bump c0)). apply JsMapFacts.In_set_new.
  - intros k' c H. apply (JsMapMore.In_set_iff _ _ _ _ _ K) in H.
    rewrite productsOfBrand_app. fold k.
    destruct H as [[-> ->]|[N H]].
    + rewrite String.eqb_refl. cbn [bump BrandCount.id BrandCount.count
                                    BrandCount.name].
      split; [exact A0|]. split; [lia|]. split; [lia|]. now exists q0.
    + destruct (String.eqb_spec k k') as [Ek|_]; [congruence|].
      destruct (E k' c H) as (A & B & C & q & Q).
      split; [exact A|]. split; [lia|]. split; [exact C|].
      exists q. split; [apply in_or_app; tauto|tauto].
Qed.

Lemma counted_all (listed : list (Product.t * Brand.t)) :
  counted listed (brandCounts listed).
Proof.
  unfold brandCounts, JsArray.forEach.
  assert (G : forall l done m,
             counted done m ->
             counted (done ++ l) (fold_left (fun acc x => countBrand x acc) l m)).
  { induction l as [|p l IH]; intros done m C; cbn [fold_left].
    - now rewrite app_nil_r.
    - replace (done ++ p :: l)%list with ((done ++ [p]) ++ l)%list
        by now rewrite <- app_assoc.
      apply IH. now apply counted_step. }
  apply (G listed [] JsMap.empty). constructor.
  - constructor.
  - intros p [].
  - intros k c [].
Qed.

Lemma slice0_descendingBy {A : Type} (key : A -> Z) (n : nat) (l : list A) :
  descendingBy key l -> descendingBy key (JsArray.slice0 n l).
Proof.
  unfold JsArray.slice0. revert l.
  induction n as [|n IH]; intros [|x l]; cbn [firstn descendingBy]; auto.
  intros [Hx Hl]. split; [|now apply IH].
  intros y Hy. apply Hx. now apply (slice0_In n l y).
Qed.

Lemma slice0_NoDup {A : Type} (n : nat) (l : list A) :
  NoDup l -> NoDup (JsArray.slice0 n l).
Proof.
  unfold JsArray.slice0. revert l.
  induction n as [|n IH]; intros [|x l] N; cbn [firstn]; try constructor.
  - intros H. apply (NoDup_cons_iff x l) in N. destruct N as [N _].
    apply N. now apply (slice0_In n l x).
  - apply IH. now apply (NoDup_cons_iff x l) in N.
Qed.

Lemma slice0_top {A : Type} (key : A -> Z) (n : nat) (l : list A) :
  descendingBy key l ->
  forall x y, In x (JsArray.slice0 n l) -> In y l ->
    In y (JsArray.slice0 n l) \/ key y <= key x.
Proof.
  unfold JsArray.slice0. revert l.
  induction n as [|n IH]; intros [|a l]; cbn [firstn descendingBy];
    try (intros _ u v Hu; now destruct Hu).
  intros [Ha Hl] x y Hx [->|Hy]; [left; now left|].
  destruct Hx as [->|Hx]; [right; now apply Ha|].
  destruct (IH l Hl x y Hx Hy) as [H|H]; [left; now right|now right].
Qed.

Lemma counted_ids (done : list (Product.t * Brand.t))
    (m : JsMap.t BrandCount.t) :
  counted done m -> map BrandCount.id (JsMap.values m) = map fst m.
Proof.
  intros [_ _ E]. unfold JsMap.values. rewrite map_map.
  apply map_ext_in. intros [k c] H. cbn. now destruct (E k c H).
Qed.

(** X22: the five most popular brands of GET /api/analytics. *)
Theorem topBrands_counts (s : MemStorage) :
  (List.length (topBrands s) <= 5)%nat /\
  descendingBy BrandCount.count (topBrands s) /\
  NoDup (map BrandCount.id (topBrands s)) /\
  (forall e, In e (topBrands s) ->
     BrandCount.count e
       = productsOfBrand (BrandCount.id e) (getAllProducts s) /\
     1 <= BrandCount.count e /\
     exists b, getBrand s (BrandCount.id e) = Some b
               /\ BrandCount.name e = Brand.name b) /\
  (forall p e, In p (getAllProducts s) -> In e (topBrands s) ->
     (exists e', In e' (topBrands s)
                 /\ BrandCount.id e' = Product.brandId (fst p)) \/
     productsOfBrand (Product.brandId (fst p)) (getAllProducts s)
       <= BrandCount.count e).
Proof.
  pose proof (counted_all (getAllProducts s)) as C.
  pose proof (counted_ids _ _ C) as I.
  destruct C as [K S E].
  set (m := brandCounts (getAllProducts s)) in *.
  assert (D : descendingBy BrandCount.count
                (JsArray.sort byCount (JsMap.values m))).
  { apply JsArrayMore.sort_descendingBy. intros x y _ _. unfold byCount.
    rewrite JsArrayMore.Qle_bool_inject_Z. lia. }
  assert (V : forall e, In e (JsMap.values m) -> In (BrandCount.id e, e) m).
  { intros e He. unfold JsMap.values in He. apply in_map_iff in He.
    destruct He as ([k c] & <- & H). cbn [snd].
    destruct (E k c H) as (-> & _). exact H. }
  unfold topBrands. fold m. repeat split.
  - unfold JsArray.slice0. apply firstn_le_length.
  - now apply slice0_descendingBy.
  - unfold JsArray.slice0. rewrite <- firstn_map.
    apply (slice0_NoDup 5).
    apply (Permutation_NoDup
             (l := map BrandCount.id (JsMap.values m))).
    + apply Permutation_map. symmetry. apply JsArrayFacts.sort_Permutation.
    + rewrite I. exact K.
  - apply slice0_In, JsArrayFacts.sort_In, V in H.
    now destruct (E _ _ H) as (_ & B & _).
  - apply slice0_In, JsArrayFacts.sort_In, V in H.
    now destruct (E _ _ H) as (_ & _ & B & _).
  - apply slice0_In, JsArrayFacts.sort_In, V in H.
    destruct (E _ _ H) as (_ & _ & _ & [p b] & Hp & Hk & Hn).
    apply getAllProducts_In in Hp. cbn [fst snd] in Hk, Hn.
    exists b. rewrite <- Hk. tauto.
  - intros p e Hp He.
    pose proof (S p Hp) as Hh. apply JsMapMore.has_In in Hh.
    destruct Hh as [c Hc].
    destruct (E _ _ Hc) as (Hid & Hcount & _).
    assert (Hs : In c (JsArray.sort byCount (JsMap.values m))).
    { apply JsArrayFacts.sort_In. unfold JsMap.values.
      apply in_map_iff. now exists (Product.brandId (fst p), c). }
    destruct (slice0_top BrandCount.count 5 _ D e c He Hs) as [H|H].
    + left. exists c. tauto.
    + right. now rewrite <- Hcount.
Qed.

(* ================================================================== *)
(** ** Looking records up by their identifier *)

Lemma values_get {V : Type} (ident : V -> string) (m : JsMap.t V) (v : V) :
  keysUnique m -> (forall k x, In (k, x) m -> ident x = k) ->
  In v (JsMap.values m) -> JsMap.get (ident v) m = Some v.
Proof.
  intros K I H. unfold JsMap.values in H. apply in_map_iff in H.
  destruct H as ([k x] & <- & H). cbn [snd].
  rewrite (I k x H). now apply JsMapMore.get_of_In.
Qed.

(** X23: in every state of the store a review, a provider review or a
    notification that a listing returns is stored under its own [id], so
    looking that [id] up gives the record back; the same for every stored
    favorite. *)
Theorem reachable_lookup_by_id
    (tza : TimeZone) (parse : string -> Date) (s : MemStorage) :
  reachable tza parse s ->
  (forall r, In r (getAllReviews s) -> getReview s (Review.id r) = Some r) /\
  (forall productId r, In r (getReviewsByProduct s productId) ->
     getReview s (Review.id r) = Some r) /\
  (forall providerId r, In r (getServiceProviderReviews s providerId) ->
     JsMap.get (ServiceProviderReview.id r) (serviceProviderReviews s)
     = Some r) /\
  (forall n, In n (getAllUnsentNotifications s) ->
     JsMap.get (Notification.id n) (notifications s) = Some n) /\
  (forall productId n, In n (getNotificationsByProduct s productId) ->
     JsMap.get (Notification.id n) (notifications s) = Some n) /\
  (forall f, In f (JsMap.values (favorites s)) ->
     JsMap.get (Favorite.id f) (favorites s) = Some f).
Proof.
  intros R. apply reachable_storeWf in R. destruct R.
  repeat split.
  - intros r H. apply JsArrayFacts.sort_In in H.
    now apply (values_get Review.id).
  - intros productId r H. apply JsArrayFacts.sort_In, filter_In in H.
    now apply (values_get Review.id).
  - intros providerId r H. apply JsArrayFacts.sort_In, filter_In in H.
    now apply (values_get ServiceProviderReview.id).
  - intros n H. apply JsArrayFacts.sort_In, filter_In in H.
    now apply (values_get Notification.id).
  - intros productId n H. apply JsArrayFacts.sort_In, filter_In in H.
    now apply (values_get Notification.id).
  - intros f H. now apply (values_get Favorite.id).
Qed.

(* ================================================================== *)
(** ** The details of a product *)

(** X24: [getProductWithDetails] finds a product exactly when
    [getProductWithBrand] does, with the same product and brand, and lists
    the reviews and support requests filed under the identifier asked for.
    After [createReview] for that identifier the details show the new
    review, with the product, brand and support requests as before; a
    product that was not found is still not found. *)
Theorem getProductWithDetails_after_createReview
    (s : MemStorage) (r : InsertReview.t) (uuid : string) (now : Z) :
  let id := InsertReview.productId r in
  let review := fst (createReview s r uuid now) in
  let s' := snd (createReview s r uuid now) in
  (forall k,
     match getProductWithDetails s k with
     | Some d =>
         getProductWithBrand s k
           = Some (ProductWithDetails.product d, ProductWithDetails.brand d) /\
         ProductWithDetails.reviews d = getReviewsByProduct s k /\
         ProductWithDetails.supportRequests d
           = getSupportRequestsByProduct s k
     | None => getProductWithBrand s k = None
     end) /\
  (forall k, getProductWithDetails s k = None ->
             getProductWithDetails s' k = None) /\
  (forall d, getProductWithDetails s id = Some d ->
     exists d',
       getProductWithDetails s' id = Some d' /\
       ProductWithDetails.product d' = ProductWithDetails.product d /\
       ProductWithDetails.brand d' = ProductWithDetails.brand d /\
       ProductWithDetails.supportRequests d'
         = ProductWithDetails.supportRequests d /\
       In review (ProductWithDetails.reviews d')).
Proof.
  cbv zeta. unfold createReview. cbn [fst snd].
  set (review := Review.mk _ _ _ _ _ _ _ _ _).
  split; [|split].
  - intros k. unfold getProductWithDetails, getProductWithBrand.
    destruct (JsMap.get k (products s)) as [p|]; [|reflexivity].
    destruct (getBrand s (Product.brandId p)); [|reflexivity].
    cbn. auto.
  - intros k. unfold getProductWithDetails, getBrand. cbn [products brands
      with_reviews].
    destruct (JsMap.get k (products s)) as [p|]; [|reflexivity].
    destruct (JsMap.get (Product.brandId p) (brands s)); [discriminate|].
    reflexivity.
  - intros d. unfold getProductWithDetails, getBrand. cbn [products brands
      with_reviews].
    destruct (JsMap.get (InsertReview.productId r) (products s)) as [p|];
      [|discriminate].
    destruct (JsMap.get (Product.brandId p) (brands s)) as [b|];
      [|discriminate].
    intros [= <-]. eexists. split; [reflexivity|].
    cbn [ProductWithDetails.product ProductWithDetails.brand
         ProductWithDetails.supportRequests ProductWithDetails.reviews].
    repeat split.
    unfold getReviewsByProduct. apply JsArrayFacts.sort_In, filter_In.
    split; [|apply String.eqb_refl].
    cbn [reviews with_reviews]. unfold JsMap.values.
    change review with (snd (uuid, review)). apply in_map.
    apply JsMapFacts.In_set_new.
Qed.

(* ================================================================== *)
(** ** The further properties on the sample data *)

Lemma reachable_busyStore : reachable utcZone noParse busyStore.
Proof.
  unfold busyStore. apply reachable_run.
  apply (reachable_new utcZone noParse seedId).
Qed.

Lemma busyStore_widget : getProduct busyStore "p-1" = Some widgetStored.
Proof. vm_compute. reflexivity. Qed.

(** The two reviews of the Widget, newest first. *)
Lemma getReviewsByProduct_newest_first_witness :
  reachable utcZone noParse busyStore /\
  descendingBy (fun r => timeOf (Review.createdAt r))
               (getReviewsByProduct busyStore "p-1") /\
  Permutation (getAllReviews busyStore) (JsMap.values (reviews busyStore)).
Proof.
  split; [exact reachable_busyStore|].
  destruct (getReviewsByProduct_newest_first utcZone noParse busyStore "p-1"
              reachable_busyStore) as (_ & A & B & _).
  split; [exact A|exact B].
Defined.

(** A third review of the Widget. *)
Lemma createReview_lookup_witness :
  let made := createReview busyStore (opinion "p-1") "rv-3" 7000 in
  getReview busyStore "rv-3" = None /\
  getReview (snd made) "rv-3" = Some (fst made) /\
  In (fst made) (getReviewsByProduct (snd made) "p-1") /\
  Permutation (getAllReviews (snd made)) (fst made :: getAllReviews busyStore).
Proof.
  cbv zeta.
  assert (G : getReview busyStore "rv-3" = None) by (vm_compute; reflexivity).
  pose proof (createReview_lookup busyStore (opinion "p-1") "rv-3" 7000 G)
    as H.
  cbv zeta in H. destruct H as (A & _ & _ & _ & B & _ & C).
  split; [exact G|]. split; [exact A|]. split; [exact B|exact C].
Defined.

(** FixIt deleted with its review. *)
Lemma deleteServiceProvider_cascade_witness :
  let s' := snd (deleteServiceProvider busyStore "sp-1") in
  reachable utcZone noParse busyStore /\
  fst (deleteServiceProvider busyStore "sp-1") = true /\
  getServiceProvider s' "sp-1" = None /\
  getServiceProviderReviews s' "sp-1" = [] /\
  deleteServiceProvider s' "sp-1" = (false, s').
Proof.
  cbv zeta.
  pose proof (deleteServiceProvider_cascade utcZone noParse busyStore "sp-1"
                reachable_busyStore) as H.
  cbv zeta in H. destruct H as (A & B & C & _ & _ & D).
  assert (E : JsMap.has "sp-1" (serviceProviders busyStore) = true)
    by (vm_compute; reflexivity).
  rewrite E in A.
  split; [exact reachable_busyStore|]. split; [exact A|].
  split; [exact B|]. split; [exact C|exact D].
Defined.

(** The Widget deleted: FixIt, its review and the favorite stay. *)
Lemma deleteProduct_keeps_others_witness :
  let s' := snd (deleteProduct busyStore "p-1") in
  reachable utcZone noParse busyStore /\
  brands s' = brands busyStore /\
  serviceProviders s' = serviceProviders busyStore /\
  serviceProviderReviews s' = serviceProviderReviews busyStore /\
  favorites s' = favorites busyStore.
Proof.
  cbv zeta.
  pose proof (deleteProduct_keeps_others utcZone noParse busyStore "p-1"
                reachable_busyStore) as H.
  cbv zeta in H. destruct H as (_ & _ & A & B & C & _ & D & _).
  split; [exact reachable_busyStore|]. split; [exact A|].
  split; [exact B|]. split; [exact C|exact D].
Defined.

(** The purchase date of the Widget moved to 2024. *)
Lemma updateProduct_lookup_witness :
  let u := onlyPurchaseDate (Some d2024_01_15) in
  let s' := snd (updateProduct busyStore "p-1" u) in
  getProduct busyStore "p-1" = Some widgetStored /\
  getProduct s' "p-1" = Some (mergeProduct widgetStored u) /\
  map fst (products s') = map fst (products busyStore) /\
  updateProduct busyStore "p-1" PartialProduct.none
    = (Some widgetStored, busyStore).
Proof.
  cbv zeta.
  pose proof (updateProduct_lookup busyStore "p-1"
                (onlyPurchaseDate (Some d2024_01_15)) widgetStored
                busyStore_widget) as H.
  cbv zeta in H. destruct H as (_ & A & _ & B & C).
  split; [exact busyStore_widget|]. split; [exact A|].
  split; [exact B|exact C].
Defined.

(** The Widget extended to 2026 and then to 2027. *)
Lemma addWarrantyExtension_last_wins_witness :
  getProduct busyStore "p-1" = Some widgetStored /\
  addWarrantyExtension
    (snd (addWarrantyExtension busyStore "p-1" (extensionTo d2026_01_15)))
    "p-1" (extensionTo d2027_01_15)
  = addWarrantyExtension busyStore "p-1" (extensionTo d2027_01_15).
Proof.
  split; [exact busyStore_widget|].
  exact (addWarrantyExtension_last_wins busyStore "p-1"
           (extensionTo d2026_01_15) (extensionTo d2027_01_15) widgetStored
           busyStore_widget).
Defined.

(** The reminder of the Widget marked as sent. *)
Lemma markNotificationAsSent_unsent_witness :
  let s' := snd (markNotificationAsSent busyStore "n-1" 8000) in
  reachable utcZone noParse busyStore /\
  fst (markNotificationAsSent busyStore "n-1" 8000) = true /\
  (forall n, In n (getAllUnsentNotifications s')
             <-> In n (getAllUnsentNotifications busyStore)
                 /\ Notification.id n <> "n-1").
Proof.
  cbv zeta.
  pose proof (markNotificationAsSent_unsent utcZone noParse busyStore "n-1" 8000
                reachable_busyStore) as H.
  cbv zeta in H. destruct H as (A & B & _).
  assert (E : JsMap.has "n-1" (notifications busyStore) = true)
    by (vm_compute; reflexivity).
  rewrite E in A.
  split; [exact reachable_busyStore|]. split; [exact A|exact B].
Defined.

(** The favorite Widget. *)
Lemma getFavorites_agree_witness :
  reachable utcZone noParse busyStore /\
  (In "p-1" (getFavoriteProducts busyStore)
   <-> isFavorite busyStore "product" "p-1" = true) /\
  NoDup (getFavoriteProducts busyStore) /\
  NoDup (getFavoriteProviders busyStore).
Proof.
  destruct (getFavorites_agree utcZone noParse busyStore reachable_busyStore)
    as (A & _ & B & C).
  split; [exact reachable_busyStore|]. split; [exact (A "p-1")|].
  split; [exact B|exact C].
Defined.

(** FixIt made a favorite: the Widget stays one. *)
Lemma toggleFavorite_others_witness :
  reachable utcZone noParse busyStore /\
  JsMap.has "f-2" (favorites busyStore) = false /\
  ("product", "p-1") <> ("provider", "sp-1") /\
  isFavorite (snd (toggleFavorite busyStore "provider" "sp-1" "f-2" 9000))
             "product" "p-1"
  = isFavorite busyStore "product" "p-1".
Proof.
  assert (F : JsMap.has "f-2" (favorites busyStore) = false)
    by (vm_compute; reflexivity).
  assert (N : ("product", "p-1") <> ("provider", "sp-1")) by discriminate.
  split; [exact reachable_busyStore|]. split; [exact F|]. split; [exact N|].
  exact (toggleFavorite_others utcZone noParse busyStore "provider" "sp-1" "f-2"
           9000 "product" "p-1" reachable_busyStore F N).
Defined.

(** FixIt, rated 5, 4 and 5, gets a rating of 1. *)
Lemma createServiceProviderReview_rating_range_witness :
  let s' :=
    snd (createServiceProviderReview fixItStore (fixItReview 1) "r-4" 5000) in
  storedRatings fixItStore "sp-1" = [5; 4; 5] /\
  exists provider' rating,
    getServiceProvider s' "sp-1" = Some provider' /\
    ServiceProvider.averageRating provider' = Some rating /\
    1 <= rating <= 5.
Proof.
  cbv zeta.
  assert (G : getServiceProvider fixItStore "sp-1"
              = Some (ServiceProvider.mk "sp-1" "FixIt" "fixit@example.test"
                        None None "Rua 1" "Lisboa" "Lisboa" (Some [])
                        (Some 5) (Some 1000)))
    by (vm_compute; reflexivity).
  assert (E : storedRatings fixItStore "sp-1" = [5; 4; 5])
    by (vm_compute; reflexivity).
  assert (S : forall x, In x (storedRatings fixItStore "sp-1") -> 1 <= x <= 5).
  { rewrite E. intros x [<-|[<-|[<-|[]]]]; lia. }
  assert (L : 1 <= InsertServiceProviderReview.rating (fixItReview 1) <= 5)
    by (cbn; lia).
  split; [exact E|].
  exact (createServiceProviderReview_rating_range fixItStore (fixItReview 1)
           "r-4" 5000 _ 1 5 G S L).
Defined.

(** A review of a provider that was never stored. *)
Lemma createServiceProviderReview_unknown_provider_witness :
  let made := createServiceProviderReview freshStore (fixItReview 5) "r-1" 1000 in
  getServiceProvider freshStore "sp-1" = None /\
  getServiceProvider (snd made) "sp-1" = None /\
  In (fst made) (getServiceProviderReviews (snd made) "sp-1").
Proof.
  cbv zeta.
  assert (G : getServiceProvider freshStore "sp-1" = None)
    by (vm_compute; reflexivity).
  pose proof (createServiceProviderReview_unknown_provider freshStore
                (fixItReview 5) "r-1" 1000 G) as H.
  cbv zeta in H. destruct H as (_ & A & B).
  split; [exact G|]. split; [exact A|exact B].
Defined.


(** The Widget with the purchase date "soon". *)
Lemma createProduct_invalid_date_witness :
  let p := fst (createProduct utcZone noParse freshStore undatedWidget "p-1") in
  newDate noParse (InsertProduct.purchaseDate undatedWidget) = None /\
  Product.purchaseDate p = None /\
  Product.warrantyExpiration p = None /\
  certificateStatus (Product.warrantyExpiration p) d2025_06_01
    = ("VÁLIDA", Some None).
Proof.
  cbv zeta.
  assert (G : newDate noParse (InsertProduct.purchaseDate undatedWidget) = None)
    by reflexivity.
  pose proof (createProduct_invalid_date utcZone noParse freshStore undatedWidget
                "p-1" G) as H.
  cbv zeta in H. destruct H as (_ & A & B & C).
  split; [exact G|]. split; [exact A|]. split; [exact B|].
  exact (proj1 (C d2025_06_01)).
Defined.

(** The statistics of the sample store on 2025-06-01: one product, with
    less than a year of warranty left. *)
Lemma analyticsStats_average_witness :
  exists avg,
    AnalyticsStats.avgWarrantyExpiration
      (analyticsStats (fun _ => d2025_06_01) busyStore) = Some avg /\
    0 <= avg <= 365.
Proof.
  assert (V : JsMap.values (products busyStore) = [widgetStored])
    by (vm_compute; reflexivity).
  assert (H1 : 0 <= 365) by lia.
  assert (H2 : forall p, In p (JsMap.values (products busyStore)) ->
                 isValidDate (Product.warrantyExpiration p) = true).
  { rewrite V. intros p [<-|[]]. vm_compute. reflexivity. }
  assert (H3 : forall p (i : nat) d,
                 In p (JsMap.values (products busyStore)) ->
                 daysRemaining (Product.warrantyExpiration p) d2025_06_01
                   = Some d ->
                 d <= 365).
  { rewrite V. intros p i d [<-|[]] E.
    assert (D : daysRemaining (Product.warrantyExpiration widgetStored)
                  d2025_06_01 = Some 228) by (vm_compute; reflexivity).
    rewrite D in E. injection E as <-. lia. }
  pose proof (analyticsStats_average (fun _ => d2025_06_01) busyStore 365
                H1 H2 H3) as H.
  cbv zeta in H. destruct H as (avg & A & B & _).
  exists avg. split; [exact A|exact B].
Defined.

(** Every review of the sample store is found under its identifier. *)
Lemma reachable_lookup_by_id_witness :
  reachable utcZone noParse busyStore /\
  (forall r, In r (getAllReviews busyStore) ->
             getReview busyStore (Review.id r) = Some r).
Proof.
  split; [exact reachable_busyStore|].
  exact (proj1 (reachable_lookup_by_id utcZone noParse busyStore
                  reachable_busyStore)).
Defined.
